(** * NaviPlanner: a shallow embedding of
      modules/planning/planner/navi/navi_planner.cc

    Numbers.  The source computes on C++ [double].  They are modelled here
    as rationals [Q], and an arithmetic operation is the exact one, with one
    exception: the time counters of the polynomial stop profile and of its
    validity check are advanced as binary64 advances them, the sum being
    rounded to the nearest double ([round_to_double]), because the number
    of iterations of these loops depends on this rounding.  Infinities and
    NaN are outside the model.  Equality of numbers is [Qeq] ([==]).

    Loops.  A [for]/[while] loop whose counter is advanced only by its own
    increment visits the values listed by [range_lt] / [range_le]; the body
    is then a recursion over these values.  A loop that never ends yields
    [None].

    Effects.  The clock and whatever the decision tasks keep or read
    outside the candidate are an explicit world that is passed along. *)

From Stdlib Require Import QArith Qround Qabs Lqa ZArith Lia List Bool String
  Sorted.
Import ListNotations.
Local Open Scope Q_scope.

(** ** Comparisons on doubles *)

Definition Qlt_bool (x y : Q) : bool := negb (Qle_bool y x).

(** [std::fmin] and [std::fmax] on numbers that are not NaN. *)
Definition fmin (x y : Q) : Q := if Qlt_bool y x then y else x.
Definition fmax (x y : Q) : Q := if Qlt_bool x y then y else x.

(** ** Counted loops *)

(** The monad of computations that may not terminate. *)
Definition obind {A B : Type} (m : option A) (k : A -> option B) : option B :=
  match m with
  | Some a => k a
  | None => None
  end.

Notation "x <- m ;; k" := (obind m (fun x => k))
  (at level 61, m at next level, right associativity).
Notation "' pat <- m ;; k" := (obind m (fun x => match x with pat => k end))
  (at level 61, pat pattern, m at next level, right associativity).

(** The values [x, x + step, x + 2 step, ...] taken by a loop counter while
    [continue] holds; [None] when [fuel] iterations do not reach the exit.
    The counter is kept as a fraction in lowest terms ([Qred]), which does
    not change its value. *)
Fixpoint range_fuel (fuel : nat) (continue : Q -> bool) (step x : Q)
  : option (list Q) :=
  match fuel with
  | O => None
  | S fuel' =>
      if continue x
      then option_map (cons x)
                      (range_fuel fuel' continue step (Qred (x + step)))
      else Some []
  end.

(** Iterations enough for a loop from [x] to [bound] with a positive step. *)
Definition fuel_for (x bound step : Q) : nat :=
  S (S (Z.to_nat (Qceiling ((bound - x) / step)))).

(** [for (v = x; v < bound; v += step)] *)
Definition range_lt (x bound step : Q) : option (list Q) :=
  range_fuel (fuel_for x bound step) (fun v => Qlt_bool v bound) step x.

(** [for (v = x; v <= bound; v += step)] *)
Definition range_le (x bound step : Q) : option (list Q) :=
  range_fuel (fuel_for x bound step) (fun v => Qle_bool v bound) step x.

(** ** Counters of type double

    A double is a rational that binary64 represents.  [round_to_double]
    is the rounding of binary64 arithmetic: to the nearest double, a tie
    going to the double whose last bit is 0; below 2^-1022 the doubles
    are the multiples of 2^-1074.  Numbers too large for binary64 are not
    treated apart. *)

Definition pow2 (e : Z) : Q :=
  if (0 <=? e)%Z then inject_Z (2 ^ e) else 1 / inject_Z (2 ^ (- e)).

(** The exponent [k] of a number that is not zero:
    [2^k <= |q| < 2^(k+1)]. *)
Definition binade (q : Q) : Z :=
  let k := (Z.log2 (Z.abs (Qnum q)) - Z.log2 (Zpos (Qden q)))%Z in
  if Qle_bool (pow2 k) (Qabs q) then k else (k - 1)%Z.

(** The integer nearest to a number that is not negative, the even one
    when two are as near. *)
Definition nearest_even (q : Q) : Z :=
  let below := Qfloor q in
  match Qcompare (q - inject_Z below) (1 # 2) with
  | Lt => below
  | Gt => (below + 1)%Z
  | Eq => if Z.even below then below else (below + 1)%Z
  end.

(** The double nearest to [q]: 53 bits are kept from the leading one on,
    and none below 2^-1074. *)
Definition round_to_double (q : Q) : Q :=
  if Qeq_bool q 0 then 0
  else
    let e := Z.max (binade q - 52) (-1074) in
    let m := nearest_even (Qabs q / pow2 e) in
    Qred ((if Qlt_bool q 0 then - inject_Z m else inject_Z m) * pow2 e).

(** The values taken by a counter of type double that starts at the
    double [x] and is advanced by [counter += step] while [continue]
    holds; [None] when [fuel] iterations do not reach the exit. *)
Fixpoint double_range_fuel (fuel : nat) (continue : Q -> bool) (step x : Q)
  : option (list Q) :=
  match fuel with
  | O => None
  | S fuel' =>
      if continue x
      then option_map (cons x)
             (double_range_fuel fuel' continue step (round_to_double (x + step)))
      else Some []
  end.

(** Iterations enough for such a loop from [x] to [bound]: twice those of
    the exact counter, since an addition that moves a double at all moves
    it by at least half the step. *)
Definition double_fuel_for (x bound step : Q) : nat :=
  S (S (2 * Z.to_nat (Qceiling ((bound - x) / step)))).

(** [for (double v = x; v < bound; v += step)] *)
Definition double_range_lt (x bound step : Q) : option (list Q) :=
  double_range_fuel (double_fuel_for x bound step)
                    (fun v => Qlt_bool v bound) step x.

(** [for (double v = x; v <= bound; v += step)] *)
Definition double_range_le (x bound step : Q) : option (list Q) :=
  double_range_fuel (double_fuel_for x bound step)
                    (fun v => Qle_bool v bound) step x.

(** ** Data model

    The messages and classes below are declared outside navi_planner.cc;
    they are given with the fields and operations the planner uses. *)

(** [common::SpeedPoint]: one sample (s, t, v, a, da) of a speed profile. *)
Record SpeedPoint : Type := mkSpeedPoint {
  sp_s : Q;
  sp_t : Q;
  sp_v : Q;
  sp_a : Q;
  sp_da : Q
}.

(** Modelled from the spec: [SpeedData], a sequence of speed points;
    [AppendSpeedPoint] adds one sample at its end. *)
Definition SpeedData : Type := list SpeedPoint.

Definition AppendSpeedPoint (speed_data : SpeedData) (s t v a da : Q)
  : SpeedData :=
  speed_data ++ [mkSpeedPoint s t v a da].

(** [common::PathPoint] *)
Record PathPoint : Type := mkPathPoint {
  pp_x : Q;
  pp_y : Q;
  pp_z : Q;
  pp_theta : Q;
  pp_kappa : Q;
  pp_dkappa : Q;
  pp_ddkappa : Q;
  pp_s : Q
}.

(** [common::util::MakePathPoint(x, y, z, theta, kappa, dkappa, ddkappa)];
    the arc-length keeps its default value. *)
Definition MakePathPoint (x y z theta kappa dkappa ddkappa : Q) : PathPoint :=
  mkPathPoint x y z theta kappa dkappa ddkappa 0.

Definition set_s (p : PathPoint) (s : Q) : PathPoint :=
  mkPathPoint (pp_x p) (pp_y p) (pp_z p) (pp_theta p) (pp_kappa p)
              (pp_dkappa p) (pp_ddkappa p) s.

(** [common::TrajectoryPoint] *)
Record TrajectoryPoint : Type := mkTrajectoryPoint {
  tp_path_point : PathPoint;
  tp_v : Q;
  tp_a : Q;
  tp_relative_time : Q
}.

Definition DiscretizedTrajectory : Type := list TrajectoryPoint.

(** [ReferencePoint]: a point of a reference line. *)
Record ReferencePoint : Type := mkReferencePoint {
  rp_x : Q;
  rp_y : Q;
  rp_heading : Q;
  rp_kappa : Q;
  rp_dkappa : Q
}.

(** [common::SLPoint]; a fresh message has every field at zero. *)
Record SLPoint : Type := mkSLPoint {
  sl_s : Q;
  sl_l : Q
}.

Definition SLPoint_default : SLPoint := mkSLPoint 0 0.

Definition Vec2d : Type := (Q * Q)%type.

(** [ReferenceLine]: the geometry service of one reference line.
    [XYToSL xy sl] receives the output point [sl] as the caller holds it
    and returns the success flag with the point as the call leaves it. *)
Record ReferenceLine : Type := mkReferenceLine {
  GetReferencePoint : Q -> ReferencePoint;
  XYToSL : Vec2d -> SLPoint -> bool * SLPoint
}.

(** What the planner reads of a [PathObstacle]. *)
Record PathObstacle : Type := mkPathObstacle {
  IsVirtual : bool;
  IsStatic : bool;
  has_stop : bool
}.

(** One entry of the latency statistics. *)
Record TaskStats : Type := mkTaskStats {
  stats_name : string;
  stats_time_ms : Q
}.

(** Modelled from the spec: [common::Status], success or a failure that
    carries a human-readable message. *)
Inductive ErrorCode : Type := OK | PLANNING_ERROR.

Record Status : Type := mkStatus {
  code : ErrorCode;
  error_message : string
}.

Definition Status_OK : Status := mkStatus OK "".

Definition ok (st : Status) : bool :=
  match code st with
  | OK => true
  | PLANNING_ERROR => false
  end.

Definition ErrorCode_eqb (a b : ErrorCode) : bool :=
  match a, b with
  | OK, OK | PLANNING_ERROR, PLANNING_ERROR => true
  | _, _ => false
  end.

(** [operator==] on [Status]: same code and same message. *)
Definition Status_eqb (a b : Status) : bool :=
  ErrorCode_eqb (code a) (code b) &&
  String.eqb (error_message a) (error_message b).

(** Modelled from the spec: [ReferenceLineInfo], one candidate reference
    line of the cycle.  It owns one path, one speed profile, an accumulated
    cost to which [AddCost] adds, a priority cost set by [SetPriorityCost],
    a drivable flag, a change-lane flag and the obstacle decisions; the
    other fields are those the planner reads. *)
Record ReferenceLineInfo : Type := mkReferenceLineInfo {
  Cost : Q;
  PriorityCost : Q;
  IsChangeLanePath : bool;
  speed_data : SpeedData;
  path_data : list PathPoint;
  path_obstacles : list PathObstacle;
  latency_stats : list TaskStats;
  AdcPlanningPoint : TrajectoryPoint;
  AdcSlBoundary_end_s : Q;
  reference_line : ReferenceLine;
  trajectory : DiscretizedTrajectory;
  IsDrivable : bool
}.

Definition AddCost (r : ReferenceLineInfo) (c : Q) : ReferenceLineInfo :=
  mkReferenceLineInfo (Cost r + c) (PriorityCost r) (IsChangeLanePath r)
    (speed_data r) (path_data r) (path_obstacles r) (latency_stats r)
    (AdcPlanningPoint r) (AdcSlBoundary_end_s r) (reference_line r)
    (trajectory r) (IsDrivable r).

Definition SetPriorityCost (r : ReferenceLineInfo) (c : Q)
  : ReferenceLineInfo :=
  mkReferenceLineInfo (Cost r) c (IsChangeLanePath r)
    (speed_data r) (path_data r) (path_obstacles r) (latency_stats r)
    (AdcPlanningPoint r) (AdcSlBoundary_end_s r) (reference_line r)
    (trajectory r) (IsDrivable r).

Definition set_speed_vector (r : ReferenceLineInfo) (sd : SpeedData)
  : ReferenceLineInfo :=
  mkReferenceLineInfo (Cost r) (PriorityCost r) (IsChangeLanePath r)
    sd (path_data r) (path_obstacles r) (latency_stats r)
    (AdcPlanningPoint r) (AdcSlBoundary_end_s r) (reference_line r)
    (trajectory r) (IsDrivable r).

Definition SetDiscretizedPath (r : ReferenceLineInfo) (p : list PathPoint)
  : ReferenceLineInfo :=
  mkReferenceLineInfo (Cost r) (PriorityCost r) (IsChangeLanePath r)
    (speed_data r) p (path_obstacles r) (latency_stats r)
    (AdcPlanningPoint r) (AdcSlBoundary_end_s r) (reference_line r)
    (trajectory r) (IsDrivable r).

Definition add_task_stats (r : ReferenceLineInfo) (st : TaskStats)
  : ReferenceLineInfo :=
  mkReferenceLineInfo (Cost r) (PriorityCost r) (IsChangeLanePath r)
    (speed_data r) (path_data r) (path_obstacles r) (latency_stats r ++ [st])
    (AdcPlanningPoint r) (AdcSlBoundary_end_s r) (reference_line r)
    (trajectory r) (IsDrivable r).

Definition SetTrajectory (r : ReferenceLineInfo) (tr : DiscretizedTrajectory)
  : ReferenceLineInfo :=
  mkReferenceLineInfo (Cost r) (PriorityCost r) (IsChangeLanePath r)
    (speed_data r) (path_data r) (path_obstacles r) (latency_stats r)
    (AdcPlanningPoint r) (AdcSlBoundary_end_s r) (reference_line r)
    tr (IsDrivable r).

Definition SetDrivable (r : ReferenceLineInfo) (b : bool)
  : ReferenceLineInfo :=
  mkReferenceLineInfo (Cost r) (PriorityCost r) (IsChangeLanePath r)
    (speed_data r) (path_data r) (path_obstacles r) (latency_stats r)
    (AdcPlanningPoint r) (AdcSlBoundary_end_s r) (reference_line r)
    (trajectory r) b.

(** [Frame]: the planning cycle. *)
Record Frame : Type := mkFrame {
  PlanningStartPoint : TrajectoryPoint;
  reference_line_info : list ReferenceLineInfo;
  DriveReferenceLineInfo : option ReferenceLineInfo
}.

(** The configuration flags the planner reads. *)
Record Flags : Type := mkFlags {
  FLAGS_cost_non_priority_reference_line : Q;
  FLAGS_enable_trajectory_check : bool;
  FLAGS_enable_record_debug : bool;
  FLAGS_planning_upper_speed_limit : Q;
  FLAGS_trajectory_time_length : Q;
  FLAGS_trajectory_time_min_interval : Q;
  FLAGS_slowdown_profile_deceleration : Q
}.

Definition kPathOptimizationFallbackClost : Q := 20000.
Definition kSpeedOptimizationFallbackClost : Q := 20000.
Definition kStraightForwardLineCost : Q := 10.
Definition kRefrenceLineStaticObsCost : Q := 1000.

(** ** Collaborators outside navi_planner.cc *)

(** Modelled from the spec: [QuinticPolynomialCurve1d], the curve evaluator
    (its class is not part of navi_planner.cc).  A 5th-degree polynomial in
    time fixed by position, velocity and acceleration at both ends and by
    its duration, with closed-form coefficients; it evaluates the 0th to
    3rd derivative and reports its duration. *)
Record QuinticPolynomialCurve1d : Type := mkQuintic {
  coef0 : Q;
  coef1 : Q;
  coef2 : Q;
  coef3 : Q;
  coef4 : Q;
  coef5 : Q;
  ParamLength : Q
}.

Definition Quintic (x0 dx0 ddx0 x1 dx1 ddx1 p : Q) : QuinticPolynomialCurve1d :=
  let p2 := p * p in
  let p3 := p * p2 in
  let c0 := (x1 - (1#2) * p2 * ddx0 - dx0 * p - x0) / p3 in
  let c1 := (dx1 - ddx0 * p - dx0) / p2 in
  let c2 := (ddx1 - ddx0) / p in
  mkQuintic x0 dx0 (ddx0 / 2)
            ((1#2) * (20 * c0 - 8 * c1 + c2))
            ((-15 * c0 + 7 * c1 - c2) / p)
            ((6 * c0 - 3 * c1 + (1#2) * c2) / p2)
            p.

Definition Evaluate (c : QuinticPolynomialCurve1d) (order : nat) (p : Q) : Q :=
  match order with
  | 0%nat =>
      ((((coef5 c * p + coef4 c) * p + coef3 c) * p + coef2 c) * p + coef1 c) * p
      + coef0 c
  | 1%nat =>
      (((5 * coef5 c * p + 4 * coef4 c) * p + 3 * coef3 c) * p + 2 * coef2 c) * p
      + coef1 c
  | 2%nat =>
      ((20 * coef5 c * p + 12 * coef4 c) * p + 6 * coef3 c) * p + 2 * coef2 c
  | 3%nat =>
      (60 * coef5 c * p + 24 * coef4 c) * p + 6 * coef3 c
  | _ => 0
  end.

(** Modelled from the spec: [common::math::Clamp], which is not part of
    navi_planner.cc: the value limited to the interval between the bounds. *)
Definition Clamp (value bound1 bound2 : Q) : Q :=
  if Qlt_bool value bound1 then bound1
  else if Qlt_bool bound2 value then bound2
  else value.

(** ** The generators of navi_planner.cc that need no planner state *)

(** *** [NaviPlanner::GenerateFallbackPathProfile] *)

(** The path handed to [path_data->SetDiscretizedPath]. *)
Definition GenerateFallbackPathProfile (reference_line_info : ReferenceLineInfo)
  : option (list PathPoint) :=
  let adc_point := AdcPlanningPoint reference_line_info in
  let adc_s := AdcSlBoundary_end_s reference_line_info in
  let max_s := 150 in
  let unit_s := 1 in
  let adc_ref_point :=
    GetReferencePoint (reference_line reference_line_info) adc_s in
  let dx := pp_x (tp_path_point adc_point) - rp_x adc_ref_point in
  let dy := pp_y (tp_path_point adc_point) - rp_y adc_ref_point in
  ss <- range_lt adc_s max_s unit_s ;;
  Some (map (fun s =>
               let ref_point :=
                 GetReferencePoint (reference_line reference_line_info) adc_s in
               let path_point :=
                 MakePathPoint (rp_x ref_point + dx) (rp_y ref_point + dy) 0
                               (rp_heading ref_point) (rp_kappa ref_point)
                               (rp_dkappa ref_point) 0 in
               set_s path_point s)
            ss).

(** *** [NaviPlanner::GenerateStopProfile] (closed form, jerk limited) *)

Definition kFixedJerk : Q := -1.

Fixpoint GenerateStopProfile_loop (deceleration init_speed first_point_acc
                                   t_mid s_mid v_mid : Q)
    (ts : list Q) (pre_s : Q) (speed_data : SpeedData) : SpeedData :=
  match ts with
  | [] => speed_data
  | t :: ts' =>
      if Qle_bool t t_mid then
        let s := fmax pre_s (init_speed * t + (1#2) * first_point_acc * t * t +
                             1 / 6 * kFixedJerk * t * t * t) in
        let v := fmax 0 (init_speed + first_point_acc * t +
                         (1#2) * kFixedJerk * t * t) in
        let a := first_point_acc + kFixedJerk * t in
        GenerateStopProfile_loop deceleration init_speed first_point_acc
          t_mid s_mid v_mid ts' s (AppendSpeedPoint speed_data s t v a 0)
      else
        let s := fmax pre_s (s_mid + v_mid * (t - t_mid) +
                             (1#2) * deceleration * (t - t_mid) * (t - t_mid)) in
        let v := fmax 0 (v_mid + (t - t_mid) * deceleration) in
        GenerateStopProfile_loop deceleration init_speed first_point_acc
          t_mid s_mid v_mid ts' s
          (AppendSpeedPoint speed_data s t v deceleration 0)
  end.

Definition GenerateStopProfile (FLAGS : Flags) (init_speed init_acc : Q)
  : option SpeedData :=
  let deceleration := FLAGS_slowdown_profile_deceleration FLAGS in
  let first_point_acc := fmin 0 init_acc in
  let max_t := 3 in
  let unit_t := 2 # 100 in
  let pre_s := 0 in
  let t_mid := (deceleration - first_point_acc) / kFixedJerk in
  let s_mid := init_speed * t_mid + (1#2) * first_point_acc * t_mid * t_mid +
               1 / 6 * kFixedJerk * t_mid * t_mid * t_mid in
  let v_mid := init_speed + first_point_acc * t_mid +
               (1#2) * kFixedJerk * t_mid * t_mid in
  ts <- range_lt 0 max_t unit_t ;;
  Some (GenerateStopProfile_loop deceleration init_speed first_point_acc
          t_mid s_mid v_mid ts pre_s []).

(** *** [NaviPlanner::IsValidProfile] *)

Definition kEpsilon : Q := 1 # 1000.

Fixpoint IsValidProfile_loop (curve : QuinticPolynomialCurve1d) (ts : list Q)
  : bool :=
  match ts with
  | [] => true
  | evaluate_t :: ts' =>
      let v := Evaluate curve 1 evaluate_t in
      let a := Evaluate curve 2 evaluate_t in
      if Qlt_bool v (- kEpsilon) || Qlt_bool a (-5) then false
      else IsValidProfile_loop curve ts'
  end.

(** The counter starts at the double 0.1 and is advanced by the double
    0.2. *)
Definition IsValidProfile (curve : QuinticPolynomialCurve1d) : option bool :=
  ts <- double_range_le (round_to_double (1#10)) (ParamLength curve)
                        (round_to_double (2#10)) ;;
  Some (IsValidProfile_loop curve ts).

(** *** [NaviPlanner::GenerateStopProfileFromPolynomial] *)

Definition kMaxT : Q := 4.

(** The double 0.02. *)
Definition kUnitT : Q := round_to_double (2 # 100).

Definition sample_curve (curve : QuinticPolynomialCurve1d) (curve_t : Q)
  : SpeedPoint :=
  let curve_s := Evaluate curve 0 curve_t in
  let curve_v := Evaluate curve 1 curve_t in
  let curve_a := Evaluate curve 2 curve_t in
  let curve_da := Evaluate curve 3 curve_t in
  mkSpeedPoint curve_s curve_t curve_v curve_a curve_da.

(** The inner loop over the stop distance [s]; [Some (Some d)] is the
    [return speed_data] inside the loop, [Some None] its normal end. *)
Fixpoint polynomial_s_loop (init_speed init_acc t : Q) (ss : list Q)
  : option (option SpeedData) :=
  match ss with
  | [] => Some None
  | s :: ss' =>
      let curve := Quintic 0 init_speed init_acc s 0 0 t in
      valid <- IsValidProfile curve ;;
      if negb valid then polynomial_s_loop init_speed init_acc t ss'
      else
        curve_ts <- double_range_le 0 t kUnitT ;;
        Some (Some (map (sample_curve curve) curve_ts))
  end.

(** The outer loop over the stop duration [t]. *)
Fixpoint polynomial_t_loop (init_speed init_acc : Q) (ts : list Q)
  : option (option SpeedData) :=
  match ts with
  | [] => Some None
  | t :: ts' =>
      ss <- double_range_lt 0 50 1 ;;
      r <- polynomial_s_loop init_speed init_acc t ss ;;
      match r with
      | Some speed_data => Some (Some speed_data)
      | None => polynomial_t_loop init_speed init_acc ts'
      end
  end.

Definition GenerateStopProfileFromPolynomial (init_speed init_acc : Q)
  : option SpeedData :=
  ts <- double_range_le 2 kMaxT (1#2) ;;
  r <- polynomial_t_loop init_speed init_acc ts ;;
  match r with
  | Some speed_data => Some speed_data
  | None => Some []
  end.

(** *** [NaviPlanner::GenerateFallbackSpeedProfile] *)

Definition Empty {A : Type} (l : list A) : bool :=
  match l with
  | [] => true
  | _ :: _ => false
  end.

(** The value stored into [*speed_data]. *)
Definition GenerateFallbackSpeedProfile (FLAGS : Flags)
    (reference_line_info : ReferenceLineInfo) : option SpeedData :=
  speed_data <- GenerateStopProfileFromPolynomial
                  (tp_v (AdcPlanningPoint reference_line_info))
                  (tp_a (AdcPlanningPoint reference_line_info)) ;;
  if Empty speed_data
  then GenerateStopProfile FLAGS
         (tp_v (AdcPlanningPoint reference_line_info))
         (tp_a (AdcPlanningPoint reference_line_info))
  else Some speed_data.

(** *** [NaviPlanner::GenerateSpeedHotStart] *)

(** Here [t += interval] and [s += v * interval] are the exact sums. *)
Fixpoint GenerateSpeedHotStart_loop (interval v : Q) (ts : list Q) (s : Q)
    (hot_start_speed_profile : list SpeedPoint) : list SpeedPoint :=
  match ts with
  | [] => hot_start_speed_profile
  | t :: ts' =>
      let speed_point := mkSpeedPoint s t v 0 0 in
      GenerateSpeedHotStart_loop interval v ts' (s + v * interval)
        (hot_start_speed_profile ++ [speed_point])
  end.

Definition GenerateSpeedHotStart (FLAGS : Flags)
    (planning_init_point : TrajectoryPoint) : option (list SpeedPoint) :=
  let s := 0 in
  let t := 0 in
  let v := Clamp (tp_v planning_init_point) 5
                 (FLAGS_planning_upper_speed_limit FLAGS) in
  ts <- range_lt t (FLAGS_trajectory_time_length FLAGS)
                 (FLAGS_trajectory_time_min_interval FLAGS) ;;
  Some (GenerateSpeedHotStart_loop (FLAGS_trajectory_time_min_interval FLAGS)
          v ts s []).

(** ** The planner *)

Section Planner.

(** The gflags of the process. *)
Variable FLAGS : Flags.

(** Everything the planner does not own: the clock, the state the tasks
    keep between calls and the part of the frame the tasks read. *)
Variable World : Type.

(** [Clock::NowInSeconds()] *)
Variable NowInSeconds : World -> Q * World.

(** A decision task: [Name()] and [Execute(frame, reference_line_info)],
    which returns a status and may change the candidate in place. *)
Record Task : Type := mkTask {
  Name : string;
  Execute : World -> ReferenceLineInfo -> Status * ReferenceLineInfo * World
}.

(** [tasks_], filled once by [Init]. *)
Variable tasks_ : list Task.

(** [ReferenceLineInfo::IsStartFrom] *)
Variable IsStartFrom : ReferenceLineInfo -> ReferenceLineInfo -> bool.

(** [FrameHistory::instance()->Latest()] *)
Variable Latest : option Frame.

(** [ReferenceLineInfo::CombinePathAndSpeedProfile]: the assembled
    trajectory, or [None] where the source returns [false]. *)
Variable CombinePathAndSpeedProfile :
  Q -> Q -> ReferenceLineInfo -> option DiscretizedTrajectory.

(** [ConstraintChecker::ValidTrajectory] *)
Variable ValidTrajectory : DiscretizedTrajectory -> bool.

(** *** [NaviPlanner::RecordDebugInfo] *)

Definition RecordDebugInfo (reference_line_info : ReferenceLineInfo)
    (name : string) (time_diff_ms : Q) : ReferenceLineInfo :=
  if negb (FLAGS_enable_record_debug FLAGS) then reference_line_info
  else add_task_stats reference_line_info (mkTaskStats name time_diff_ms).

(** *** [NaviPlanner::GenerateInitSpeedProfile] *)

(** The loop over [last_speed_vector]. *)
Fixpoint GenerateInitSpeedProfile_loop (s_diff : Q)
    (last_speed_vector : list SpeedPoint) (start_time start_s : Q)
    (is_updated_start : bool) (speed_profile : list SpeedPoint)
  : list SpeedPoint :=
  match last_speed_vector with
  | [] => speed_profile
  | speed_point :: rest =>
      if Qlt_bool (sp_s speed_point) s_diff then
        GenerateInitSpeedProfile_loop s_diff rest start_time start_s
          is_updated_start speed_profile
      else
        let start_time :=
          if negb is_updated_start then sp_t speed_point else start_time in
        let start_s :=
          if negb is_updated_start then sp_s speed_point else start_s in
        let refined_speed_point :=
          mkSpeedPoint (sp_s speed_point - start_s)
                       (sp_t speed_point - start_time)
                       (sp_v speed_point) (sp_a speed_point)
                       (sp_da speed_point) in
        GenerateInitSpeedProfile_loop s_diff rest start_time start_s true
          (speed_profile ++ [refined_speed_point])
  end.

Definition xy_to_sl_error : string :=
  "Fail to transfer xy to sl when init speed profile".

(** The advance of the vehicle along the previous reference line, with
    the messages sent to [AERROR] on the way. *)
Definition warm_start_s_diff (planning_init_point : TrajectoryPoint)
    (last_frame : Frame) (last_reference_line_info : ReferenceLineInfo)
  : list string * Q :=
  let last_init_point := tp_path_point (PlanningStartPoint last_frame) in
  let last_xy_point := (pp_x last_init_point, pp_y last_init_point) in
  let '(ok1, last_sl_point) :=
    XYToSL (reference_line last_reference_line_info) last_xy_point
           SLPoint_default in
  let log1 := if negb ok1 then [xy_to_sl_error] else [] in
  let xy_point := (pp_x (tp_path_point planning_init_point),
                   pp_y (tp_path_point planning_init_point)) in
  let '(ok2, sl_point) :=
    XYToSL (reference_line last_reference_line_info) xy_point
           SLPoint_default in
  let log2 := if negb ok2 then [xy_to_sl_error] else [] in
  (log1 ++ log2, sl_s sl_point - sl_s last_sl_point).

(** The error log of the call and the returned speed profile. *)
Definition GenerateInitSpeedProfile (planning_init_point : TrajectoryPoint)
    (reference_line_info : ReferenceLineInfo)
  : list string * list SpeedPoint :=
  match Latest with
  | None => ([], [])
  | Some last_frame =>
      match DriveReferenceLineInfo last_frame with
      | None => ([], [])
      | Some last_reference_line_info =>
          if negb (IsStartFrom reference_line_info last_reference_line_info)
          then ([], [])
          else
            let last_speed_vector := speed_data last_reference_line_info in
            if negb (Empty last_speed_vector) then
              let '(log, s_diff) :=
                warm_start_s_diff planning_init_point last_frame
                                  last_reference_line_info in
              (log, GenerateInitSpeedProfile_loop s_diff last_speed_vector
                      0 0 false [])
            else ([], [])
      end
  end.

(** *** [NaviPlanner::PlanOnReferenceLine] *)

(** The speed profile the candidate is seeded with: the warm start, or
    the hot start when the warm start is empty. *)
Definition seed_speed_profile (planning_init_point : TrajectoryPoint)
    (reference_line_info : ReferenceLineInfo) : option (list SpeedPoint) :=
  let speed_profile :=
    snd (GenerateInitSpeedProfile planning_init_point reference_line_info) in
  if Empty speed_profile
  then GenerateSpeedHotStart FLAGS planning_init_point
  else Some speed_profile.

(** The loop over [tasks_]; [ret] is the status of the last task run. *)
Fixpoint run_tasks (tasks : list Task) (ret : Status)
    (reference_line_info : ReferenceLineInfo) (w : World)
  : Status * ReferenceLineInfo * World :=
  match tasks with
  | [] => (ret, reference_line_info, w)
  | task :: rest =>
      let '(start_timestamp, w) := NowInSeconds w in
      let '(ret, reference_line_info, w) :=
        Execute task w reference_line_info in
      if negb (ok ret) then (ret, reference_line_info, w)
      else
        let '(end_timestamp, w) := NowInSeconds w in
        let time_diff_ms := (end_timestamp - start_timestamp) * 1000 in
        let reference_line_info :=
          RecordDebugInfo reference_line_info (Name task) time_diff_ms in
        run_tasks rest ret reference_line_info w
  end.

(** An obstacle that costs the candidate [kRefrenceLineStaticObsCost]. *)
Definition blocking (path_obstacle : PathObstacle) : bool :=
  negb (IsVirtual path_obstacle) && IsStatic path_obstacle &&
  has_stop path_obstacle.

(** The loop over the path obstacles. *)
Fixpoint static_obstacle_loop (obstacles : list PathObstacle)
    (reference_line_info : ReferenceLineInfo) : ReferenceLineInfo :=
  match obstacles with
  | [] => reference_line_info
  | path_obstacle :: rest =>
      if IsVirtual path_obstacle then
        static_obstacle_loop rest reference_line_info
      else if negb (IsStatic path_obstacle) then
        static_obstacle_loop rest reference_line_info
      else if has_stop path_obstacle then
        static_obstacle_loop rest
          (AddCost reference_line_info kRefrenceLineStaticObsCost)
      else static_obstacle_loop rest reference_line_info
  end.

Definition aggregate_error : string :=
  "Fail to aggregate planning trajectory.".
Definition validate_error : string :=
  "Failed to validate current planning trajectory.".

(** The first part of [PlanOnReferenceLine], up to the task loop. *)
Definition PlanOnReferenceLine_seed (planning_init_point : TrajectoryPoint)
    (reference_line_info : ReferenceLineInfo) : option ReferenceLineInfo :=
  let reference_line_info :=
    if negb (IsChangeLanePath reference_line_info)
    then AddCost reference_line_info kStraightForwardLineCost
    else reference_line_info in
  speed_profile <- seed_speed_profile planning_init_point
                                      reference_line_info ;;
  Some (set_speed_vector reference_line_info speed_profile).

(** The last part of [PlanOnReferenceLine], after the task loop that
    ended with status [ret].  [RecordObstacleDebugInfo] only fills the
    debug message, which no modelled field holds. *)
Definition PlanOnReferenceLine_finish (planning_init_point : TrajectoryPoint)
    (ret : Status) (reference_line_info : ReferenceLineInfo)
  : option (Status * ReferenceLineInfo) :=
  reference_line_info <-
    (if Empty (path_data reference_line_info) then
       path_points <- GenerateFallbackPathProfile reference_line_info ;;
       Some (AddCost (SetDiscretizedPath reference_line_info path_points)
                     kPathOptimizationFallbackClost)
     else Some reference_line_info) ;;
  reference_line_info <-
    (if negb (ok ret) || Empty (speed_data reference_line_info) then
       speed <- GenerateFallbackSpeedProfile FLAGS reference_line_info ;;
       Some (AddCost (set_speed_vector reference_line_info speed)
                     kSpeedOptimizationFallbackClost)
     else Some reference_line_info) ;;
  match CombinePathAndSpeedProfile
          (tp_relative_time planning_init_point)
          (pp_s (tp_path_point planning_init_point))
          reference_line_info with
  | None => Some (mkStatus PLANNING_ERROR aggregate_error,
                  reference_line_info)
  | Some trajectory =>
      let reference_line_info :=
        static_obstacle_loop (path_obstacles reference_line_info)
                             reference_line_info in
      if FLAGS_enable_trajectory_check FLAGS &&
         negb (ValidTrajectory trajectory)
      then Some (mkStatus PLANNING_ERROR validate_error,
                 reference_line_info)
      else Some (Status_OK,
                 SetDrivable (SetTrajectory reference_line_info trajectory)
                             true)
  end.

Definition PlanOnReferenceLine (planning_init_point : TrajectoryPoint)
    (reference_line_info : ReferenceLineInfo) (w : World)
  : option (Status * ReferenceLineInfo * World) :=
  reference_line_info <- PlanOnReferenceLine_seed planning_init_point
                                                  reference_line_info ;;
  let '(ret, reference_line_info, w) :=
    run_tasks tasks_ Status_OK reference_line_info w in
  ' (status, reference_line_info) <-
    PlanOnReferenceLine_finish planning_init_point ret reference_line_info ;;
  Some (status, reference_line_info, w).

(** *** [NaviPlanner::Plan] *)

Definition plan_error : string := "Failed to plan on any reference line.".

(** The candidate as [Plan] hands it to [PlanOnReferenceLine]. *)
Definition with_priority (index : nat)
    (reference_line_info : ReferenceLineInfo) : ReferenceLineInfo :=
  if negb (index =? 0)%nat
  then SetPriorityCost reference_line_info
                       (FLAGS_cost_non_priority_reference_line FLAGS)
  else SetPriorityCost reference_line_info 0.

(** The loop over the candidates of the frame. *)
Fixpoint Plan_loop (planning_init_point : TrajectoryPoint)
    (infos : list ReferenceLineInfo) (index success_line_count : nat)
    (w : World) : option (list ReferenceLineInfo * nat * World) :=
  match infos with
  | [] => Some ([], success_line_count, w)
  | reference_line_info :: rest =>
      let reference_line_info := with_priority index reference_line_info in
      ' (status, reference_line_info, w) <-
        PlanOnReferenceLine planning_init_point reference_line_info w ;;
      let success_line_count :=
        if negb (Status_eqb status Status_OK) then success_line_count
        else (success_line_count + 1)%nat in
      ' (rest, success_line_count, w) <-
        Plan_loop planning_init_point rest (index + 1)%nat
                  success_line_count w ;;
      Some (reference_line_info :: rest, success_line_count, w)
  end.

Definition Plan (planning_init_point : TrajectoryPoint) (frame : Frame)
    (w : World) : option (Status * Frame * World) :=
  ' (infos, success_line_count, w) <-
    Plan_loop planning_init_point (reference_line_info frame) 0 0 w ;;
  let frame := mkFrame (PlanningStartPoint frame) infos
                       (DriveReferenceLineInfo frame) in
  if (0 <? success_line_count)%nat then Some (Status_OK, frame, w)
  else Some (mkStatus PLANNING_ERROR plan_error, frame, w).

(** *** Notions used to state the properties of the planner *)

(** The tasks whose [Execute] the task loop calls, in order, each with the
    status it returned and with the time it took in milliseconds: the
    clock at the return of [Execute] less the clock before its call. *)
Fixpoint executed_tasks (tasks : list Task)
    (reference_line_info : ReferenceLineInfo) (w : World)
  : list (Task * Status * Q) :=
  match tasks with
  | [] => []
  | task :: rest =>
      let '(start_timestamp, w) := NowInSeconds w in
      let '(ret, reference_line_info, w) :=
        Execute task w reference_line_info in
      let '(end_timestamp, w) := NowInSeconds w in
      let time_diff_ms := (end_timestamp - start_timestamp) * 1000 in
      if negb (ok ret) then [(task, ret, time_diff_ms)]
      else
        (task, ret, time_diff_ms) ::
        executed_tasks rest
          (RecordDebugInfo reference_line_info (Name task) time_diff_ms) w
  end.

(** [PlanEach p index infos w results w']: from the world [w], calling
    [PlanOnReferenceLine] on the candidates [infos] one after the other,
    the first of them at position [index], gives for each of them the
    status and the candidate of [results], and leaves the world [w']. *)
Inductive PlanEach (planning_init_point : TrajectoryPoint)
  : nat -> list ReferenceLineInfo -> World ->
    list (Status * ReferenceLineInfo) -> World -> Prop :=
| PlanEach_nil : forall index w,
    PlanEach planning_init_point index [] w [] w
| PlanEach_cons : forall index info rest w status info' w' results w'',
    PlanOnReferenceLine planning_init_point (with_priority index info) w
    = Some (status, info', w') ->
    PlanEach planning_init_point (S index) rest w' results w'' ->
    PlanEach planning_init_point index (info :: rest) w
             ((status, info') :: results) w''.

End Planner.

(** ** [NaviPlanner::Init] *)

Section PlannerInit.

Variable World : Type.

(** [TaskType], the identifiers of the configuration, and
    [PlanningConfig] with [config.navi_planner_config().task()]. *)
Variable TaskType : Type.
Variable PlanningConfig : Type.
Variable navi_planner_config_task : PlanningConfig -> list TaskType.

(** A task object: the task as the planner runs it and its
    [Init(config)], which may change what the task keeps. *)
Record TaskObject : Type := mkTaskObject {
  object_task : Task World;
  object_Init : PlanningConfig -> World -> bool * World
}.

(** [task_factory_.CreateObject], once [RegisterTasks] has filled the
    factory; [None] is the null pointer. *)
Variable CreateObject : TaskType -> option TaskObject.

(** The first loop of [Init]: one task per entry of the configuration is
    added at the end of [tasks_].  The name of the task just added is
    logged, so that a null pointer is dereferenced there: [None]. *)
Fixpoint Init_create (types : list TaskType) (tasks_ : list TaskObject)
  : option (list TaskObject) :=
  match types with
  | [] => Some tasks_
  | task :: rest =>
      match CreateObject task with
      | None => None
      | Some created => Init_create rest (tasks_ ++ [created])
      end
  end.

Definition init_error (name : string) : string :=
  ("Init task[" ++ name ++ "] failed.")%string.

(** The second loop of [Init], over all of [tasks_]. *)
Fixpoint Init_tasks (config : PlanningConfig) (tasks : list TaskObject)
    (w : World) : Status * World :=
  match tasks with
  | [] => (Status_OK, w)
  | task :: rest =>
      let '(initialized, w) := object_Init task config w in
      if negb initialized
      then (mkStatus PLANNING_ERROR (init_error (Name World (object_task task))),
            w)
      else Init_tasks config rest w
  end.

(** The status, the new [tasks_] and the world; [None] when a null task
    is used. *)
Definition Init (config : PlanningConfig) (tasks_ : list TaskObject)
    (w : World) : option (Status * list TaskObject * World) :=
  tasks_ <- Init_create (navi_planner_config_task config) tasks_ ;;
  let '(status, w) := Init_tasks config tasks_ w in
  Some (status, tasks_, w).

End PlannerInit.

(** ** [NaviPlanner::RecordObstacleDebugInfo] *)

Section ObstacleDebug.

(** [SLBoundary] and [ObjectDecisionType], copied as they are. *)
Variable SLBoundary : Type.
Variable ObjectDecisionType : Type.

(** What the function reads of a path obstacle. *)
Record ObstacleRecord : Type := mkObstacleRecord {
  Id : string;
  PerceptionSLBoundary : SLBoundary;
  decider_tags : list string;
  decisions : list ObjectDecisionType
}.

(** One entry of the debug data. *)
Record ObstacleDebug : Type := mkObstacleDebug {
  debug_id : string;
  debug_sl_boundary : SLBoundary;
  debug_decision_tag : list (string * ObjectDecisionType)
}.

(** The loop over [i < decider_tags.size()], from the tag at index [i]
    on; [None] when [decisions[i]] is read beyond the end of the vector. *)
Fixpoint add_decision_tags (tags : list string) (i : nat)
    (decisions : list ObjectDecisionType)
    (decision_tag : list (string * ObjectDecisionType))
  : option (list (string * ObjectDecisionType)) :=
  match tags with
  | [] => Some decision_tag
  | tag :: rest =>
      match nth_error decisions i with
      | None => None
      | Some decision =>
          add_decision_tags rest (S i) decisions
                            (decision_tag ++ [(tag, decision)])
      end
  end.

(** The loop over the path obstacles; [obstacle] is the list
    [planning_data.obstacle] of the debug message. *)
Fixpoint RecordObstacleDebugInfo_loop (path_obstacles : list ObstacleRecord)
    (obstacle : list ObstacleDebug) : option (list ObstacleDebug) :=
  match path_obstacles with
  | [] => Some obstacle
  | path_obstacle :: rest =>
      decision_tag <- add_decision_tags (decider_tags path_obstacle) 0
                                        (decisions path_obstacle) [] ;;
      RecordObstacleDebugInfo_loop rest
        (obstacle ++ [mkObstacleDebug (Id path_obstacle)
                                      (PerceptionSLBoundary path_obstacle)
                                      decision_tag])
  end.

Definition RecordObstacleDebugInfo (FLAGS : Flags)
    (path_obstacles : list ObstacleRecord) (obstacle : list ObstacleDebug)
  : option (list ObstacleDebug) :=
  if negb (FLAGS_enable_record_debug FLAGS) then Some obstacle
  else RecordObstacleDebugInfo_loop path_obstacles obstacle.

End ObstacleDebug.

(** ** Auxiliary notions of the properties *)

(** The samples the loop keeps. *)
Definition kept (s_diff : Q) (p : SpeedPoint) : bool :=
  negb (Qlt_bool (sp_s p) s_diff).

(** A sample re-based on the origin ([start_time], [start_s]). *)
Definition rebase (start_time start_s : Q) (p : SpeedPoint) : SpeedPoint :=
  mkSpeedPoint (sp_s p - start_s) (sp_t p - start_time)
               (sp_v p) (sp_a p) (sp_da p).

(** The two orders of a speed profile: time strictly increasing and
    arc-length non-decreasing from each sample to the next. *)
Definition t_increasing (sd : SpeedData) : Prop :=
  Sorted (fun p q => sp_t p < sp_t q) sd.

Definition s_nondecreasing (sd : SpeedData) : Prop :=
  Sorted (fun p q => sp_s p <= sp_s q) sd.

(** The sampling times of the closed-form stop profile: 0, 0.02, ...,
    2.98, as fractions in lowest terms. *)
Definition stop_profile_times : list Q :=
  map (fun k => Qred (inject_Z (Z.of_nat k) * (2 # 100))) (seq 0 150).

(** ** The polynomial search as the specification words it *)

(** The candidate durations 2.0, 2.5, ..., 4.0 and distances 0, 1, ..., 49. *)
Definition candidate_durations : list Q := [2; 5 # 2; 3; 7 # 2; 4].

Definition candidate_distances : list Q :=
  map (fun k => inject_Z (Z.of_nat k)) (seq 0 50).

(** The candidate pairs in the order of the search: the distance varies
    fastest. *)
Definition candidate_pairs : list (Q * Q) :=
  flat_map (fun t => map (fun s => (t, s)) candidate_distances)
           candidate_durations.

(** The first [n] values of a double that starts at [x] and to which
    [step] is added again and again, each sum in double precision. *)
Fixpoint accumulated (n : nat) (step x : Q) : list Q :=
  match n with
  | O => []
  | S n' => x :: accumulated n' step (round_to_double (x + step))
  end.

(** The times [origin], [origin + step], [origin + 2 step], ...,
    accumulated in double precision, that are not beyond [last]. *)
Definition sample_times (origin step last : Q) : list Q :=
  filter (fun time => Qle_bool time last)
         (accumulated (Z.to_nat (Qceiling ((last - origin) / step)) + 2)
                      step origin).

(** [times] are the instants [origin + k step], k = 0, 1, ..., each up to
    a rounding error of at most 1e-12: all those before [last], and
    possibly [last] itself. *)
Definition steps_up_to (origin step last : Q) (times : list Q) : Prop :=
  Forall2 (fun k time =>
             Qabs (time - (origin + inject_Z (Z.of_nat k) * step))
             <= 1 # 1000000000000)
          (seq 0 (List.length times)) times /\
  Forall (fun time => time <= last) times /\
  last <= origin + inject_Z (Z.of_nat (List.length times)) * step.

(** The curve from (0, v, a) to (s, 0, 0) over the duration [t]. *)
Definition stop_curve (init_speed init_acc t s : Q)
  : QuinticPolynomialCurve1d :=
  Quintic 0 init_speed init_acc s 0 0 t.

(** A curve is valid when, at the times 0.1, 0.3, 0.5, ... up to its
    duration, its velocity is not below -1e-3 and its acceleration is not
    below -5. *)
Definition valid_curve (curve : QuinticPolynomialCurve1d) : bool :=
  forallb (fun time =>
             Qle_bool (- (1 # 1000)) (Evaluate curve 1 time) &&
             Qle_bool (-5) (Evaluate curve 2 time))
          (sample_times (round_to_double (1 # 10)) (round_to_double (2 # 10))
                        (ParamLength curve)).

(** The first valid candidate, sampled every 0.02 s over its duration, or
    the empty profile when no candidate is valid. *)
Definition polynomial_search (init_speed init_acc : Q) : SpeedData :=
  match find (fun c => valid_curve (stop_curve init_speed init_acc
                                               (fst c) (snd c)))
             candidate_pairs with
  | Some (t, s) =>
      let curve := stop_curve init_speed init_acc t s in
      map (fun time =>
             mkSpeedPoint (Evaluate curve 0 time) time (Evaluate curve 1 time)
                          (Evaluate curve 2 time) (Evaluate curve 3 time))
          (sample_times 0 (round_to_double (2 # 100)) t)
  | None => []
  end.

(** ** Decision procedures used in the proofs *)

(** Strictly increasing lists. *)
Fixpoint increasing_from (x : Q) (l : list Q) : bool :=
  match l with
  | [] => true
  | y :: l' => Qlt_bool x y && increasing_from y l'
  end.

Definition increasing (l : list Q) : bool :=
  match l with
  | [] => true
  | x :: l' => increasing_from x l'
  end.

(** [steps_up_to], decided. *)
Fixpoint near_steps (origin step : Q) (k : nat) (times : list Q) : bool :=
  match times with
  | [] => true
  | time :: times' =>
      Qle_bool (Qabs (time - (origin + inject_Z (Z.of_nat k) * step)))
               (1 # 1000000000000)
      && near_steps origin step (S k) times'
  end.

Definition steps_up_to_bool (origin step last : Q) (times : list Q) : bool :=
  near_steps origin step 0 times
  && forallb (fun time => Qle_bool time last) times
  && Qle_bool last (origin + inject_Z (Z.of_nat (List.length times)) * step).

(** ** Concrete inputs *)

(** A straight reference line along the x axis: its point at arc-length
    [s] is (s, 0), and every point of the plane projects onto it. *)
Definition straight_line : ReferenceLine :=
  mkReferenceLine (fun s => mkReferencePoint s 0 0 0 0)
                  (fun xy _ => (true, mkSLPoint (fst xy) (snd xy))).

(** A vehicle at (x, y) with speed [v] and acceleration [a]. *)
Definition vehicle_at (x y v a : Q) : TrajectoryPoint :=
  mkTrajectoryPoint (mkPathPoint x y 0 0 0 0 0 0) v a 0.

(** A fresh candidate on [line] for the vehicle [adc] at arc-length [adc_s]. *)
Definition candidate (line : ReferenceLine) (adc : TrajectoryPoint)
    (adc_s : Q) : ReferenceLineInfo :=
  mkReferenceLineInfo 0 0 false [] [] [] [] adc adc_s line [] false.

(** The vehicle at arc-length 148, offset by (0.3, -0.2) from the line. *)
Definition offset_candidate : ReferenceLineInfo :=
  candidate straight_line (vehicle_at (1483 # 10) (- (2 # 10)) 0 0) 148.

(** The vehicle at arc-length 150. *)
Definition far_candidate : ReferenceLineInfo :=
  candidate straight_line (vehicle_at 150 0 0 0) 150.

(** A reference line whose projection always fails and leaves the output
    point as it received it. *)
Definition blind_line : ReferenceLine :=
  mkReferenceLine (fun s => mkReferencePoint s 0 0 0 0)
                  (fun _ sl => (false, sl)).

(** The speed profile of a previous cycle: 5 m/s, two samples. *)
Definition previous_profile : SpeedData :=
  [mkSpeedPoint 0 0 5 0 0; mkSpeedPoint (1 # 2) (1 # 10) 5 0 0].

(** The previous cycle: it started at the origin and selected a candidate
    on [line] that carries [previous_profile]. *)
Definition previous_frame (line : ReferenceLine) : Frame :=
  let selected := set_speed_vector (candidate line (vehicle_at 0 0 5 0) 0)
                                   previous_profile in
  mkFrame (vehicle_at 0 0 5 0) [selected] (Some selected).

(** Every reference line continues every other one. *)
Definition always_continues (_ _ : ReferenceLineInfo) : bool := true.

(** Flags of a usual configuration. *)
Definition usual_flags : Flags :=
  mkFlags 1000 true true 20 (1 # 2) (1 # 10) (- (5 # 2)).

(** A world that is only a clock: each reading advances it by 1 s. *)
Definition tick (now : Q) : Q * Q := (now, now + 1).

(** A task that fails and leaves the candidate as it is. *)
Definition failing_task : Task Q :=
  mkTask Q "failing" (fun w r => (mkStatus PLANNING_ERROR "no decision", r, w)).

(** A task that finds one static obstacle to stop for, and then fails. *)
Definition blocked_task : Task Q :=
  mkTask Q "blocked"
    (fun w r =>
       (mkStatus PLANNING_ERROR "blocked",
        mkReferenceLineInfo (Cost r) (PriorityCost r) (IsChangeLanePath r)
          (speed_data r) (path_data r) [mkPathObstacle false true true]
          (latency_stats r) (AdcPlanningPoint r) (AdcSlBoundary_end_s r)
          (reference_line r) (trajectory r) (IsDrivable r),
        w)).

(** A task that succeeds and writes a one-point path and speed profile. *)
Definition deciding_task : Task Q :=
  mkTask Q "deciding"
    (fun w r =>
       (Status_OK,
        SetDiscretizedPath
          (set_speed_vector r [mkSpeedPoint 0 0 5 0 0])
          [mkPathPoint 0 0 0 0 0 0 0 0],
        w)).

(** An assembly that always succeeds, with an empty trajectory, and one
    that always fails. *)
Definition combine_ok (_ _ : Q) (_ : ReferenceLineInfo)
  : option DiscretizedTrajectory := Some [].
Definition combine_fails (_ _ : Q) (_ : ReferenceLineInfo)
  : option DiscretizedTrajectory := None.

Definition valid_always (_ : DiscretizedTrajectory) : bool := true.

(** [PlanOnReferenceLine] for the first candidate of a cycle without
    history, with the single task [task], on a vehicle at rest offset from
    the line and at arc-length 148. *)
Definition plan_first_with (task : Task Q)
  : option (Status * ReferenceLineInfo * Q) :=
  PlanOnReferenceLine usual_flags Q tick [task] always_continues None
    combine_ok valid_always (vehicle_at (1483 # 10) (- (2 # 10)) 0 0)
    (with_priority usual_flags 0 offset_candidate) 0.

(** An assembly that succeeds only for the candidate with priority cost 0,
    the first one of the cycle. *)
Definition combine_first_only (_ _ : Q) (r : ReferenceLineInfo)
  : option DiscretizedTrajectory :=
  if Qeq_bool (PriorityCost r) 0 then Some [] else None.

(** A cycle with three candidates. *)
Definition three_candidates : Frame :=
  mkFrame (vehicle_at 0 0 5 0)
          [candidate straight_line (vehicle_at 0 0 5 0) 0;
           candidate straight_line (vehicle_at 0 1 5 0) 0;
           candidate straight_line (vehicle_at 0 2 5 0) 0]
          None.

(** A candidate to which the tasks gave a path and a speed profile. *)
Definition decided_candidate : ReferenceLineInfo :=
  SetDiscretizedPath
    (set_speed_vector (candidate straight_line (vehicle_at 0 0 5 0) 0)
                      [mkSpeedPoint 0 0 5 0 0])
    [mkPathPoint 0 0 0 0 0 0 0 0].

(** The last part of [PlanOnReferenceLine] on this candidate, after a task
    loop that succeeded. *)
Definition finish_decided : option (Status * ReferenceLineInfo) :=
  PlanOnReferenceLine_finish usual_flags combine_ok valid_always
    (vehicle_at 0 0 5 0) Status_OK decided_candidate.

(** A cycle without candidates. *)
Definition no_candidates : Frame := mkFrame (vehicle_at 0 0 5 0) [] None.

(** [Plan] on the three candidates of which only the first is assembled. *)
Definition plan_three : option (Status * Frame * Q) :=
  Plan usual_flags Q tick [deciding_task] always_continues None
    combine_first_only valid_always (vehicle_at 0 0 5 0) three_candidates 0.

(** A factory that knows two task types, numbered 0 and 1: the deciding
    task, whose [Init] succeeds, and the failing task, whose [Init] fails.
    The configuration is the list of its task types. *)
Definition two_tasks_created : list (TaskObject Q (list nat)) :=
  [mkTaskObject Q (list nat) deciding_task (fun _ w => (true, w));
   mkTaskObject Q (list nat) failing_task (fun _ w => (false, w))].

Definition two_task_factory (task : nat)
  : option (TaskObject Q (list nat)) :=
  nth_error two_tasks_created task.

(** Two obstacles, with boundaries and decisions written as numbers: the
    first with one tag and one decision, the second with two tags and
    three decisions. *)
Definition recorded_obstacles : list (ObstacleRecord Q nat) :=
  [mkObstacleRecord Q nat "1" 3 ["navi_path_decider"%string] [7%nat];
   mkObstacleRecord Q nat "2" 4
     ["navi_path_decider"%string; "navi_speed_decider"%string]
     [1%nat; 2%nat; 3%nat]].

(** An obstacle with a tag and no decision. *)
Definition short_decisions : list (ObstacleRecord Q nat) :=
  [mkObstacleRecord Q nat "3" 5 ["navi_path_decider"%string] []].

(** * Properties *)

(** ** Comparisons, loops and the collaborators *)

Lemma Qlt_bool_iff (x y : Q) : Qlt_bool x y = true <-> x < y.
Proof.
  unfold Qlt_bool. rewrite negb_true_iff.
  split; intro H.
  - apply Qnot_le_lt. intro L. apply Qle_bool_iff in L. congruence.
  - destruct (Qle_bool y x) eqn:E; [|reflexivity].
    apply Qle_bool_iff in E. exfalso. apply (Qlt_not_le _ _ H E).
Qed.

Lemma Qlt_bool_false (x y : Q) : Qlt_bool x y = false <-> y <= x.
Proof.
  unfold Qlt_bool. rewrite negb_false_iff. apply Qle_bool_iff.
Qed.

Lemma Qle_bool_false (x y : Q) : Qle_bool x y = false <-> y < x.
Proof.
  rewrite <- Qlt_bool_iff. unfold Qlt_bool.
  destruct (Qle_bool x y); simpl; intuition congruence.
Qed.

Lemma fmax_ge_l (x y : Q) : x <= fmax x y.
Proof.
  unfold fmax. destruct (Qlt_bool x y) eqn:E.
  - apply Qlt_bool_iff in E. lra.
  - lra.
Qed.

Lemma fmax_ge_r (x y : Q) : y <= fmax x y.
Proof.
  unfold fmax. destruct (Qlt_bool x y) eqn:E.
  - lra.
  - apply Qlt_bool_false in E. exact E.
Qed.

Section RangeFacts.

Variable continue : Q -> bool.
Variable step : Q.

Lemma range_fuel_mono (fuel : nat) :
  forall x l, range_fuel fuel continue step x = Some l ->
  forall fuel', (fuel <= fuel')%nat ->
  range_fuel fuel' continue step x = Some l.
Proof.
  induction fuel as [|n IH]; intros x l H fuel' Hle; [discriminate|].
  destruct fuel' as [|m]; [lia|].
  cbn [range_fuel] in *. destruct (continue x); [|exact H].
  destruct (range_fuel n continue step (Qred (x + step))) as [l'|] eqn:E;
    [|discriminate].
  rewrite (IH _ _ E m) by lia. exact H.
Qed.

Lemma range_fuel_all (fuel : nat) :
  forall x l, range_fuel fuel continue step x = Some l ->
  Forall (fun v => continue v = true) l.
Proof.
  induction fuel as [|n IH]; intros x l H; [discriminate|].
  cbn [range_fuel] in H. destruct (continue x) eqn:C.
  - destruct (range_fuel n continue step (Qred (x + step))) as [l'|] eqn:E;
      [|discriminate].
    injection H as <-. constructor; [exact C|eauto].
  - injection H as <-. constructor.
Qed.

Lemma range_fuel_head (fuel : nat) (x : Q) (l : list Q) :
  range_fuel fuel continue step x = Some l ->
  (continue x = true /\ exists l', l = x :: l') \/
  (continue x = false /\ l = []).
Proof.
  destruct fuel as [|n]; [discriminate|]. cbn [range_fuel].
  destruct (continue x).
  - destruct (range_fuel n continue step (Qred (x + step))) as [l'|];
      [|discriminate].
    intros [= <-]. left. eauto.
  - intros [= <-]. right. auto.
Qed.

Lemma range_fuel_step (fuel : nat) :
  forall x l, range_fuel fuel continue step x = Some l ->
  Sorted (fun u v => v == u + step) l.
Proof.
  induction fuel as [|n IH]; intros x l H; [discriminate|].
  cbn [range_fuel] in H. destruct (continue x).
  - destruct (range_fuel n continue step (Qred (x + step))) as [l'|] eqn:E;
      [|discriminate].
    injection H as <-.
    pose proof (IH _ _ E) as Hc.
    destruct (range_fuel_head _ _ _ E) as [[_ [l'' ->]]|[_ ->]];
      constructor; auto.
    constructor. apply Qred_correct.
  - injection H as <-. constructor.
Qed.

(** The element after the last one visited leaves the loop. *)
Lemma range_fuel_exit (fuel : nat) (d : Q) :
  forall x l, range_fuel fuel continue step x = Some l ->
  l <> [] -> continue (Qred (last l d + step)) = false.
Proof.
  induction fuel as [|n IH]; intros x l H Hne; [discriminate|].
  cbn [range_fuel] in H. destruct (continue x) eqn:C.
  - destruct (range_fuel n continue step (Qred (x + step))) as [l'|] eqn:E;
      [|discriminate].
    injection H as <-.
    destruct (range_fuel_head _ _ _ E) as [[_ [l'' ->]]|[Hc ->]].
    + change (last (x :: Qred (x + step) :: l'') d)
        with (last (Qred (x + step) :: l'') d).
      apply (IH _ _ E). discriminate.
    + cbn [last]. exact Hc.
  - injection H as <-. congruence.
Qed.

End RangeFacts.

(** *** Termination of counted loops with a positive step *)

Section RangeTermination.

Variable continue : Q -> bool.
Variables step bound : Q.
Hypothesis step_pos : 0 < step.
Hypothesis continue_bound : forall v, continue v = true -> v <= bound.

Lemma range_fuel_enough (n : nat) :
  forall x, bound - x < inject_Z (Z.of_nat n) * step ->
  exists l, range_fuel (S n) continue step x = Some l.
Proof.
  induction n as [|n IH]; intros x Hx.
  - cbn [range_fuel]. destruct (continue x) eqn:C; [|eauto].
    apply continue_bound in C.
    change (inject_Z (Z.of_nat 0)) with 0 in Hx. lra.
  - change (range_fuel (S (S n)) continue step x)
      with (if continue x
            then option_map (cons x)
                   (range_fuel (S n) continue step (Qred (x + step)))
            else Some []).
    destruct (continue x) eqn:C; [|eauto].
    destruct (IH (Qred (x + step))) as [l Hl].
    + rewrite Nat2Z.inj_succ, <- Z.add_1_r, inject_Z_plus in Hx.
      change (inject_Z 1) with 1 in Hx. rewrite Qred_correct. lra.
    + rewrite Hl. cbn [option_map]. eauto.
Qed.

Lemma fuel_for_enough (x : Q) :
  exists l, range_fuel (fuel_for x bound step) continue step x = Some l.
Proof.
  unfold fuel_for. apply range_fuel_enough.
  set (q := (bound - x) / step).
  assert (Hq : bound - x == q * step).
  { unfold q. field. lra. }
  rewrite Hq. apply Qmult_lt_compat_r; [exact step_pos|].
  apply Qle_lt_trans with (inject_Z (Qceiling q)); [apply Qle_ceiling|].
  rewrite <- Zlt_Qlt. lia.
Qed.

End RangeTermination.

Lemma range_lt_terminates (x bound step : Q) :
  0 < step -> exists l, range_lt x bound step = Some l.
Proof.
  intro Hs. unfold range_lt. apply fuel_for_enough; [exact Hs|].
  intros v Hv. apply Qlt_bool_iff in Hv. lra.
Qed.

Lemma range_le_terminates (x bound step : Q) :
  0 < step -> exists l, range_le x bound step = Some l.
Proof.
  intro Hs. unfold range_le. apply fuel_for_enough; [exact Hs|].
  intros v Hv. apply Qle_bool_iff in Hv. exact Hv.
Qed.

(** A loop whose counter does not advance towards the bound never ends. *)
Lemma range_fuel_diverges (continue : Q -> bool) (step bound : Q) :
  step <= 0 -> (forall v, v < bound -> continue v = true) ->
  forall fuel x, x < bound -> range_fuel fuel continue step x = None.
Proof.
  intros Hs Hc. induction fuel as [|n IH]; intros x Hx; [reflexivity|].
  cbn [range_fuel]. rewrite (Hc _ Hx). rewrite IH; [reflexivity|].
  rewrite Qred_correct. lra.
Qed.

Lemma range_lt_nonempty (x bound step : Q) (l : list Q) :
  range_lt x bound step = Some l -> x < bound -> exists l', l = x :: l'.
Proof.
  intros H Hx. apply range_fuel_head in H.
  destruct H as [[_ H]|[H _]]; [exact H|].
  apply Qlt_bool_false in H. lra.
Qed.

Lemma range_lt_empty (x bound step : Q) :
  bound <= x -> range_lt x bound step = Some [].
Proof.
  intro Hx. unfold range_lt, fuel_for. cbn [range_fuel].
  apply Qlt_bool_false in Hx. rewrite Hx. reflexivity.
Qed.

Lemma Status_eqb_eq (a b : Status) : Status_eqb a b = true <-> a = b.
Proof.
  destruct a as [ca ma], b as [cb mb]. unfold Status_eqb. simpl.
  rewrite andb_true_iff, String.eqb_eq.
  split.
  - intros [Hc ->]. destruct ca, cb; simpl in Hc; congruence.
  - intros [= -> ->]. destruct cb; auto.
Qed.

(** The modelled curve meets its six boundary conditions. *)
Lemma Quintic_boundary (x0 dx0 ddx0 x1 dx1 ddx1 p : Q) :
  ~ p == 0 ->
  let c := Quintic x0 dx0 ddx0 x1 dx1 ddx1 p in
  Evaluate c 0 0 == x0 /\ Evaluate c 1 0 == dx0 /\ Evaluate c 2 0 == ddx0 /\
  Evaluate c 0 p == x1 /\ Evaluate c 1 p == dx1 /\ Evaluate c 2 p == ddx1.
Proof.
  intros Hp c. unfold c, Quintic, Evaluate. simpl.
  repeat split; field; exact Hp.
Qed.

(** ** Lists and options *)

Lemma obind_Some {A B : Type} (m : option A) (k : A -> option B) (b : B) :
  obind m k = Some b -> exists a, m = Some a /\ k a = Some b.
Proof.
  destruct m as [a|]; simpl; [eauto|discriminate].
Qed.

Lemma Sorted_map_rel {A B : Type} (R : A -> A -> Prop) (R' : B -> B -> Prop)
    (f : A -> B) :
  (forall a b, R a b -> R' (f a) (f b)) ->
  forall l, Sorted R l -> Sorted R' (map f l).
Proof.
  intros HR l H. induction H as [|a l Hs IH Hh]; simpl; constructor.
  - exact IH.
  - destruct Hh; simpl; constructor; auto.
Qed.

Lemma Sorted_of_map {A B : Type} (R : B -> B -> Prop) (f : A -> B) :
  forall l, Sorted R (map f l) -> Sorted (fun a b => R (f a) (f b)) l.
Proof.
  induction l as [|a l IH]; intro H; [constructor|].
  simpl in H. inversion H as [|? ? Hs Hh]; subst.
  constructor; [auto|].
  destruct l; constructor. inversion Hh; subst. assumption.
Qed.

Lemma last_map {A B : Type} (f : A -> B) (l : list A) (d : A) :
  last (map f l) (f d) = f (last l d).
Proof.
  induction l as [|a [|b l] IH]; simpl in *; auto.
Qed.

(** ** The fallback path *)

(** The arc-lengths of the fallback path are the values of the loop
    counter; every other field is that of the point at [adc_s]. *)
Lemma GenerateFallbackPathProfile_s (r : ReferenceLineInfo)
    (pts : list PathPoint) :
  GenerateFallbackPathProfile r = Some pts ->
  range_lt (AdcSlBoundary_end_s r) 150 1 = Some (map pp_s pts).
Proof.
  unfold GenerateFallbackPathProfile.
  destruct (range_lt (AdcSlBoundary_end_s r) 150 1) as [ss|]; simpl;
    [|discriminate].
  intros [= <-]. rewrite map_map. simpl. rewrite map_id. reflexivity.
Qed.

Lemma GenerateFallbackPathProfile_beyond (r : ReferenceLineInfo) :
  150 <= AdcSlBoundary_end_s r -> GenerateFallbackPathProfile r = Some [].
Proof.
  intro H. unfold GenerateFallbackPathProfile.
  rewrite (range_lt_empty _ _ _ H). reflexivity.
Qed.

(** Every point of the fallback path is at the position of the vehicle
    and carries the heading and curvature of the reference point at
    [adc_s]; only the arc-length differs from point to point. *)
Lemma GenerateFallbackPathProfile_single_position (r : ReferenceLineInfo)
    (pts : list PathPoint) :
  GenerateFallbackPathProfile r = Some pts ->
  let adc := tp_path_point (AdcPlanningPoint r) in
  let adc_ref := GetReferencePoint (reference_line r) (AdcSlBoundary_end_s r) in
  Forall (fun p => pp_x p == pp_x adc /\ pp_y p == pp_y adc /\
                   pp_theta p = rp_heading adc_ref /\
                   pp_kappa p = rp_kappa adc_ref /\
                   pp_dkappa p = rp_dkappa adc_ref) pts.
Proof.
  unfold GenerateFallbackPathProfile. intro H.
  apply obind_Some in H. destruct H as [ss [_ H]]. injection H as <-.
  cbv zeta. rewrite Forall_map. apply Forall_forall. intros s _.
  cbn [set_s MakePathPoint pp_x pp_y pp_theta pp_kappa pp_dkappa].
  repeat split; lra.
Qed.

(** C1 (defect of the code).  The vehicle is at arc-length 148 on a
    straight line, offset by (0.3, -0.2).  The second fallback point has
    arc-length 149, yet its position is that of the first one: it is the
    reference point at 148 moved by the offset, and not the reference
    point at 149 moved by the offset, which the claim asks for. *)
Theorem GenerateFallbackPathProfile_reuses_adc_s :
  exists p0 p1 : PathPoint,
    GenerateFallbackPathProfile offset_candidate = Some [p0; p1] /\
    pp_s p0 == 148 /\ pp_s p1 == 149 /\
    pp_x p0 == 1483 # 10 /\ pp_x p1 == 1483 # 10 /\
    rp_x (GetReferencePoint straight_line (pp_s p1)) + (3 # 10) == 1493 # 10 /\
    ~ pp_x p1 == rp_x (GetReferencePoint straight_line (pp_s p1)) + (3 # 10).
Proof.
  do 2 eexists. split; [vm_compute; reflexivity|].
  repeat split; try reflexivity. intro H. discriminate H.
Qed.

(** C2 (as stated, refuted).  With the vehicle at arc-length 150 the
    fallback path is empty. *)
Lemma GenerateFallbackPathProfile_empty_at_150 :
  AdcSlBoundary_end_s far_candidate == 150 /\
  GenerateFallbackPathProfile far_candidate = Some [].
Proof.
  split; [reflexivity|]. vm_compute. reflexivity.
Qed.

(** C2 (amended).  The fallback path is always produced.  When the
    vehicle is below arc-length 150 it is not empty, starts at the
    vehicle's arc-length, advances by exactly 1 from point to point, stays
    below the absolute arc-length 150 and ends less than one step before
    it; when the vehicle is at or beyond 150 the path is empty. *)
Theorem GenerateFallbackPathProfile_covers (r : ReferenceLineInfo) :
  exists pts : list PathPoint,
    GenerateFallbackPathProfile r = Some pts /\
    if Qlt_bool (AdcSlBoundary_end_s r) 150 then
      (exists p rest, pts = p :: rest /\ pp_s p = AdcSlBoundary_end_s r /\
                      150 <= pp_s (last pts p) + 1) /\
      Sorted (fun a b => pp_s b == pp_s a + 1) pts /\
      Forall (fun p => pp_s p < 150) pts
    else pts = [].
Proof.
  destruct (Qlt_bool (AdcSlBoundary_end_s r) 150) eqn:E.
  - apply Qlt_bool_iff in E.
    destruct (range_lt_terminates (AdcSlBoundary_end_s r) 150 1) as [ss Hss];
      [reflexivity|].
    assert (Hg : exists pts, GenerateFallbackPathProfile r = Some pts).
    { unfold GenerateFallbackPathProfile. rewrite Hss. simpl. eauto. }
    destruct Hg as [pts Hg]. exists pts. split; [exact Hg|].
    pose proof (GenerateFallbackPathProfile_s _ _ Hg) as Hs.
    destruct (range_lt_nonempty _ _ _ _ Hs E) as [l' Hl'].
    destruct pts as [|p rest]; [discriminate|].
    simpl in Hl'. injection Hl' as Hp Hrest.
    split; [|split].
    + exists p, rest. split; [reflexivity|]. split; [exact Hp|].
      pose proof (range_fuel_exit _ _ _ (pp_s p) _ _ Hs) as Hx.
      rewrite last_map in Hx.
      rewrite <- (Qred_correct (pp_s (last (p :: rest) p) + 1)).
      apply Qlt_bool_false. apply Hx. discriminate.
    + apply range_fuel_step in Hs.
      apply Sorted_of_map in Hs. exact Hs.
    + apply range_fuel_all in Hs.
      rewrite Forall_map in Hs.
      eapply Forall_impl; [|exact Hs].
      intros q Hq. apply Qlt_bool_iff in Hq. exact Hq.
  - apply Qlt_bool_false in E. exists []. split; [|reflexivity].
    apply GenerateFallbackPathProfile_beyond. exact E.
Qed.

(** ** The closed-form stop profile *)

Lemma GenerateStopProfile_loop_length
    (dec v acc t_mid s_mid v_mid : Q) (ts : list Q) :
  forall pre_s sd,
    List.length (GenerateStopProfile_loop dec v acc t_mid s_mid v_mid ts pre_s sd)
    = (List.length sd + List.length ts)%nat.
Proof.
  induction ts as [|t ts IH]; intros pre_s sd; simpl; [lia|].
  destruct (Qle_bool t t_mid); rewrite IH; unfold AppendSpeedPoint;
    rewrite length_app; simpl; lia.
Qed.

(** C3.  For every initial speed and acceleration (and every configured
    deceleration) the closed-form stop profile is produced and is not
    empty. *)
Theorem GenerateStopProfile_nonempty (FLAGS : Flags) (init_speed init_acc : Q) :
  exists speed_data : SpeedData,
    GenerateStopProfile FLAGS init_speed init_acc = Some speed_data /\
    speed_data <> [].
Proof.
  unfold GenerateStopProfile.
  destruct (range_lt_terminates 0 3 (2 # 100)) as [ts Hts]; [reflexivity|].
  rewrite Hts. simpl. eexists. split; [reflexivity|].
  destruct (range_lt_nonempty _ _ _ _ Hts) as [ts' ->]; [reflexivity|].
  intro H. apply (f_equal (@List.length _)) in H.
  rewrite GenerateStopProfile_loop_length in H. simpl in H. lia.
Qed.

(** ** The warm start *)

Section WarmStart.

Variable FLAGS : Flags.
Variable IsStartFrom : ReferenceLineInfo -> ReferenceLineInfo -> bool.
Variable Latest : option Frame.

Lemma GenerateInitSpeedProfile_loop_started (s_diff : Q) (l : list SpeedPoint) :
  forall start_time start_s acc,
    GenerateInitSpeedProfile_loop s_diff l start_time start_s true acc =
    acc ++ map (rebase start_time start_s) (filter (kept s_diff) l).
Proof.
  induction l as [|p l IH]; intros st ss acc; simpl.
  - rewrite app_nil_r. reflexivity.
  - assert (K : kept s_diff p = negb (Qlt_bool (sp_s p) s_diff))
      by reflexivity.
    destruct (Qlt_bool (sp_s p) s_diff); rewrite K; simpl.
    + apply IH.
    + rewrite IH, <- app_assoc. reflexivity.
Qed.

Lemma GenerateInitSpeedProfile_loop_fresh (s_diff : Q) (l : list SpeedPoint) :
  forall start_time start_s,
    GenerateInitSpeedProfile_loop s_diff l start_time start_s false [] =
    match filter (kept s_diff) l with
    | [] => []
    | p :: _ => map (rebase (sp_t p) (sp_s p)) (filter (kept s_diff) l)
    end.
Proof.
  induction l as [|p l IH]; intros st ss; simpl; [reflexivity|].
  assert (K : kept s_diff p = negb (Qlt_bool (sp_s p) s_diff))
    by reflexivity.
  destruct (Qlt_bool (sp_s p) s_diff); rewrite K; simpl.
  - apply IH.
  - rewrite GenerateInitSpeedProfile_loop_started. reflexivity.
Qed.



End WarmStart.


(** C8 (defect of the code).  Both projections fail and are logged, and
    the warm start goes on with the output points they left: the advance
    is 0 - 0, every previous sample is kept, and the candidate is seeded
    with this profile, not with the hot start. *)
Theorem GenerateInitSpeedProfile_uses_failed_projection :
  GenerateInitSpeedProfile always_continues (Some (previous_frame blind_line))
    (vehicle_at 1 0 5 0) (candidate blind_line (vehicle_at 1 0 5 0) 1)
  = ([xy_to_sl_error; xy_to_sl_error],
     [mkSpeedPoint (0 - 0) (0 - 0) 5 0 0;
      mkSpeedPoint ((1 # 2) - 0) ((1 # 10) - 0) 5 0 0]) /\
  seed_speed_profile usual_flags always_continues
    (Some (previous_frame blind_line))
    (vehicle_at 1 0 5 0) (candidate blind_line (vehicle_at 1 0 5 0) 1)
  = Some [mkSpeedPoint (0 - 0) (0 - 0) 5 0 0;
          mkSpeedPoint ((1 # 2) - 0) ((1 # 10) - 0) 5 0 0] /\
  seed_speed_profile usual_flags always_continues
    (Some (previous_frame blind_line))
    (vehicle_at 1 0 5 0) (candidate blind_line (vehicle_at 1 0 5 0) 1)
  <> GenerateSpeedHotStart usual_flags (vehicle_at 1 0 5 0).
Proof.
  split; [reflexivity|]. split; [reflexivity|].
  vm_compute. discriminate.
Qed.

(** ** The task loop *)

Section TaskLoop.

Variable FLAGS : Flags.
Variable World : Type.
Variable NowInSeconds : World -> Q * World.

Lemma RecordDebugInfo_latency_stats (r : ReferenceLineInfo) (name : string)
    (time_diff_ms : Q) :
  latency_stats (RecordDebugInfo FLAGS r name time_diff_ms) =
  latency_stats r ++
  (if FLAGS_enable_record_debug FLAGS then [mkTaskStats name time_diff_ms]
   else []).
Proof.
  unfold RecordDebugInfo. destruct (FLAGS_enable_record_debug FLAGS); simpl.
  - reflexivity.
  - rewrite app_nil_r. reflexivity.
Qed.

(** C9 (amended).  When no task writes the latency statistics itself, the
    task loop adds to them, with debug recording enabled, one entry for
    each executed task that succeeded, in the order of execution: the name
    of the task with the time its [Execute] took, in milliseconds, between
    the two readings of the clock around it; it adds none for a task that
    failed, and with debug recording disabled it adds nothing. *)
Theorem run_tasks_latency_stats (tasks : list (Task World)) :
  (forall task w r, In task tasks ->
     latency_stats (snd (fst (Execute World task w r))) = latency_stats r) ->
  forall ret0 r w,
    latency_stats (snd (fst (run_tasks FLAGS World NowInSeconds tasks ret0 r w)))
    = latency_stats r ++
      (if FLAGS_enable_record_debug FLAGS then
         map (fun e => mkTaskStats (Name World (fst (fst e))) (snd e))
             (filter (fun e => ok (snd (fst e)))
                     (executed_tasks FLAGS World NowInSeconds tasks r w))
       else []).
Proof.
  induction tasks as [|task rest IH]; intros Hkeep ret0 r w.
  - cbn [run_tasks executed_tasks filter map fst snd].
    destruct (FLAGS_enable_record_debug FLAGS); rewrite app_nil_r; reflexivity.
  - cbn [run_tasks executed_tasks].
    destruct (NowInSeconds w) as [start_timestamp w1].
    pose proof (Hkeep task w1 r (or_introl eq_refl)) as Hk.
    destruct (Execute World task w1 r) as [[ret r1] w2]. cbn [fst snd] in Hk.
    destruct (NowInSeconds w2) as [end_timestamp w3].
    destruct (ok ret) eqn:Hok; cbn [negb fst snd].
    + rewrite (IH (fun t w r H => Hkeep t w r (or_intror H))).
      rewrite RecordDebugInfo_latency_stats, Hk, <- app_assoc.
      f_equal.
      destruct (FLAGS_enable_record_debug FLAGS); [|reflexivity].
      cbn [filter fst snd]. rewrite Hok. reflexivity.
    + cbn [filter fst snd]. rewrite Hok, Hk.
      destruct (FLAGS_enable_record_debug FLAGS); rewrite app_nil_r;
        reflexivity.
Qed.

End TaskLoop.

(** A run of the amended C9: a task that succeeds, then one that fails.
    The clock advances by one second at each reading. *)
Lemma run_tasks_latency_stats_witness :
  latency_stats
    (snd (fst (run_tasks usual_flags Q tick [deciding_task; failing_task]
                         Status_OK
                         (candidate straight_line (vehicle_at 0 0 5 0) 0)
                         0)))
  = [] ++ [mkTaskStats "deciding" ((1 - 0) * 1000)].
Proof.
  apply (run_tasks_latency_stats usual_flags Q tick
           [deciding_task; failing_task]).
  intros task w r [<-|[<-|[]]]; reflexivity.
Defined.

(** C9 (as stated, refuted).  Debug recording is enabled and the only task
    is executed and fails: no elapsed time is recorded for it. *)
Lemma run_tasks_no_stats_for_failing_task :
  FLAGS_enable_record_debug usual_flags = true /\
  map (fun e => Name Q (fst (fst e)))
      (executed_tasks usual_flags Q tick [failing_task]
         (candidate straight_line (vehicle_at 0 0 5 0) 0) 0)
  = ["failing"%string] /\
  latency_stats
    (snd (fst (run_tasks usual_flags Q tick [failing_task] Status_OK
                         (candidate straight_line (vehicle_at 0 0 5 0) 0) 0)))
  = [].
Proof.
  repeat split.
Qed.

(** ** The cost of a candidate *)

Lemma static_obstacle_loop_cost (obstacles : list PathObstacle) :
  forall r,
    Cost (static_obstacle_loop obstacles r) ==
    Cost r + inject_Z (Z.of_nat (List.length (filter blocking obstacles)))
             * kRefrenceLineStaticObsCost /\
    PriorityCost (static_obstacle_loop obstacles r) = PriorityCost r.
Proof.
  induction obstacles as [|o obstacles IH]; intro r; simpl.
  - split; [|reflexivity].
    change (Cost r == Cost r + 0 * kRefrenceLineStaticObsCost). lra.
  - unfold blocking at 1.
    destruct (IsVirtual o); simpl; [apply IH|].
    destruct (IsStatic o); simpl; [|apply IH].
    destruct (has_stop o); simpl; [|apply IH].
    destruct (IH (AddCost r kRefrenceLineStaticObsCost)) as [Hc Hp].
    split; [|exact Hp].
    rewrite Hc. simpl Cost.
    rewrite Zpos_P_of_succ_nat, <- Z.add_1_r, inject_Z_plus.
    change (inject_Z 1) with 1. lra.
Qed.

Section CandidateCost.

Variable FLAGS : Flags.
Variable World : Type.
Variable NowInSeconds : World -> Q * World.
Variable tasks_ : list (Task World).
Variable IsStartFrom : ReferenceLineInfo -> ReferenceLineInfo -> bool.
Variable Latest : option Frame.
Variable CombinePathAndSpeedProfile :
  Q -> Q -> ReferenceLineInfo -> option DiscretizedTrajectory.
Variable ValidTrajectory : DiscretizedTrajectory -> bool.

Lemma PlanOnReferenceLine_seed_cost (p : TrajectoryPoint)
    (r seeded : ReferenceLineInfo) :
  PlanOnReferenceLine_seed FLAGS IsStartFrom Latest p r = Some seeded ->
  Cost seeded = (if IsChangeLanePath r then Cost r
                 else Cost r + kStraightForwardLineCost) /\
  PriorityCost seeded = PriorityCost r.
Proof.
  unfold PlanOnReferenceLine_seed.
  intro H. apply obind_Some in H. destruct H as [sp [_ H]].
  injection H as <-. destruct (IsChangeLanePath r); split; reflexivity.
Qed.

(** What the last part of [PlanOnReferenceLine] adds to the cost when the
    assembly of the trajectory succeeds. *)
Lemma PlanOnReferenceLine_finish_cost (p : TrajectoryPoint) (ret : Status)
    (r r' : ReferenceLineInfo) (status : Status) :
  PlanOnReferenceLine_finish FLAGS CombinePathAndSpeedProfile ValidTrajectory
    p ret r = Some (status, r') ->
  error_message status <> aggregate_error ->
  Cost r' ==
  Cost r
  + (if Empty (path_data r) then kPathOptimizationFallbackClost else 0)
  + (if negb (ok ret) || Empty (speed_data r)
     then kSpeedOptimizationFallbackClost else 0)
  + inject_Z (Z.of_nat (List.length (filter blocking (path_obstacles r))))
    * kRefrenceLineStaticObsCost /\
  PriorityCost r' = PriorityCost r.
Proof.
  unfold PlanOnReferenceLine_finish. intros H Hmsg.
  apply obind_Some in H. destruct H as [r1 [E1 H]].
  apply obind_Some in H. destruct H as [r2 [E2 H]].
  assert (H1 : Cost r1 == Cost r + (if Empty (path_data r)
                                    then kPathOptimizationFallbackClost else 0)
               /\ PriorityCost r1 = PriorityCost r
               /\ speed_data r1 = speed_data r
               /\ path_obstacles r1 = path_obstacles r).
  { destruct (Empty (path_data r)).
    - apply obind_Some in E1. destruct E1 as [pts [_ E1]].
      injection E1 as <-. repeat split; apply Qeq_refl.
    - injection E1 as <-. repeat split. lra. }
  destruct H1 as [Hc1 [Hp1 [Hs1 Ho1]]].
  rewrite Hs1 in E2.
  assert (H2 : Cost r2 == Cost r1 + (if negb (ok ret) || Empty (speed_data r)
                                     then kSpeedOptimizationFallbackClost
                                     else 0)
               /\ PriorityCost r2 = PriorityCost r1
               /\ path_obstacles r2 = path_obstacles r1).
  { destruct (negb (ok ret) || Empty (speed_data r)).
    - apply obind_Some in E2. destruct E2 as [sd [_ E2]].
      injection E2 as <-. repeat split; apply Qeq_refl.
    - injection E2 as <-. repeat split. lra. }
  destruct H2 as [Hc2 [Hp2 Ho2]].
  destruct (CombinePathAndSpeedProfile _ _ r2) as [tr|].
  - rewrite Ho2, Ho1 in H.
    destruct (static_obstacle_loop_cost (path_obstacles r) r2) as [Hc3 Hp3].
    destruct (FLAGS_enable_trajectory_check FLAGS && negb (ValidTrajectory tr));
      injection H as <- <-; cbn [Cost PriorityCost SetDrivable SetTrajectory];
      (split; [rewrite Hc3, Hc2, Hc1; lra|congruence]).
  - injection H as <- <-. cbn [error_message] in Hmsg. congruence.
Qed.

(** C6 (amended).  The first candidate of the cycle is not a lane change
    and enters with cost 0; the tasks leave its costs as they are; after
    them its path is empty and the task loop failed or its speed profile is
    empty, so both fallbacks are taken; exactly one of its obstacles is not
    virtual, is static and has a stop decision; the assembly of the
    trajectory succeeds.  Then its priority cost is 0 and its accumulated
    cost is 0 + 10 + 20000 + 20000 + 1000, which is 41010. *)
Theorem PlanOnReferenceLine_cost_with_both_fallbacks
    (p : TrajectoryPoint) (r seeded r1 r' : ReferenceLineInfo)
    (ret status : Status) (w w1 w' : World) :
  IsChangeLanePath r = false ->
  Cost r == 0 ->
  PlanOnReferenceLine_seed FLAGS IsStartFrom Latest p
    (with_priority FLAGS 0 r) = Some seeded ->
  run_tasks FLAGS World NowInSeconds tasks_ Status_OK seeded w
  = (ret, r1, w1) ->
  Cost r1 == Cost seeded ->
  PriorityCost r1 == PriorityCost seeded ->
  Empty (path_data r1) = true ->
  negb (ok ret) || Empty (speed_data r1) = true ->
  List.length (filter blocking (path_obstacles r1)) = 1%nat ->
  PlanOnReferenceLine FLAGS World NowInSeconds tasks_ IsStartFrom Latest
    CombinePathAndSpeedProfile ValidTrajectory p (with_priority FLAGS 0 r) w
  = Some (status, r', w') ->
  error_message status <> aggregate_error ->
  PriorityCost r' == 0 /\
  Cost r' == 0 + 10 + 20000 + 20000 + 1000 /\
  Cost r' == 41010.
Proof.
  intros Hlane Hzero Hseed Hrun Hcost Hprio Hpath Hspeed Hobs Hplan Hmsg.
  unfold PlanOnReferenceLine in Hplan. rewrite Hseed in Hplan.
  cbn [obind] in Hplan. rewrite Hrun in Hplan.
  apply obind_Some in Hplan. destruct Hplan as [[st r2] [Hfin Hplan]].
  injection Hplan as -> -> ->.
  destruct (PlanOnReferenceLine_finish_cost _ _ _ _ _ Hfin Hmsg) as [Hc Hp].
  rewrite Hpath, Hspeed, Hobs in Hc.
  destruct (PlanOnReferenceLine_seed_cost _ _ _ Hseed) as [Hsc Hsp].
  cbn [with_priority Nat.eqb negb IsChangeLanePath Cost PriorityCost
       SetPriorityCost] in Hsc, Hsp.
  rewrite Hlane in Hsc.
  rewrite Hsc in Hcost. rewrite Hsp in Hprio.
  unfold kPathOptimizationFallbackClost, kSpeedOptimizationFallbackClost,
    kRefrenceLineStaticObsCost, kStraightForwardLineCost in *.
  change (inject_Z (Z.of_nat 1)) with 1 in Hc.
  rewrite Hp. split; [exact Hprio|].
  clear - Hc Hcost Hzero. split; lra.
Qed.

End CandidateCost.

(** A run of the amended C6: the only task reports one blocking static
    obstacle and fails, so the path and the speed fallback are taken. *)
Lemma PlanOnReferenceLine_cost_with_both_fallbacks_witness :
  exists r' : ReferenceLineInfo,
    plan_first_with blocked_task = Some (Status_OK, r', 1) /\
    (PriorityCost r' == 0 /\
     Cost r' == 0 + 10 + 20000 + 20000 + 1000 /\
     Cost r' == 41010).
Proof.
  eexists. split; [vm_compute; reflexivity|].
  eapply (PlanOnReferenceLine_cost_with_both_fallbacks usual_flags Q tick
            [blocked_task] always_continues None combine_ok valid_always
            (vehicle_at (1483 # 10) (- (2 # 10)) 0 0) offset_candidate
            _ _ _ _ _ 0 _ _).
  - reflexivity.
  - reflexivity.
  - vm_compute. reflexivity.
  - vm_compute. reflexivity.
  - vm_compute. reflexivity.
  - vm_compute. reflexivity.
  - vm_compute. reflexivity.
  - vm_compute. reflexivity.
  - vm_compute. reflexivity.
  - vm_compute. reflexivity.
  - discriminate.
Defined.

(** C6 (as stated, refuted).  In the run above the candidate is the first
    one, is not a lane change, takes both fallbacks, has one blocking
    static obstacle and is assembled; its cost is 41010, not 31010. *)
Lemma PlanOnReferenceLine_cost_is_not_31010 :
  exists r' : ReferenceLineInfo,
    plan_first_with blocked_task = Some (Status_OK, r', 1) /\
    Cost r' == 10 + 20000 + 20000 + 1000 /\
    ~ Cost r' == 31010.
Proof.
  eexists. split; [vm_compute; reflexivity|].
  assert (Hc : forall c : Q, c == 10 + 20000 + 20000 + 1000 ->
                             c == 10 + 20000 + 20000 + 1000 /\ ~ c == 31010).
  { intros c Hc. split; [exact Hc|]. rewrite Hc. discriminate. }
  apply Hc. vm_compute. reflexivity.
Qed.

(** ** Termination of the generators *)

Lemma GenerateFallbackPathProfile_total (r : ReferenceLineInfo) :
  exists pts, GenerateFallbackPathProfile r = Some pts.
Proof.
  unfold GenerateFallbackPathProfile.
  destruct (range_lt_terminates (AdcSlBoundary_end_s r) 150 1) as [ss ->];
    [reflexivity|].
  cbn [obind]. eauto.
Qed.

Lemma GenerateStopProfile_total (FLAGS : Flags) (init_speed init_acc : Q) :
  exists sd, GenerateStopProfile FLAGS init_speed init_acc = Some sd.
Proof.
  unfold GenerateStopProfile.
  destruct (range_lt_terminates 0 3 (2 # 100)) as [ts ->]; [reflexivity|].
  cbn [obind]. eauto.
Qed.

(** ** The polynomial search *)

Lemma find_app {A : Type} (f : A -> bool) (l1 l2 : list A) :
  find f (l1 ++ l2) =
  match find f l1 with
  | Some a => Some a
  | None => find f l2
  end.
Proof.
  induction l1 as [|a l1 IH]; cbn [app find]; [reflexivity|].
  destruct (f a); [reflexivity|exact IH].
Qed.

Lemma find_map {A B : Type} (f : B -> bool) (g : A -> B) (l : list A) :
  find f (map g l) = option_map g (find (fun a => f (g a)) l).
Proof.
  induction l as [|a l IH]; cbn [map find]; [reflexivity|].
  destruct (f (g a)); [reflexivity|exact IH].
Qed.

(** The loops of the search visit the candidates of the specification. *)
Lemma candidate_durations_range :
  double_range_le 2 kMaxT (1 # 2) = Some candidate_durations.
Proof. vm_compute. reflexivity. Qed.

Lemma candidate_distances_range :
  double_range_lt 0 50 1 = Some candidate_distances.
Proof. vm_compute. reflexivity. Qed.

Lemma sample_times_range :
  Forall (fun t =>
            double_range_le (round_to_double (1 # 10)) t
                            (round_to_double (2 # 10))
            = Some (sample_times (round_to_double (1 # 10))
                                 (round_to_double (2 # 10)) t)
            /\ double_range_le 0 t kUnitT
               = Some (sample_times 0 (round_to_double (2 # 100)) t))
         candidate_durations.
Proof.
  repeat first [apply Forall_cons | apply Forall_nil]; split;
    vm_compute; reflexivity.
Qed.

Lemma IsValidProfile_loop_forallb (curve : QuinticPolynomialCurve1d)
    (ts : list Q) :
  IsValidProfile_loop curve ts =
  forallb (fun time =>
             Qle_bool (- (1 # 1000)) (Evaluate curve 1 time) &&
             Qle_bool (-5) (Evaluate curve 2 time)) ts.
Proof.
  induction ts as [|t ts IH]; cbn [IsValidProfile_loop forallb];
    [reflexivity|].
  cbv zeta. unfold Qlt_bool. change (- kEpsilon) with (- (1 # 1000)).
  rewrite IH.
  destruct (Qle_bool (- (1 # 1000)) (Evaluate curve 1 t));
    destruct (Qle_bool (-5) (Evaluate curve 2 t)); reflexivity.
Qed.

(** On a curve of one of the candidate durations the validity check
    returns, with the verdict of the specification. *)
Lemma IsValidProfile_valid_curve (curve : QuinticPolynomialCurve1d) :
  In (ParamLength curve) candidate_durations ->
  IsValidProfile curve = Some (valid_curve curve).
Proof.
  intro Hin. pose proof sample_times_range as H.
  rewrite Forall_forall in H. destruct (H _ Hin) as [Hvalid _].
  unfold IsValidProfile, valid_curve. rewrite Hvalid. cbn [obind].
  rewrite IsValidProfile_loop_forallb. reflexivity.
Qed.

Lemma polynomial_s_loop_find (init_speed init_acc t : Q) :
  In t candidate_durations ->
  forall ss,
    polynomial_s_loop init_speed init_acc t ss =
    Some (option_map
            (fun s => map (sample_curve (stop_curve init_speed init_acc t s))
                          (sample_times 0 (round_to_double (2 # 100)) t))
            (find (fun s => valid_curve (stop_curve init_speed init_acc t s))
                  ss)).
Proof.
  intro Hin. pose proof sample_times_range as H.
  rewrite Forall_forall in H. destruct (H _ Hin) as [_ Hemit].
  induction ss as [|s ss IH]; cbn [polynomial_s_loop find option_map];
    [reflexivity|].
  cbv zeta.
  rewrite (IsValidProfile_valid_curve (Quintic 0 init_speed init_acc s 0 0 t))
    by exact Hin.
  cbn [obind].
  change (Quintic 0 init_speed init_acc s 0 0 t)
    with (stop_curve init_speed init_acc t s).
  destruct (valid_curve (stop_curve init_speed init_acc t s));
    cbn [negb option_map]; [|exact IH].
  rewrite Hemit. reflexivity.
Qed.

Lemma polynomial_t_loop_find (init_speed init_acc : Q) (ts : list Q) :
  Forall (fun t => In t candidate_durations) ts ->
  polynomial_t_loop init_speed init_acc ts =
  Some (option_map
          (fun c => map (sample_curve (stop_curve init_speed init_acc
                                                  (fst c) (snd c)))
                        (sample_times 0 (round_to_double (2 # 100)) (fst c)))
          (find (fun c => valid_curve (stop_curve init_speed init_acc
                                                  (fst c) (snd c)))
                (flat_map (fun t => map (fun s => (t, s)) candidate_distances)
                          ts))).
Proof.
  intro Hts.
  induction Hts as [|t ts Hin _ IH];
    cbn [polynomial_t_loop flat_map]; [reflexivity|].
  rewrite candidate_distances_range. cbn [obind].
  rewrite (polynomial_s_loop_find _ _ _ Hin). cbn [obind].
  rewrite find_app, find_map. cbn [fst snd].
  destruct (find (fun s => valid_curve (stop_curve init_speed init_acc t s))
                 candidate_distances) as [s|]; cbn [option_map fst snd].
  - reflexivity.
  - exact IH.
Qed.

Lemma GenerateStopProfileFromPolynomial_find (init_speed init_acc : Q) :
  GenerateStopProfileFromPolynomial init_speed init_acc =
  Some match find (fun c => valid_curve (stop_curve init_speed init_acc
                                                    (fst c) (snd c)))
                  candidate_pairs with
       | Some c =>
           map (sample_curve (stop_curve init_speed init_acc (fst c) (snd c)))
               (sample_times 0 (round_to_double (2 # 100)) (fst c))
       | None => []
       end.
Proof.
  unfold GenerateStopProfileFromPolynomial.
  rewrite candidate_durations_range. cbn [obind].
  rewrite polynomial_t_loop_find by (apply Forall_forall; auto).
  cbn [obind].
  change (flat_map (fun t => map (fun s => (t, s)) candidate_distances)
                   candidate_durations) with candidate_pairs.
  destruct (find _ candidate_pairs) as [c|]; reflexivity.
Qed.

Lemma candidate_pairs_duration (c : Q * Q) :
  In c candidate_pairs -> In (fst c) candidate_durations.
Proof.
  unfold candidate_pairs. intro H. apply in_flat_map in H.
  destruct H as [t [Ht Hc]]. apply in_map_iff in Hc.
  destruct Hc as [s [<- _]]. exact Ht.
Qed.

Lemma GenerateStopProfileFromPolynomial_total (init_speed init_acc : Q) :
  exists sd, GenerateStopProfileFromPolynomial init_speed init_acc = Some sd.
Proof.
  rewrite GenerateStopProfileFromPolynomial_find. eauto.
Qed.

(** The profile of the search is empty or is a curve sampled at the times
    of one of the candidate durations. *)
Lemma GenerateStopProfileFromPolynomial_shape (init_speed init_acc : Q)
    (sd : SpeedData) :
  GenerateStopProfileFromPolynomial init_speed init_acc = Some sd ->
  sd = [] \/
  exists curve t,
    In t candidate_durations /\
    sd = map (sample_curve curve)
             (sample_times 0 (round_to_double (2 # 100)) t).
Proof.
  rewrite GenerateStopProfileFromPolynomial_find.
  destruct (find _ candidate_pairs) as [c|] eqn:Hfind; intros [= <-];
    [right|left; reflexivity].
  apply find_some in Hfind. destruct Hfind as [Hin _].
  apply candidate_pairs_duration in Hin. eauto.
Qed.

Lemma GenerateFallbackSpeedProfile_total (FLAGS : Flags)
    (r : ReferenceLineInfo) :
  exists sd, GenerateFallbackSpeedProfile FLAGS r = Some sd.
Proof.
  unfold GenerateFallbackSpeedProfile.
  destruct (GenerateStopProfileFromPolynomial_total
              (tp_v (AdcPlanningPoint r)) (tp_a (AdcPlanningPoint r)))
    as [sd ->].
  cbn [obind]. destruct (Empty sd); [|eauto].
  apply GenerateStopProfile_total.
Qed.

Lemma GenerateSpeedHotStart_total (FLAGS : Flags) (p : TrajectoryPoint) :
  0 < FLAGS_trajectory_time_min_interval FLAGS ->
  exists sd, GenerateSpeedHotStart FLAGS p = Some sd.
Proof.
  intro Hpos. unfold GenerateSpeedHotStart.
  destruct (range_lt_terminates 0 (FLAGS_trajectory_time_length FLAGS)
              (FLAGS_trajectory_time_min_interval FLAGS) Hpos) as [ts ->].
  cbn [obind]. eauto.
Qed.

(** ** The loop over the candidates *)

Section PlanLoop.

Variable FLAGS : Flags.
Variable World : Type.
Variable NowInSeconds : World -> Q * World.
Variable tasks_ : list (Task World).
Variable IsStartFrom : ReferenceLineInfo -> ReferenceLineInfo -> bool.
Variable Latest : option Frame.
Variable CombinePathAndSpeedProfile :
  Q -> Q -> ReferenceLineInfo -> option DiscretizedTrajectory.
Variable ValidTrajectory : DiscretizedTrajectory -> bool.

Hypothesis interval_positive : 0 < FLAGS_trajectory_time_min_interval FLAGS.

Lemma PlanOnReferenceLine_seed_total (p : TrajectoryPoint)
    (r : ReferenceLineInfo) :
  exists seeded,
    PlanOnReferenceLine_seed FLAGS IsStartFrom Latest p r = Some seeded.
Proof.
  unfold PlanOnReferenceLine_seed, seed_speed_profile.
  destruct (Empty _).
  - destruct (GenerateSpeedHotStart_total FLAGS p interval_positive)
      as [sd ->].
    cbn [obind]. eauto.
  - cbn [obind]. eauto.
Qed.

Lemma PlanOnReferenceLine_finish_total (p : TrajectoryPoint) (ret : Status)
    (r : ReferenceLineInfo) :
  exists res,
    PlanOnReferenceLine_finish FLAGS CombinePathAndSpeedProfile
      ValidTrajectory p ret r = Some res.
Proof.
  unfold PlanOnReferenceLine_finish.
  assert (H1 : exists r1,
             (if Empty (path_data r)
              then path_points <- GenerateFallbackPathProfile r ;;
                   Some (AddCost (SetDiscretizedPath r path_points)
                                 kPathOptimizationFallbackClost)
              else Some r) = Some r1).
  { destruct (Empty (path_data r)); [|eauto].
    destruct (GenerateFallbackPathProfile_total r) as [pts ->].
    cbn [obind]. eauto. }
  destruct H1 as [r1 ->]. cbn [obind].
  assert (H2 : exists r2,
             (if negb (ok ret) || Empty (speed_data r1)
              then speed <- GenerateFallbackSpeedProfile FLAGS r1 ;;
                   Some (AddCost (set_speed_vector r1 speed)
                                 kSpeedOptimizationFallbackClost)
              else Some r1) = Some r2).
  { destruct (negb (ok ret) || Empty (speed_data r1)); [|eauto].
    destruct (GenerateFallbackSpeedProfile_total FLAGS r1) as [sd ->].
    cbn [obind]. eauto. }
  destruct H2 as [r2 ->]. cbn [obind].
  destruct (CombinePathAndSpeedProfile _ _ r2) as [tr|]; [|eauto].
  destruct (FLAGS_enable_trajectory_check FLAGS && negb (ValidTrajectory tr));
    eauto.
Qed.

Lemma PlanOnReferenceLine_total (p : TrajectoryPoint) (r : ReferenceLineInfo)
    (w : World) :
  exists res,
    PlanOnReferenceLine FLAGS World NowInSeconds tasks_ IsStartFrom Latest
      CombinePathAndSpeedProfile ValidTrajectory p r w = Some res.
Proof.
  unfold PlanOnReferenceLine.
  destruct (PlanOnReferenceLine_seed_total p r) as [seeded ->]. cbn [obind].
  destruct (run_tasks FLAGS World NowInSeconds tasks_ Status_OK seeded w)
    as [[ret r1] w1].
  destruct (PlanOnReferenceLine_finish_total p ret r1) as [[status r2] ->].
  cbn [obind]. eauto.
Qed.

(** The number of candidates of [results] that were planned with success. *)
Lemma Plan_loop_spec (p : TrajectoryPoint) (infos : list ReferenceLineInfo) :
  forall index count w,
  exists results w',
    Plan_loop FLAGS World NowInSeconds tasks_ IsStartFrom Latest
      CombinePathAndSpeedProfile ValidTrajectory p infos index count w
    = Some (map snd results,
            (count + List.length
                       (filter (fun res => Status_eqb (fst res) Status_OK)
                               results))%nat,
            w') /\
    PlanEach FLAGS World NowInSeconds tasks_ IsStartFrom Latest
      CombinePathAndSpeedProfile ValidTrajectory p index infos w results w'.
Proof.
  induction infos as [|info rest IH]; intros index count w.
  - exists [], w. cbn [Plan_loop map filter List.length].
    rewrite Nat.add_0_r. split; [reflexivity|constructor].
  - cbn [Plan_loop].
    destruct (PlanOnReferenceLine_total p (with_priority FLAGS index info) w)
      as [[[status info'] w1] Hone].
    rewrite Hone. cbn [obind].
    destruct (IH (index + 1)%nat
                 (if negb (Status_eqb status Status_OK) then count
                  else (count + 1)%nat) w1)
      as [results [w' [Hloop Heach]]].
    rewrite Hloop. cbn [obind].
    exists ((status, info') :: results), w'. split.
    + cbn [map filter fst snd].
      destruct (Status_eqb status Status_OK); cbn [negb List.length];
        [|reflexivity].
      rewrite <- Nat.add_assoc. reflexivity.
    + econstructor; [exact Hone|].
      rewrite Nat.add_1_r in Heach. exact Heach.
Qed.

End PlanLoop.

Section PlanResult.

Variable FLAGS : Flags.
Variable World : Type.
Variable NowInSeconds : World -> Q * World.
Variable tasks_ : list (Task World).
Variable IsStartFrom : ReferenceLineInfo -> ReferenceLineInfo -> bool.
Variable Latest : option Frame.
Variable CombinePathAndSpeedProfile :
  Q -> Q -> ReferenceLineInfo -> option DiscretizedTrajectory.
Variable ValidTrajectory : DiscretizedTrajectory -> bool.

(** What the loop over the candidates returns, when it returns. *)
Lemma Plan_loop_sound (p : TrajectoryPoint) (infos : list ReferenceLineInfo) :
  forall index count w infos' count' w',
    Plan_loop FLAGS World NowInSeconds tasks_ IsStartFrom Latest
      CombinePathAndSpeedProfile ValidTrajectory p infos index count w
    = Some (infos', count', w') ->
    exists results,
      infos' = map snd results /\
      count' = (count + List.length
                          (filter (fun res => Status_eqb (fst res) Status_OK)
                                  results))%nat /\
      PlanEach FLAGS World NowInSeconds tasks_ IsStartFrom Latest
        CombinePathAndSpeedProfile ValidTrajectory p index infos w results w'.
Proof.
  induction infos as [|info rest IH]; intros index count w infos' count' w' H;
    cbn [Plan_loop] in H.
  - injection H as <- <- <-. exists []. cbn [map filter List.length].
    rewrite Nat.add_0_r. repeat split. constructor.
  - apply obind_Some in H. destruct H as [[[status info1] w1] [Hone H]].
    cbv beta iota in H.
    apply obind_Some in H. destruct H as [[[rest' c] w2] [Hloop H]].
    injection H as <- <- <-.
    destruct (IH _ _ _ _ _ _ Hloop) as [results [-> [-> Heach]]].
    exists ((status, info1) :: results). cbn [map filter fst snd].
    split; [reflexivity|]. split.
    + destruct (Status_eqb status Status_OK); cbn [negb List.length];
        [|reflexivity].
      rewrite <- Nat.add_assoc. reflexivity.
    + econstructor; [exact Hone|].
      rewrite Nat.add_1_r in Heach. exact Heach.
Qed.

Lemma some_line_succeeded (results : list (Status * ReferenceLineInfo)) :
  (0 <? List.length (filter (fun res => Status_eqb (fst res) Status_OK)
                            results))%nat = true
  <-> Exists (fun res => fst res = Status_OK) results.
Proof.
  rewrite Nat.ltb_lt. induction results as [|res results IH].
  - cbn. split; [lia|]. intro H. inversion H.
  - cbn [filter]. destruct (Status_eqb (fst res) Status_OK) eqn:E.
    + apply Status_eqb_eq in E. cbn [List.length].
      split; [intros _; left; exact E|lia].
    + rewrite IH. split; [intro H; right; exact H|].
      intro H. inversion H as [? ? Hh|? ? Ht]; subst; [|exact Ht].
      apply Status_eqb_eq in Hh. congruence.
Qed.

(** C5.  [Plan] returns when the sampling interval of the hot start is
    positive.  Whenever it returns, every candidate of the frame has been
    handed to [PlanOnReferenceLine], in order and whatever the status of
    the candidates before it; the returned status is [Status::OK()]
    exactly when one of these calls returned [Status::OK()]; and when none
    did, it is a planning error with a message that is not empty. *)
Theorem Plan_succeeds_iff_some_line (p : TrajectoryPoint) (frame : Frame)
    (w : World) :
  (0 < FLAGS_trajectory_time_min_interval FLAGS ->
   exists res,
     Plan FLAGS World NowInSeconds tasks_ IsStartFrom Latest
       CombinePathAndSpeedProfile ValidTrajectory p frame w = Some res) /\
  (forall (status : Status) (frame' : Frame) (w' : World),
     Plan FLAGS World NowInSeconds tasks_ IsStartFrom Latest
       CombinePathAndSpeedProfile ValidTrajectory p frame w
     = Some (status, frame', w') ->
     exists results : list (Status * ReferenceLineInfo),
       PlanEach FLAGS World NowInSeconds tasks_ IsStartFrom Latest
         CombinePathAndSpeedProfile ValidTrajectory p 0
         (reference_line_info frame) w results w' /\
       List.length results = List.length (reference_line_info frame) /\
       reference_line_info frame' = map snd results /\
       (status = Status_OK <->
        Exists (fun res => fst res = Status_OK) results) /\
       (Forall (fun res => fst res <> Status_OK) results ->
        code status = PLANNING_ERROR /\ error_message status <> ""%string)).
Proof.
  split.
  - intro Hpos. unfold Plan.
    destruct (Plan_loop_spec FLAGS World NowInSeconds tasks_ IsStartFrom Latest
                CombinePathAndSpeedProfile ValidTrajectory Hpos p
                (reference_line_info frame) 0 0 w)
      as [results [w' [Hloop _]]].
    rewrite Hloop. cbn [obind].
    destruct (0 <? _)%nat; eauto.
  - intros status frame' w' H. unfold Plan in H.
    apply obind_Some in H. destruct H as [[[infos' c] w1] [Hloop H]].
    cbv beta iota in H.
    destruct (Plan_loop_sound _ _ _ _ _ _ _ _ Hloop)
      as [results [-> [-> Heach]]].
    cbn [Nat.add] in H.
    assert (Hlen : List.length results
                   = List.length (reference_line_info frame)).
    { clear - Heach. induction Heach; cbn [List.length]; congruence. }
    pose proof (some_line_succeeded results) as Hcount.
    exists results.
    destruct (0 <? List.length (filter _ results))%nat eqn:Hpos;
      injection H as <- <- <-; cbn [reference_line_info];
      (split; [exact Heach|]); (split; [exact Hlen|]);
      (split; [reflexivity|]); split.
    + split; [intros _; apply Hcount; reflexivity|reflexivity].
    + intro Hall. exfalso.
      assert (Hex : Exists (fun res => fst res = Status_OK) results)
        by (apply Hcount; reflexivity).
      apply Exists_exists in Hex. destruct Hex as [res [Hin Hok]].
      rewrite Forall_forall in Hall. exact (Hall res Hin Hok).
    + split; [discriminate|].
      intro Hex. apply Hcount in Hex. congruence.
    + intros _. split; [reflexivity|discriminate].
Qed.

End PlanResult.


(** A run of C5: three candidates, of which only the first one can be
    assembled. *)
Lemma Plan_succeeds_iff_some_line_witness :
  exists (status : Status) (frame' : Frame) (w' : Q)
         (results : list (Status * ReferenceLineInfo)),
    Plan usual_flags Q tick [deciding_task] always_continues None
      combine_first_only valid_always (vehicle_at 0 0 5 0) three_candidates 0
    = Some (status, frame', w') /\
    List.length results = 3%nat /\
    (status = Status_OK <-> Exists (fun res => fst res = Status_OK) results).
Proof.
  destruct (Plan_succeeds_iff_some_line usual_flags Q tick [deciding_task]
              always_continues None combine_first_only valid_always
              (vehicle_at 0 0 5 0) three_candidates 0) as [Hret Hsound].
  destruct (Hret eq_refl) as [[[status frame'] w'] Hplan].
  destruct (Hsound status frame' w' Hplan) as [results [_ [Hlen [_ [Hiff _]]]]].
  exists status, frame', w', results. repeat split; try assumption;
    apply Hiff.
Defined.

(** The two cycles of the spec's example: one candidate of three succeeds,
    and none does. *)
Lemma Plan_three_candidates :
  option_map (fun res => fst (fst res))
    (Plan usual_flags Q tick [deciding_task] always_continues None
       combine_first_only valid_always (vehicle_at 0 0 5 0) three_candidates 0)
  = Some Status_OK /\
  option_map (fun res => fst (fst res))
    (Plan usual_flags Q tick [deciding_task] always_continues None
       combine_fails valid_always (vehicle_at 0 0 5 0) three_candidates 0)
  = Some (mkStatus PLANNING_ERROR plan_error).
Proof.
  split; vm_compute; reflexivity.
Qed.

(** ** Monotonic speed profiles *)

Lemma Sorted_weaken {A : Type} (R R' : A -> A -> Prop) (l : list A) :
  (forall a b, R a b -> R' a b) -> Sorted R l -> Sorted R' l.
Proof.
  intros HR H. induction H as [|a l Hs IH Hh]; constructor; auto.
  destruct Hh; constructor; auto.
Qed.

Lemma StronglySorted_filter {A : Type} (R : A -> A -> Prop) (f : A -> bool)
    (l : list A) :
  StronglySorted R l -> StronglySorted R (filter f l).
Proof.
  intro H. induction H as [|a l Hs IH Hall]; cbn [filter]; [constructor|].
  destruct (f a); [|exact IH].
  constructor; [exact IH|].
  rewrite Forall_forall in *. intros x Hx.
  apply filter_In in Hx. apply Hall. tauto.
Qed.

(** The counter of a loop with a positive step increases. *)
Lemma range_fuel_increasing (fuel : nat) (continue : Q -> bool) (step x : Q)
    (l : list Q) :
  0 < step -> range_fuel fuel continue step x = Some l -> Sorted Qlt l.
Proof.
  intros Hs H. apply range_fuel_step in H.
  eapply Sorted_weaken; [|exact H].
  intros u v Huv. cbv beta in Huv. rewrite Huv. lra.
Qed.

Lemma t_increasing_times (sd : SpeedData) :
  Sorted Qlt (map sp_t sd) -> t_increasing sd.
Proof.
  intro H. apply Sorted_of_map in H. exact H.
Qed.

(** *** The closed-form stop profile *)

Lemma GenerateStopProfile_loop_app
    (dec v acc t_mid s_mid v_mid : Q) (ts : list Q) :
  forall pre_s sd,
    GenerateStopProfile_loop dec v acc t_mid s_mid v_mid ts pre_s sd =
    sd ++ GenerateStopProfile_loop dec v acc t_mid s_mid v_mid ts pre_s [].
Proof.
  induction ts as [|t ts IH]; intros pre_s sd; cbn [GenerateStopProfile_loop].
  - rewrite app_nil_r. reflexivity.
  - destruct (Qle_bool t t_mid); cbv zeta; unfold AppendSpeedPoint;
      rewrite IH; symmetry; rewrite IH; cbn [app];
      rewrite <- app_assoc; reflexivity.
Qed.

Lemma GenerateStopProfile_loop_times
    (dec v acc t_mid s_mid v_mid : Q) (ts : list Q) :
  forall pre_s,
    map sp_t (GenerateStopProfile_loop dec v acc t_mid s_mid v_mid ts pre_s [])
    = ts.
Proof.
  induction ts as [|t ts IH]; intro pre_s; cbn [GenerateStopProfile_loop];
    [reflexivity|].
  destruct (Qle_bool t t_mid); cbv zeta; unfold AppendSpeedPoint;
    rewrite GenerateStopProfile_loop_app; cbn [app map sp_t];
    rewrite IH; reflexivity.
Qed.

(** Every sample of the loop is at or beyond [pre_s], and the samples do
    not go back. *)
Lemma GenerateStopProfile_loop_s
    (dec v acc t_mid s_mid v_mid : Q) (ts : list Q) :
  forall pre_s,
    let sd := GenerateStopProfile_loop dec v acc t_mid s_mid v_mid ts pre_s []
    in s_nondecreasing sd /\ HdRel Qle pre_s (map sp_s sd).
Proof.
  unfold s_nondecreasing.
  induction ts as [|t ts IH]; intro pre_s; cbn [GenerateStopProfile_loop];
    [split; constructor|].
  destruct (Qle_bool t t_mid); cbv zeta; unfold AppendSpeedPoint;
    rewrite GenerateStopProfile_loop_app; cbn [app];
    match goal with
    | |- context [GenerateStopProfile_loop _ _ _ _ _ _ ts ?s []] =>
        destruct (IH s) as [Hs Hh]
    end;
    (split; [constructor; [exact Hs|]|constructor; apply fmax_ge_l]);
    (destruct (GenerateStopProfile_loop _ _ _ _ _ _ ts _ []);
     constructor; inversion Hh; assumption).
Qed.

(** *** The hot start *)

Lemma GenerateSpeedHotStart_loop_app (interval v : Q) (ts : list Q) :
  forall s sd,
    GenerateSpeedHotStart_loop interval v ts s sd =
    sd ++ GenerateSpeedHotStart_loop interval v ts s [].
Proof.
  induction ts as [|t ts IH]; intros s sd; cbn [GenerateSpeedHotStart_loop].
  - rewrite app_nil_r. reflexivity.
  - rewrite IH. symmetry. rewrite IH. cbn [app].
    rewrite <- app_assoc. reflexivity.
Qed.

Lemma GenerateSpeedHotStart_loop_times (interval v : Q) (ts : list Q) :
  forall s, map sp_t (GenerateSpeedHotStart_loop interval v ts s []) = ts.
Proof.
  induction ts as [|t ts IH]; intro s; cbn [GenerateSpeedHotStart_loop];
    [reflexivity|].
  rewrite GenerateSpeedHotStart_loop_app. cbn [app map sp_t].
  rewrite IH. reflexivity.
Qed.

Lemma GenerateSpeedHotStart_loop_s (interval v : Q) (ts : list Q) :
  0 <= v * interval ->
  forall s,
    let sd := GenerateSpeedHotStart_loop interval v ts s [] in
    s_nondecreasing sd /\ HdRel Qle s (map sp_s sd).
Proof.
  intro Hv. unfold s_nondecreasing.
  induction ts as [|t ts IH]; intro s; cbn [GenerateSpeedHotStart_loop];
    [split; constructor|].
  rewrite GenerateSpeedHotStart_loop_app. cbn [app].
  destruct (IH (s + v * interval)) as [Hs Hh].
  split; [constructor; [exact Hs|]|constructor; cbn [sp_s]; lra].
  destruct (GenerateSpeedHotStart_loop _ _ ts _ []); constructor.
  inversion Hh; subst. cbn [sp_s]. lra.
Qed.

Lemma Clamp_nonneg (value bound2 : Q) : 0 <= bound2 -> 0 <= Clamp value 5 bound2.
Proof.
  intro H. unfold Clamp.
  destruct (Qlt_bool value 5) eqn:E1; [lra|].
  destruct (Qlt_bool bound2 value) eqn:E2; [exact H|].
  apply Qlt_bool_false in E1. lra.
Qed.

(** *** The polynomial stop profile *)

Lemma increasing_from_Sorted (l : list Q) :
  forall x, increasing_from x l = true -> Sorted Qlt (x :: l).
Proof.
  induction l as [|y l IH]; intros x H; cbn [increasing_from] in H.
  - repeat constructor.
  - apply andb_true_iff in H. destruct H as [Hxy Hl].
    apply Qlt_bool_iff in Hxy.
    constructor; [exact (IH y Hl)|constructor; exact Hxy].
Qed.

Lemma increasing_Sorted (l : list Q) : increasing l = true -> Sorted Qlt l.
Proof.
  destruct l as [|x l]; [constructor|]. apply increasing_from_Sorted.
Qed.

Lemma sample_times_increasing :
  Forall (fun t => Sorted Qlt (sample_times 0 (round_to_double (2 # 100)) t))
         candidate_durations.
Proof.
  assert (H : forallb (fun t => increasing
                                  (sample_times 0 (round_to_double (2 # 100))
                                                t))
                      candidate_durations = true)
    by (vm_compute; reflexivity).
  rewrite forallb_forall in H. apply Forall_forall. intros t Ht.
  apply increasing_Sorted. exact (H t Ht).
Qed.

Lemma GenerateStopProfileFromPolynomial_t_increasing
    (init_speed init_acc : Q) (sd : SpeedData) :
  GenerateStopProfileFromPolynomial init_speed init_acc = Some sd ->
  t_increasing sd.
Proof.
  intro H.
  destruct (GenerateStopProfileFromPolynomial_shape _ _ _ H)
    as [->|[curve [t [Hin ->]]]]; [constructor|].
  apply t_increasing_times. rewrite map_map. cbn [sample_curve sp_t].
  rewrite map_id.
  pose proof sample_times_increasing as Hs. rewrite Forall_forall in Hs.
  exact (Hs t Hin).
Qed.

(** *** The warm start *)

Lemma GenerateInitSpeedProfile_loop_t_increasing (s_diff : Q)
    (last_speed_vector : list SpeedPoint) :
  t_increasing last_speed_vector ->
  t_increasing
    (GenerateInitSpeedProfile_loop s_diff last_speed_vector 0 0 false []).
Proof.
  unfold t_increasing. intro Ht.
  rewrite GenerateInitSpeedProfile_loop_fresh.
  destruct (filter (kept s_diff) last_speed_vector) as [|p0 l0] eqn:E;
    [constructor|].
  rewrite <- E.
  apply Sorted_map_rel with (R := fun p q => sp_t p < sp_t q).
  - intros a b Hab. cbn [rebase sp_t]. lra.
  - apply StronglySorted_Sorted, StronglySorted_filter.
    apply Sorted_StronglySorted; [|exact Ht].
    intros a b c Hab Hbc. lra.
Qed.

Lemma GenerateInitSpeedProfile_loop_s_nondecreasing (s_diff : Q)
    (last_speed_vector : list SpeedPoint) :
  s_nondecreasing last_speed_vector ->
  s_nondecreasing
    (GenerateInitSpeedProfile_loop s_diff last_speed_vector 0 0 false []).
Proof.
  unfold s_nondecreasing. intro Hs.
  rewrite GenerateInitSpeedProfile_loop_fresh.
  destruct (filter (kept s_diff) last_speed_vector) as [|p0 l0] eqn:E;
    [constructor|].
  rewrite <- E.
  apply Sorted_map_rel with (R := fun p q => sp_s p <= sp_s q).
  - intros a b Hab. cbn [rebase sp_s]. lra.
  - apply StronglySorted_Sorted, StronglySorted_filter.
    apply Sorted_StronglySorted; [|exact Hs].
    intros a b c Hab Hbc. lra.
Qed.

(** The warm start is the empty profile or the loop over the previous
    profile. *)
Lemma GenerateInitSpeedProfile_cases
    (IsStartFrom : ReferenceLineInfo -> ReferenceLineInfo -> bool)
    (Latest : option Frame) (p : TrajectoryPoint) (r : ReferenceLineInfo) :
  snd (GenerateInitSpeedProfile IsStartFrom Latest p r) = [] \/
  exists last_frame last s_diff,
    Latest = Some last_frame /\
    DriveReferenceLineInfo last_frame = Some last /\
    snd (GenerateInitSpeedProfile IsStartFrom Latest p r)
    = GenerateInitSpeedProfile_loop s_diff (speed_data last) 0 0 false [].
Proof.
  unfold GenerateInitSpeedProfile.
  destruct Latest as [last_frame|]; [|left; reflexivity].
  destruct (DriveReferenceLineInfo last_frame) as [last|] eqn:Hd;
    [|left; reflexivity].
  destruct (negb (IsStartFrom r last)); [left; reflexivity|].
  destruct (negb (Empty (speed_data last))); [|left; reflexivity].
  destruct (warm_start_s_diff p last_frame last) as [log s_diff].
  right. exists last_frame, last, s_diff. repeat split. exact Hd.
Qed.

(** C7 (amended).  The time [t] increases strictly along the closed-form
    stop profile, along the polynomial stop profile, along the hot start
    for a positive sampling interval, and along the warm start when it
    does along the previous profile that is re-based.  The arc-length [s]
    does not decrease along the closed-form stop profile, along the hot
    start for a positive sampling interval and a speed limit that is not
    negative, and along the warm start when it does not along the
    previous profile.  The two stop profiles always return, and the hot
    start returns for a positive sampling interval. *)
Theorem speed_profiles_monotonic :
  (forall FLAGS init_speed init_acc,
     exists sd, GenerateStopProfile FLAGS init_speed init_acc = Some sd /\
                t_increasing sd /\ s_nondecreasing sd) /\
  (forall init_speed init_acc,
     exists sd, GenerateStopProfileFromPolynomial init_speed init_acc = Some sd
                /\ t_increasing sd) /\
  (forall FLAGS planning_init_point,
     0 < FLAGS_trajectory_time_min_interval FLAGS ->
     exists sd, GenerateSpeedHotStart FLAGS planning_init_point = Some sd /\
                t_increasing sd /\
                (0 <= FLAGS_planning_upper_speed_limit FLAGS ->
                 s_nondecreasing sd)) /\
  (forall IsStartFrom Latest planning_init_point reference_line_info,
     let sd := snd (GenerateInitSpeedProfile IsStartFrom Latest
                      planning_init_point reference_line_info) in
     ((forall last_frame last_reference_line_info,
         Latest = Some last_frame ->
         DriveReferenceLineInfo last_frame = Some last_reference_line_info ->
         t_increasing (speed_data last_reference_line_info)) ->
      t_increasing sd) /\
     ((forall last_frame last_reference_line_info,
         Latest = Some last_frame ->
         DriveReferenceLineInfo last_frame = Some last_reference_line_info ->
         s_nondecreasing (speed_data last_reference_line_info)) ->
      s_nondecreasing sd)).
Proof.
  split; [|split; [|split]].
  - intros FLAGS v a. unfold GenerateStopProfile.
    destruct (range_lt_terminates 0 3 (2 # 100)) as [ts Hts]; [reflexivity|].
    rewrite Hts. cbn [obind]. eexists. split; [reflexivity|]. split.
    + apply t_increasing_times. rewrite GenerateStopProfile_loop_times.
      apply (range_fuel_increasing _ _ _ _ _ (eq_refl : 0 < 2 # 100) Hts).
    + apply GenerateStopProfile_loop_s.
  - intros v a.
    destruct (GenerateStopProfileFromPolynomial_total v a) as [sd Hsd].
    exists sd. split; [exact Hsd|].
    exact (GenerateStopProfileFromPolynomial_t_increasing _ _ _ Hsd).
  - intros FLAGS p Hstep. unfold GenerateSpeedHotStart.
    destruct (range_lt_terminates 0 (FLAGS_trajectory_time_length FLAGS)
                (FLAGS_trajectory_time_min_interval FLAGS) Hstep) as [ts Hts].
    rewrite Hts. cbn [obind]. eexists. split; [reflexivity|]. split.
    + apply t_increasing_times. rewrite GenerateSpeedHotStart_loop_times.
      apply (range_fuel_increasing _ _ _ _ _ Hstep Hts).
    + intro Hup. apply GenerateSpeedHotStart_loop_s.
      apply Qmult_le_0_compat; [apply Clamp_nonneg; exact Hup|lra].
  - intros IsStartFrom Latest p r. cbv zeta.
    destruct (GenerateInitSpeedProfile_cases IsStartFrom Latest p r)
      as [->|[last_frame [last [s_diff [HL [HD ->]]]]]];
      [split; intros _; constructor|].
    split; intro Hprev.
    + apply GenerateInitSpeedProfile_loop_t_increasing.
      exact (Hprev _ _ HL HD).
    + apply GenerateInitSpeedProfile_loop_s_nondecreasing.
      exact (Hprev _ _ HL HD).
Qed.

(** A run of the amended C7 on the hot start of a slow vehicle and on the
    warm start from the previous cycle. *)
Lemma speed_profiles_monotonic_witness :
  (exists sd, GenerateSpeedHotStart usual_flags (vehicle_at 0 0 2 0) = Some sd
              /\ t_increasing sd /\ s_nondecreasing sd) /\
  (let sd := snd (GenerateInitSpeedProfile always_continues
                    (Some (previous_frame straight_line))
                    (vehicle_at (1 # 4) 0 5 0)
                    (candidate straight_line (vehicle_at (1 # 4) 0 5 0)
                               (1 # 4))) in
   t_increasing sd /\ s_nondecreasing sd).
Proof.
  destruct speed_profiles_monotonic as [_ [_ [Hhot Hwarm]]].
  split.
  - destruct (Hhot usual_flags (vehicle_at 0 0 2 0)) as [sd [Hsd [Ht Hs]]];
      [reflexivity|].
    exists sd. split; [exact Hsd|]. split; [exact Ht|].
    apply Hs. discriminate.
  - cbv zeta.
    destruct (Hwarm always_continues (Some (previous_frame straight_line))
                (vehicle_at (1 # 4) 0 5 0)
                (candidate straight_line (vehicle_at (1 # 4) 0 5 0) (1 # 4)))
      as [Ht Hs].
    split; [apply Ht|apply Hs]; intros last_frame last [= <-] [= <-];
      repeat first [apply Sorted_cons | apply Sorted_nil
                   | apply HdRel_cons | apply HdRel_nil];
      first [reflexivity|discriminate].
Defined.

(** C7 (as stated, refuted).  A vehicle at rest with a slight negative
    acceleration: the polynomial search accepts the first candidate, whose
    curve has a slightly negative velocity, and the arc-length of the
    second sample is below that of the first. *)
Lemma GenerateStopProfileFromPolynomial_s_decreases :
  exists p0 p1 rest,
    GenerateStopProfileFromPolynomial 0 (- (1 # 1024)) = Some (p0 :: p1 :: rest)
    /\ sp_s p0 == 0 /\ sp_s p1 < sp_s p0 /\
    ~ s_nondecreasing (p0 :: p1 :: rest).
Proof.
  assert (H : exists p0 p1 rest,
             GenerateStopProfileFromPolynomial 0 (- (1 # 1024))
             = Some (p0 :: p1 :: rest) /\
             sp_s p0 == 0 /\ sp_s p1 < sp_s p0).
  { do 3 eexists. split; [vm_compute; reflexivity|].
    split; vm_compute; reflexivity. }
  destruct H as [p0 [p1 [rest [Hrun [H0 H1]]]]].
  exists p0, p1, rest. repeat split; try assumption.
  intro Hs. inversion Hs as [|? ? _ Hh]; subst.
  inversion Hh; subst. lra.
Qed.

(** ** The polynomial search against its specification *)

Lemma near_steps_correct (origin step : Q) (times : list Q) :
  forall k,
    near_steps origin step k times = true ->
    Forall2 (fun k time =>
               Qabs (time - (origin + inject_Z (Z.of_nat k) * step))
               <= 1 # 1000000000000)
            (seq k (List.length times)) times.
Proof.
  induction times as [|time times IH]; intros k H;
    cbn [near_steps List.length seq] in *; [constructor|].
  apply andb_true_iff in H. destruct H as [Hk Hrest].
  constructor; [apply Qle_bool_iff; exact Hk|exact (IH _ Hrest)].
Qed.

Lemma steps_up_to_bool_correct (origin step last : Q) (times : list Q) :
  steps_up_to_bool origin step last times = true ->
  steps_up_to origin step last times.
Proof.
  unfold steps_up_to_bool, steps_up_to. intro H.
  apply andb_true_iff in H. destruct H as [H Hlast].
  apply andb_true_iff in H. destruct H as [Hnear Hle].
  split; [exact (near_steps_correct _ _ _ _ Hnear)|]. split.
  - apply Forall_forall. intros time Hin.
    rewrite forallb_forall in Hle. apply Qle_bool_iff. exact (Hle _ Hin).
  - apply Qle_bool_iff. exact Hlast.
Qed.

(** The times of the validity check and the times of the emitted
    samples, for the candidate durations. *)
Lemma sample_times_steps :
  Forall (fun t =>
            steps_up_to (1 # 10) (2 # 10) t
              (sample_times (round_to_double (1 # 10))
                            (round_to_double (2 # 10)) t) /\
            steps_up_to 0 (2 # 100) t
              (sample_times 0 (round_to_double (2 # 100)) t))
         candidate_durations.
Proof.
  assert (H : forallb
                (fun t =>
                   steps_up_to_bool (1 # 10) (2 # 10) t
                     (sample_times (round_to_double (1 # 10))
                                   (round_to_double (2 # 10)) t)
                   && steps_up_to_bool 0 (2 # 100) t
                        (sample_times 0 (round_to_double (2 # 100)) t))
                candidate_durations = true)
    by (vm_compute; reflexivity).
  rewrite forallb_forall in H. apply Forall_forall. intros t Ht.
  apply H in Ht. apply andb_true_iff in Ht. destruct Ht as [H1 H2].
  split; apply steps_up_to_bool_correct; assumption.
Qed.

(** The curve of a candidate pair meets the boundary conditions of the
    specification. *)
Lemma stop_curve_boundary (init_speed init_acc : Q) (c : Q * Q) :
  In c candidate_pairs ->
  let curve := stop_curve init_speed init_acc (fst c) (snd c) in
  ParamLength curve = fst c /\
  Evaluate curve 0 0 == 0 /\ Evaluate curve 1 0 == init_speed /\
  Evaluate curve 2 0 == init_acc /\
  Evaluate curve 0 (fst c) == snd c /\ Evaluate curve 1 (fst c) == 0 /\
  Evaluate curve 2 (fst c) == 0.
Proof.
  intro Hin. apply candidate_pairs_duration in Hin.
  destruct c as [t s]. cbn [fst snd] in *. cbv zeta.
  split; [reflexivity|].
  apply (Quintic_boundary 0 init_speed init_acc s 0 0 t).
  unfold candidate_durations in Hin. cbn [In] in Hin.
  destruct Hin as [<-|[<-|[<-|[<-|[<-|[]]]]]]; intro H; discriminate H.
Qed.

(** C4.  The polynomial search of the code returns the profile that the
    specification describes: the candidates are the durations 2.0, 2.5,
    ..., 4.0 with, for each, the distances 0, 1, ..., 49; the first pair
    whose curve from (0, v, a) to (s, 0, 0) over [t] is valid at the times
    0.1, 0.3, ... up to [t] is taken and sampled every 0.02 s; without a
    valid pair the profile is empty.  The times are those of a counter of
    type double: for every candidate duration they are the instants 0.1 +
    0.2 k of the check, and 0.02 k of the samples, up to a rounding error
    of at most 1e-12, all those before the end of the curve and possibly
    the end itself.  The curve of a pair has the duration [t], starts at
    position 0 with the speed and the acceleration of the vehicle, and
    ends at position [s] with speed 0 and acceleration 0. *)
Theorem GenerateStopProfileFromPolynomial_is_polynomial_search
    (init_speed init_acc : Q) :
  GenerateStopProfileFromPolynomial init_speed init_acc =
  Some (polynomial_search init_speed init_acc) /\
  Forall (fun t =>
            steps_up_to (1 # 10) (2 # 10) t
              (sample_times (round_to_double (1 # 10))
                            (round_to_double (2 # 10)) t) /\
            steps_up_to 0 (2 # 100) t
              (sample_times 0 (round_to_double (2 # 100)) t))
         candidate_durations /\
  Forall (fun c =>
            let curve := stop_curve init_speed init_acc (fst c) (snd c) in
            ParamLength curve = fst c /\
            Evaluate curve 0 0 == 0 /\ Evaluate curve 1 0 == init_speed /\
            Evaluate curve 2 0 == init_acc /\
            Evaluate curve 0 (fst c) == snd c /\
            Evaluate curve 1 (fst c) == 0 /\ Evaluate curve 2 (fst c) == 0)
         candidate_pairs.
Proof.
  split; [|split; [exact sample_times_steps|]].
  - rewrite GenerateStopProfileFromPolynomial_find. unfold polynomial_search.
    destruct (find _ candidate_pairs) as [[t s]|]; reflexivity.
  - apply Forall_forall. intros c Hin.
    exact (stop_curve_boundary init_speed init_acc c Hin).
Qed.

(** * Further properties of the planner *)

(** ** The warm start: what [GenerateInitSpeedProfile] returns *)

Section WarmStartContent.

Variable IsStartFrom : ReferenceLineInfo -> ReferenceLineInfo -> bool.
Variable Latest : option Frame.

(** X1.  A warm start that is not empty begins at the origin: its first
    sample has arc-length 0 and time 0. *)
Theorem GenerateInitSpeedProfile_starts_at_origin
    (planning_init_point : TrajectoryPoint)
    (reference_line_info : ReferenceLineInfo)
    (first : SpeedPoint) (rest : list SpeedPoint) :
  snd (GenerateInitSpeedProfile IsStartFrom Latest planning_init_point
                                reference_line_info) = first :: rest ->
  sp_s first == 0 /\ sp_t first == 0.
Proof.
  unfold GenerateInitSpeedProfile.
  destruct Latest as [last_frame|]; [|discriminate].
  destruct (DriveReferenceLineInfo last_frame) as [last|]; [|discriminate].
  destruct (negb (IsStartFrom reference_line_info last)); [discriminate|].
  destruct (negb (Empty (speed_data last))); [|discriminate].
  destruct (warm_start_s_diff planning_init_point last_frame last)
    as [log s_diff].
  cbn [snd]. rewrite GenerateInitSpeedProfile_loop_fresh.
  destruct (filter (kept s_diff) (speed_data last)) as [|p0 l0];
    [discriminate|].
  cbn [map]. intros [= <- _]. cbn [rebase sp_s sp_t]. split; lra.
Qed.

(** X2.  With a previous frame, a selected candidate in it and a line that
    continues it, the warm start is made of the previous samples whose
    arc-length is not below the advance [s_diff], in their order; each keeps
    its speed, acceleration and jerk, and its arc-length and time are
    counted from the first sample that is kept. *)
Theorem GenerateInitSpeedProfile_rebases_kept_samples
    (planning_init_point : TrajectoryPoint)
    (reference_line_info : ReferenceLineInfo)
    (last_frame : Frame) (last_reference_line_info : ReferenceLineInfo) :
  Latest = Some last_frame ->
  DriveReferenceLineInfo last_frame = Some last_reference_line_info ->
  IsStartFrom reference_line_info last_reference_line_info = true ->
  let s_diff := snd (warm_start_s_diff planning_init_point last_frame
                                       last_reference_line_info) in
  let kept_samples :=
    filter (kept s_diff) (speed_data last_reference_line_info) in
  snd (GenerateInitSpeedProfile IsStartFrom Latest planning_init_point
                                reference_line_info)
  = match kept_samples with
    | [] => []
    | origin :: _ =>
        map (rebase (sp_t origin) (sp_s origin)) kept_samples
    end.
Proof.
  intros HL HD HS. cbv zeta. unfold GenerateInitSpeedProfile.
  rewrite HL, HD, HS. cbn [negb].
  destruct (warm_start_s_diff planning_init_point last_frame
                              last_reference_line_info) as [log s_diff].
  cbn [snd].
  destruct (speed_data last_reference_line_info) as [|p0 l0] eqn:E;
    [reflexivity|].
  cbn [Empty negb snd]. apply GenerateInitSpeedProfile_loop_fresh.
Qed.

(** X3.  Without a previous frame, without a selected candidate in it, on
    a line that does not continue the selected one, or with an empty
    previous profile, the warm start is empty, and nothing is projected,
    so nothing is logged. *)
Theorem GenerateInitSpeedProfile_gates
    (planning_init_point : TrajectoryPoint)
    (reference_line_info : ReferenceLineInfo) :
  (Latest = None \/
   exists last_frame,
     Latest = Some last_frame /\
     (DriveReferenceLineInfo last_frame = None \/
      exists last,
        DriveReferenceLineInfo last_frame = Some last /\
        (IsStartFrom reference_line_info last = false \/
         speed_data last = []))) ->
  GenerateInitSpeedProfile IsStartFrom Latest planning_init_point
                           reference_line_info = ([], []).
Proof.
  unfold GenerateInitSpeedProfile.
  intros [->|[last_frame [-> [->|[last [-> [->| ->]]]]]]]; try reflexivity.
  destruct (negb (IsStartFrom reference_line_info last)); reflexivity.
Qed.

End WarmStartContent.

(** A run of X1: the vehicle advanced by 0.25 m. *)
Lemma GenerateInitSpeedProfile_starts_at_origin_witness :
  exists first rest,
    snd (GenerateInitSpeedProfile always_continues
           (Some (previous_frame straight_line)) (vehicle_at (1 # 4) 0 5 0)
           (candidate straight_line (vehicle_at (1 # 4) 0 5 0) (1 # 4)))
    = first :: rest /\
    sp_s first == 0 /\ sp_t first == 0.
Proof.
  do 2 eexists. split; [reflexivity|].
  eapply (GenerateInitSpeedProfile_starts_at_origin always_continues
            (Some (previous_frame straight_line))
            (vehicle_at (1 # 4) 0 5 0)
            (candidate straight_line (vehicle_at (1 # 4) 0 5 0) (1 # 4))).
  reflexivity.
Defined.

(** A run of X2: the first previous sample is dropped, the second is the
    new origin. *)
Lemma GenerateInitSpeedProfile_rebases_kept_samples_witness :
  snd (GenerateInitSpeedProfile always_continues
         (Some (previous_frame straight_line)) (vehicle_at (1 # 4) 0 5 0)
         (candidate straight_line (vehicle_at (1 # 4) 0 5 0) (1 # 4)))
  = [rebase (1 # 10) (1 # 2) (mkSpeedPoint (1 # 2) (1 # 10) 5 0 0)].
Proof.
  rewrite (GenerateInitSpeedProfile_rebases_kept_samples always_continues
             (Some (previous_frame straight_line))
             (vehicle_at (1 # 4) 0 5 0)
             (candidate straight_line (vehicle_at (1 # 4) 0 5 0) (1 # 4))
             (previous_frame straight_line)
             (set_speed_vector
                (candidate straight_line (vehicle_at 0 0 5 0) 0)
                previous_profile)); reflexivity.
Defined.

(** A run of X3: the first cycle, without history. *)
Lemma GenerateInitSpeedProfile_gates_witness :
  GenerateInitSpeedProfile always_continues None (vehicle_at 0 0 5 0)
    (candidate straight_line (vehicle_at 0 0 5 0) 0) = ([], []).
Proof.
  apply (GenerateInitSpeedProfile_gates always_continues None).
  left. reflexivity.
Defined.

(** ** The hot start: what [GenerateSpeedHotStart] returns *)

Lemma Clamp_bounds (value bound1 bound2 : Q) :
  bound1 <= bound2 ->
  bound1 <= Clamp value bound1 bound2 /\ Clamp value bound1 bound2 <= bound2.
Proof.
  intro H. unfold Clamp.
  destruct (Qlt_bool value bound1) eqn:E1; [lra|].
  destruct (Qlt_bool bound2 value) eqn:E2; [lra|].
  apply Qlt_bool_false in E1. apply Qlt_bool_false in E2. lra.
Qed.

(** The samples of the hot-start loop lie on the line s = v t, when the
    loop enters on it. *)
Lemma GenerateSpeedHotStart_loop_on_line (interval v : Q) (ts : list Q) :
  Sorted (fun u w => w == u + interval) ts ->
  forall s,
    match ts with
    | [] => True
    | t :: _ => s == v * t
    end ->
    Forall (fun q => sp_v q = v /\ sp_a q = 0 /\ sp_da q = 0 /\
                     sp_s q == sp_v q * sp_t q)
           (GenerateSpeedHotStart_loop interval v ts s []).
Proof.
  intro Hs. induction Hs as [|t ts Hs IH Hh]; intros s H0;
    cbn [GenerateSpeedHotStart_loop]; [constructor|].
  rewrite GenerateSpeedHotStart_loop_app. cbn [app]. constructor.
  - cbn [sp_v sp_a sp_da sp_s sp_t]. repeat split. exact H0.
  - apply IH. destruct Hh as [|t' ts' Ht']; [exact I|].
    rewrite Ht', H0. ring.
Qed.

(** X5.  The edges of the hot start.  With a horizon that is not positive
    the profile is empty.  With a positive horizon and a sampling interval
    that is not positive the loop never ends.  With both positive the
    profile begins with the sample (s, t) = (0, 0) at the clamped speed. *)
Theorem GenerateSpeedHotStart_edges (FLAGS : Flags)
    (planning_init_point : TrajectoryPoint) :
  (FLAGS_trajectory_time_length FLAGS <= 0 ->
   GenerateSpeedHotStart FLAGS planning_init_point = Some []) /\
  (0 < FLAGS_trajectory_time_length FLAGS ->
   FLAGS_trajectory_time_min_interval FLAGS <= 0 ->
   GenerateSpeedHotStart FLAGS planning_init_point = None) /\
  (0 < FLAGS_trajectory_time_length FLAGS ->
   0 < FLAGS_trajectory_time_min_interval FLAGS ->
   exists rest,
     GenerateSpeedHotStart FLAGS planning_init_point =
     Some (mkSpeedPoint 0 0 (Clamp (tp_v planning_init_point) 5
                                   (FLAGS_planning_upper_speed_limit FLAGS))
                        0 0 :: rest)).
Proof.
  unfold GenerateSpeedHotStart. split; [|split].
  - intro H. rewrite (range_lt_empty _ _ _ H). reflexivity.
  - intros Hlen Hstep. unfold range_lt.
    rewrite (range_fuel_diverges _ _ (FLAGS_trajectory_time_length FLAGS)
               Hstep); [reflexivity| |exact Hlen].
    intros v Hv. apply Qlt_bool_iff. exact Hv.
  - intros Hlen Hstep.
    destruct (range_lt_terminates 0 (FLAGS_trajectory_time_length FLAGS)
                (FLAGS_trajectory_time_min_interval FLAGS) Hstep) as [ts Hts].
    rewrite Hts. cbn [obind].
    destruct (range_lt_nonempty _ _ _ _ Hts Hlen) as [ts' ->].
    cbn [GenerateSpeedHotStart_loop]. rewrite GenerateSpeedHotStart_loop_app.
    cbn [app]. eauto.
Qed.

(** A run of X5: a sampling interval of zero. *)
Lemma GenerateSpeedHotStart_edges_witness :
  GenerateSpeedHotStart (mkFlags 1000 true true 20 8 0 (- (5 # 2)))
                        (vehicle_at 0 0 2 0) = None.
Proof.
  apply (GenerateSpeedHotStart_edges (mkFlags 1000 true true 20 8 0 (- (5 # 2)))
           (vehicle_at 0 0 2 0)).
  - reflexivity.
  - discriminate.
Defined.

(** ** The closed-form stop profile: what [GenerateStopProfile] returns *)

Lemma range_fuel_lower (fuel : nat) (continue : Q -> bool) (step : Q) :
  0 <= step ->
  forall x l, range_fuel fuel continue step x = Some l ->
  Forall (fun v => x <= v) l.
Proof.
  intro Hs. induction fuel as [|n IH]; intros x l H; [discriminate|].
  cbn [range_fuel] in H. destruct (continue x).
  - destruct (range_fuel n continue step (Qred (x + step))) as [l'|] eqn:E;
      [|discriminate].
    injection H as <-. constructor; [lra|].
    eapply Forall_impl; [|exact (IH _ _ E)].
    cbv beta. intros v Hv. rewrite Qred_correct in Hv. lra.
  - injection H as <-. constructor.
Qed.

Lemma stop_profile_times_range :
  range_lt 0 3 (2 # 100) = Some stop_profile_times.
Proof. vm_compute. reflexivity. Qed.

Lemma fmin_le_l (x y : Q) : fmin x y <= x.
Proof.
  unfold fmin. destruct (Qlt_bool y x) eqn:E; [|lra].
  apply Qlt_bool_iff in E. lra.
Qed.

Lemma fmax_nonpos (y : Q) : y <= 0 -> fmax 0 y = 0.
Proof.
  intro H. unfold fmax. apply Qlt_bool_false in H. rewrite H. reflexivity.
Qed.

Lemma fmax_keeps (x y : Q) : y <= x -> fmax x y = x.
Proof.
  intro H. unfold fmax. apply Qlt_bool_false in H. rewrite H. reflexivity.
Qed.

(** X6.  Whatever the initial speed, the initial acceleration and the
    configured deceleration, the closed-form stop profile has 150 samples,
    at the times 0, 0.02, ..., 2.98. *)
Theorem GenerateStopProfile_times (FLAGS : Flags) (init_speed init_acc : Q) :
  exists sd,
    GenerateStopProfile FLAGS init_speed init_acc = Some sd /\
    List.length sd = 150%nat /\
    map sp_t sd = stop_profile_times.
Proof.
  unfold GenerateStopProfile. rewrite stop_profile_times_range.
  cbn [obind]. eexists. split; [reflexivity|].
  assert (Ht : forall sd, map sp_t sd = stop_profile_times ->
                          List.length sd = 150%nat /\
                          map sp_t sd = stop_profile_times).
  { intros sd H. split; [|exact H].
    rewrite <- (length_map sp_t), H. reflexivity. }
  apply Ht. apply GenerateStopProfile_loop_times.
Qed.

(** The samples of the stop loop do not go backwards in speed or place. *)
Lemma GenerateStopProfile_loop_bounds
    (dec v acc t_mid s_mid v_mid : Q) (ts : list Q) :
  acc <= 0 -> Forall (fun t => 0 <= t) ts ->
  forall pre_s, 0 <= pre_s ->
    Forall (fun q => 0 <= sp_v q /\ 0 <= sp_s q /\ sp_da q = 0 /\
                     (dec <= 0 -> sp_a q <= 0))
           (GenerateStopProfile_loop dec v acc t_mid s_mid v_mid ts pre_s []).
Proof.
  intros Hacc Hts. induction Hts as [|t ts Ht _ IH]; intros pre_s Hpre;
    cbn [GenerateStopProfile_loop]; [constructor|].
  destruct (Qle_bool t t_mid); cbv zeta; unfold AppendSpeedPoint;
    rewrite GenerateStopProfile_loop_app; cbn [app]; constructor.
  - cbn [sp_v sp_s sp_da sp_a]. split; [apply fmax_ge_l|].
    split; [eapply Qle_trans; [exact Hpre|apply fmax_ge_l]|].
    split; [reflexivity|]. intros _. unfold kFixedJerk. lra.
  - apply IH. eapply Qle_trans; [exact Hpre|apply fmax_ge_l].
  - cbn [sp_v sp_s sp_da sp_a]. split; [apply fmax_ge_l|].
    split; [eapply Qle_trans; [exact Hpre|apply fmax_ge_l]|].
    split; [reflexivity|]. intro H. exact H.
  - apply IH. eapply Qle_trans; [exact Hpre|apply fmax_ge_l].
Qed.

(** X7.  In the closed-form stop profile no sample has a negative speed
    or a negative arc-length, the recorded jerk is 0 in every sample (also
    in the phase that applies the jerk of -1), and, when the configured
    deceleration is not positive, no sample accelerates. *)
Theorem GenerateStopProfile_bounds (FLAGS : Flags) (init_speed init_acc : Q) :
  exists sd,
    GenerateStopProfile FLAGS init_speed init_acc = Some sd /\
    Forall (fun q => 0 <= sp_v q /\ 0 <= sp_s q /\ sp_da q = 0 /\
                     (FLAGS_slowdown_profile_deceleration FLAGS <= 0 ->
                      sp_a q <= 0)) sd.
Proof.
  unfold GenerateStopProfile.
  destruct (range_lt_terminates 0 3 (2 # 100)) as [ts Hts]; [reflexivity|].
  rewrite Hts. cbn [obind]. eexists. split; [reflexivity|].
  apply GenerateStopProfile_loop_bounds.
  - apply fmin_le_l.
  - apply (range_fuel_lower _ _ (2 # 100)) in Hts; [exact Hts|discriminate].
  - lra.
Qed.

Lemma jerk_phase_place_nonpos (v acc x : Q) :
  v <= 0 -> acc <= 0 -> 0 <= x ->
  v * x + (1 # 2) * acc * x * x + 1 / 6 * kFixedJerk * x * x * x <= 0.
Proof.
  intros Hv Hacc Hx. unfold kFixedJerk.
  assert (0 <= x * x) by nra. assert (v * x <= 0) by nra.
  assert (acc * (x * x) <= 0) by nra. assert (0 <= x * (x * x)) by nra.
  change (1 / 6) with (1 # 6). nra.
Qed.

Lemma jerk_phase_speed_nonpos (v acc x : Q) :
  v <= 0 -> acc <= 0 -> 0 <= x ->
  v + acc * x + (1 # 2) * kFixedJerk * x * x <= 0.
Proof.
  intros Hv Hacc Hx. unfold kFixedJerk. nra.
Qed.

Lemma constant_phase_place_nonpos (s v d x : Q) :
  s <= 0 -> v <= 0 -> d <= 0 -> 0 <= x ->
  s + v * x + (1 # 2) * d * x * x <= 0.
Proof.
  intros Hs Hv Hd Hx. nra.
Qed.

Lemma constant_phase_speed_nonpos (v d x : Q) :
  v <= 0 -> d <= 0 -> 0 <= x -> v + x * d <= 0.
Proof.
  intros Hv Hd Hx. nra.
Qed.

(** The stop loop of a vehicle that does not move forward, when the first
    phase is not behind the start ([t_mid] is not negative). *)
Lemma GenerateStopProfile_loop_standstill (dec v acc : Q) (ts : list Q) :
  v <= 0 -> acc <= 0 -> dec <= acc ->
  Forall (fun t => 0 <= t) ts ->
  let t_mid := (dec - acc) / kFixedJerk in
  let s_mid := v * t_mid + (1 # 2) * acc * t_mid * t_mid +
               1 / 6 * kFixedJerk * t_mid * t_mid * t_mid in
  let v_mid := v + acc * t_mid + (1 # 2) * kFixedJerk * t_mid * t_mid in
  forall pre_s, pre_s == 0 ->
    Forall (fun q => sp_v q = 0 /\ sp_s q == 0)
           (GenerateStopProfile_loop dec v acc t_mid s_mid v_mid ts pre_s []).
Proof.
  intros Hv Hacc Hdec Hts t_mid s_mid v_mid.
  assert (Hmid : 0 <= t_mid).
  { assert (E : t_mid == acc - dec) by (unfold t_mid, kFixedJerk; field).
    rewrite E. lra. }
  assert (Hsmid : s_mid <= 0)
    by (apply jerk_phase_place_nonpos; assumption).
  assert (Hvmid : v_mid <= 0)
    by (apply jerk_phase_speed_nonpos; assumption).
  assert (Hd : dec <= 0) by lra.
  induction Hts as [|t ts Ht _ IH]; intros pre_s Hpre;
    cbn [GenerateStopProfile_loop]; [constructor|].
  destruct (Qle_bool t t_mid) eqn:Hphase; cbv zeta; unfold AppendSpeedPoint;
    rewrite GenerateStopProfile_loop_app; cbn [app].
  - assert (Hs : v * t + (1 # 2) * acc * t * t +
                 1 / 6 * kFixedJerk * t * t * t <= pre_s).
    { rewrite Hpre. apply jerk_phase_place_nonpos; assumption. }
    assert (Hvt : v + acc * t + (1 # 2) * kFixedJerk * t * t <= 0)
      by (apply jerk_phase_speed_nonpos; assumption).
    rewrite (fmax_keeps _ _ Hs), (fmax_nonpos _ Hvt).
    constructor; [split; [reflexivity|exact Hpre]|].
    apply IH. exact Hpre.
  - apply Qle_bool_false in Hphase.
    assert (Hx : 0 <= t - t_mid) by lra.
    assert (Hs : s_mid + v_mid * (t - t_mid) +
                 (1 # 2) * dec * (t - t_mid) * (t - t_mid) <= pre_s).
    { rewrite Hpre. apply constant_phase_place_nonpos; assumption. }
    assert (Hvt : v_mid + (t - t_mid) * dec <= 0)
      by (apply constant_phase_speed_nonpos; assumption).
    rewrite (fmax_keeps _ _ Hs), (fmax_nonpos _ Hvt).
    constructor; [split; [reflexivity|exact Hpre]|].
    apply IH. exact Hpre.
Qed.

(** X8.  A vehicle that does not move forward stays where it is: when the
    initial speed is not positive and the configured deceleration is not
    above the initial acceleration clamped to 0, every sample of the
    closed-form stop profile has speed 0 and arc-length 0. *)
Theorem GenerateStopProfile_standstill (FLAGS : Flags)
    (init_speed init_acc : Q) :
  init_speed <= 0 ->
  FLAGS_slowdown_profile_deceleration FLAGS <= fmin 0 init_acc ->
  exists sd,
    GenerateStopProfile FLAGS init_speed init_acc = Some sd /\
    Forall (fun q => sp_v q = 0 /\ sp_s q == 0) sd.
Proof.
  intros Hv Hdec. unfold GenerateStopProfile.
  destruct (range_lt_terminates 0 3 (2 # 100)) as [ts Hts]; [reflexivity|].
  rewrite Hts. cbn [obind]. eexists. split; [reflexivity|].
  apply GenerateStopProfile_loop_standstill.
  - exact Hv.
  - apply fmin_le_l.
  - exact Hdec.
  - apply (range_fuel_lower _ _ (2 # 100)) in Hts; [exact Hts|discriminate].
  - reflexivity.
Qed.

(** A run of X8: a vehicle at rest, deceleration -2.5. *)
Lemma GenerateStopProfile_standstill_witness :
  exists sd,
    GenerateStopProfile usual_flags 0 0 = Some sd /\
    Forall (fun q => sp_v q = 0 /\ sp_s q == 0) sd.
Proof.
  apply (GenerateStopProfile_standstill usual_flags 0 0); discriminate.
Defined.

(** ** The samples of the hot start *)

(** X4.  With a positive sampling interval and a speed limit of at least
    5 m/s, the hot start returns a profile of constant velocity: every
    sample has the initial speed clamped to [5, limit], no acceleration
    and no jerk, and neither its time nor its arc-length is negative. *)
Theorem GenerateSpeedHotStart_constant_velocity (FLAGS : Flags)
    (planning_init_point : TrajectoryPoint) :
  0 < FLAGS_trajectory_time_min_interval FLAGS ->
  5 <= FLAGS_planning_upper_speed_limit FLAGS ->
  exists sd,
    GenerateSpeedHotStart FLAGS planning_init_point = Some sd /\
    Forall (fun q =>
              sp_v q = Clamp (tp_v planning_init_point) 5
                             (FLAGS_planning_upper_speed_limit FLAGS) /\
              5 <= sp_v q /\
              sp_v q <= FLAGS_planning_upper_speed_limit FLAGS /\
              sp_a q = 0 /\ sp_da q = 0 /\
              0 <= sp_t q /\ 0 <= sp_s q) sd.
Proof.
  intros Hstep Hup. unfold GenerateSpeedHotStart.
  destruct (range_lt_terminates 0 (FLAGS_trajectory_time_length FLAGS)
              (FLAGS_trajectory_time_min_interval FLAGS) Hstep) as [ts Hts].
  rewrite Hts. cbn [obind]. eexists. split; [reflexivity|].
  destruct (Clamp_bounds (tp_v planning_init_point) 5 _ Hup) as [Hlo Hhi].
  set (v := Clamp (tp_v planning_init_point) 5
                  (FLAGS_planning_upper_speed_limit FLAGS)) in *.
  assert (Hline :
            Forall (fun q => sp_v q = v /\ sp_a q = 0 /\ sp_da q = 0 /\
                             sp_s q == sp_v q * sp_t q)
                   (GenerateSpeedHotStart_loop
                      (FLAGS_trajectory_time_min_interval FLAGS) v ts 0 [])).
  { apply GenerateSpeedHotStart_loop_on_line;
      [exact (range_fuel_step _ _ _ _ _ Hts)|].
    destruct (range_fuel_head _ _ _ _ _ Hts) as [[_ [l' ->]]|[_ ->]];
      [ring|exact I]. }
  assert (Htime :
            Forall (fun q => 0 <= sp_t q)
                   (GenerateSpeedHotStart_loop
                      (FLAGS_trajectory_time_min_interval FLAGS) v ts 0 [])).
  { rewrite <- Forall_map, GenerateSpeedHotStart_loop_times.
    apply (range_fuel_lower _ _ _ (Qlt_le_weak _ _ Hstep) _ _ Hts). }
  eapply Forall_impl; [|exact (Forall_and Hline Htime)].
  cbv beta. intros q [[Hv [Ha [Hda Hs]]] Ht]. rewrite Hv.
  repeat split; try assumption.
  rewrite Hs, Hv. apply Qmult_le_0_compat; [lra|exact Ht].
Qed.

(** A run of X4: a vehicle at 2 m/s under a limit of 20 m/s. *)
Lemma GenerateSpeedHotStart_constant_velocity_witness :
  exists sd,
    GenerateSpeedHotStart usual_flags (vehicle_at 0 0 2 0) = Some sd /\
    Forall (fun q => sp_v q = 5 /\ 0 <= sp_t q /\ 0 <= sp_s q) sd.
Proof.
  destruct (GenerateSpeedHotStart_constant_velocity usual_flags
              (vehicle_at 0 0 2 0)) as [sd [Hsd Hall]].
  - reflexivity.
  - discriminate.
  - exists sd. split; [exact Hsd|].
    eapply Forall_impl; [|exact Hall]. cbv beta.
    intros q [Hv [_ [_ [_ [_ [Ht Hs]]]]]]. repeat split; assumption.
Defined.

(** ** The polynomial stop profile and the fallback speed profile *)

(** The samples of the search, for each candidate duration: 50 a second,
    the first at time 0, and none at the end of the curve or after it. *)
Lemma sample_times_counts :
  Forall (fun t =>
            let times := sample_times 0 (round_to_double (2 # 100)) t in
            inject_Z (Z.of_nat (List.length times)) == 50 * t /\
            hd_error times = Some 0 /\
            Forall (fun time => time < t) times)
         candidate_durations.
Proof.
  assert (H : forallb
                (fun t =>
                   let times := sample_times 0 (round_to_double (2 # 100)) t in
                   Qeq_bool (inject_Z (Z.of_nat (List.length times))) (50 * t)
                   && match times with
                      | time :: _ => Qeq_bool time 0 && (Qden time =? 1)%positive
                                     && (Qnum time =? 0)%Z
                      | [] => false
                      end
                   && forallb (fun time => Qlt_bool time t) times)
                candidate_durations = true)
    by (vm_compute; reflexivity).
  rewrite forallb_forall in H. apply Forall_forall. intros t Ht.
  apply H in Ht. cbv zeta in *.
  apply andb_true_iff in Ht. destruct Ht as [Ht Hlt].
  apply andb_true_iff in Ht. destruct Ht as [Hlen Hhd].
  split; [apply Qeq_bool_iff; exact Hlen|]. split.
  - destruct (sample_times 0 (round_to_double (2 # 100)) t)
      as [|[n d] times]; [discriminate|].
    apply andb_true_iff in Hhd. destruct Hhd as [Hhd Hn].
    apply andb_true_iff in Hhd. destruct Hhd as [_ Hd].
    cbn [Qden Qnum] in *.
    apply Pos.eqb_eq in Hd. apply Z.eqb_eq in Hn. subst. reflexivity.
  - apply Forall_forall. intros time Hin.
    rewrite forallb_forall in Hlt. apply Qlt_bool_iff. exact (Hlt _ Hin).
Qed.

(** X9.  The polynomial search returns.  Its profile is empty, or, for
    one of the candidate durations [t] = 2.0, 2.5, ..., 4.0, it has 50 [t]
    samples (100, 125, 150, 175 or 200), the sample [k] at the time
    0.02 [k] up to a rounding error of at most 1e-12: the samples stop one
    step before the end of the curve, and no sample is at the time [t]
    itself, although the loop is written with [curve_t <= t]. *)
Theorem GenerateStopProfileFromPolynomial_times (init_speed init_acc : Q) :
  exists sd,
    GenerateStopProfileFromPolynomial init_speed init_acc = Some sd /\
    (sd = [] \/
     exists t, In t candidate_durations /\
               inject_Z (Z.of_nat (List.length sd)) == 50 * t /\
               steps_up_to 0 (2 # 100) t (map sp_t sd) /\
               Forall (fun p => sp_t p < t) sd).
Proof.
  destruct (GenerateStopProfileFromPolynomial_total init_speed init_acc)
    as [sd Hsd].
  exists sd. split; [exact Hsd|].
  destruct (GenerateStopProfileFromPolynomial_shape _ _ _ Hsd)
    as [->|[curve [t [Hin ->]]]]; [left; reflexivity|right].
  exists t. split; [exact Hin|].
  pose proof sample_times_counts as Hc. rewrite Forall_forall in Hc.
  destruct (Hc t Hin) as [Hlen [_ Hlt]].
  pose proof sample_times_steps as Hs. rewrite Forall_forall in Hs.
  destruct (Hs t Hin) as [_ Hsteps].
  rewrite length_map, map_map. cbn [sample_curve sp_t]. rewrite map_id.
  split; [exact Hlen|]. split; [exact Hsteps|].
  rewrite Forall_map. cbn [sp_t]. exact Hlt.
Qed.

Lemma GenerateStopProfile_first_sample (FLAGS : Flags)
    (init_speed init_acc : Q) :
  exists first rest,
    GenerateStopProfile FLAGS init_speed init_acc = Some (first :: rest) /\
    sp_t first = 0 /\ t_increasing (first :: rest).
Proof.
  unfold GenerateStopProfile.
  destruct (range_lt_terminates 0 3 (2 # 100)) as [ts Hts]; [reflexivity|].
  rewrite Hts. cbn [obind].
  pose proof (range_fuel_increasing _ _ _ _ _ (eq_refl : 0 < 2 # 100) Hts)
    as Hinc.
  destruct (range_lt_nonempty _ _ _ _ Hts) as [ts' ->]; [reflexivity|].
  match goal with
  | |- context [Some ?l] => remember l as sd eqn:Esd
  end.
  assert (Ht : map sp_t sd = 0 :: ts')
    by (subst sd; apply GenerateStopProfile_loop_times).
  destruct sd as [|first rest]; [discriminate|].
  exists first, rest. split; [reflexivity|]. split.
  - injection Ht as -> _. reflexivity.
  - apply t_increasing_times. rewrite Ht. exact Hinc.
Qed.

Lemma GenerateFallbackSpeedProfile_first_sample (FLAGS : Flags)
    (reference_line_info : ReferenceLineInfo) :
  exists first rest,
    GenerateFallbackSpeedProfile FLAGS reference_line_info
    = Some (first :: rest) /\
    sp_t first = 0 /\ t_increasing (first :: rest).
Proof.
  unfold GenerateFallbackSpeedProfile.
  destruct (GenerateStopProfileFromPolynomial_total
              (tp_v (AdcPlanningPoint reference_line_info))
              (tp_a (AdcPlanningPoint reference_line_info))) as [sd Hsd].
  rewrite Hsd. cbn [obind].
  destruct sd as [|first rest]; cbn [Empty].
  - apply GenerateStopProfile_first_sample.
  - exists first, rest. split; [reflexivity|]. split.
    + destruct (GenerateStopProfileFromPolynomial_shape _ _ _ Hsd)
        as [E|[curve [t [Hin E]]]]; [discriminate|].
      pose proof sample_times_counts as Hc. rewrite Forall_forall in Hc.
      destruct (Hc t Hin) as [_ [Hhd _]]. cbv zeta in Hhd.
      destruct (sample_times 0 (round_to_double (2 # 100)) t)
        as [|time times]; [discriminate|].
      injection Hhd as ->.
      cbn [map] in E. injection E as -> _. reflexivity.
    + exact (GenerateStopProfileFromPolynomial_t_increasing _ _ _ Hsd).
Qed.

Lemma GenerateFallbackSpeedProfile_choice (FLAGS : Flags)
    (reference_line_info : ReferenceLineInfo)
    (polynomial closed_form : SpeedData) :
  GenerateStopProfileFromPolynomial
    (tp_v (AdcPlanningPoint reference_line_info))
    (tp_a (AdcPlanningPoint reference_line_info)) = Some polynomial ->
  GenerateStopProfile FLAGS
    (tp_v (AdcPlanningPoint reference_line_info))
    (tp_a (AdcPlanningPoint reference_line_info)) = Some closed_form ->
  GenerateFallbackSpeedProfile FLAGS reference_line_info
  = Some match polynomial with
         | [] => closed_form
         | _ :: _ => polynomial
         end.
Proof.
  intros Hpoly Hclosed. unfold GenerateFallbackSpeedProfile.
  rewrite Hpoly. cbn [obind].
  destruct polynomial; cbn [Empty]; [exact Hclosed|reflexivity].
Qed.

(** X10.  The fallback speed profile is always produced and is never
    empty: with the speed and the acceleration of the planning point of
    the vehicle, it is the polynomial stop profile when this one is not
    empty, else the closed-form one.  Its first sample is at time 0 and
    its times increase strictly. *)
Theorem GenerateFallbackSpeedProfile_never_empty (FLAGS : Flags)
    (reference_line_info : ReferenceLineInfo) :
  let init_speed := tp_v (AdcPlanningPoint reference_line_info) in
  let init_acc := tp_a (AdcPlanningPoint reference_line_info) in
  exists polynomial closed_form first rest,
    GenerateStopProfileFromPolynomial init_speed init_acc = Some polynomial /\
    GenerateStopProfile FLAGS init_speed init_acc = Some closed_form /\
    GenerateFallbackSpeedProfile FLAGS reference_line_info
    = Some (first :: rest) /\
    first :: rest = match polynomial with
                    | [] => closed_form
                    | _ :: _ => polynomial
                    end /\
    sp_t first = 0 /\ t_increasing (first :: rest).
Proof.
  cbv zeta.
  destruct (GenerateStopProfileFromPolynomial_total
              (tp_v (AdcPlanningPoint reference_line_info))
              (tp_a (AdcPlanningPoint reference_line_info)))
    as [polynomial Hpoly].
  destruct (GenerateStopProfile_total FLAGS
              (tp_v (AdcPlanningPoint reference_line_info))
              (tp_a (AdcPlanningPoint reference_line_info)))
    as [closed_form Hclosed].
  destruct (GenerateFallbackSpeedProfile_first_sample FLAGS
              reference_line_info) as [first [rest [Hrun [Hfirst Hinc]]]].
  exists polynomial, closed_form, first, rest.
  repeat split; try assumption.
  rewrite (GenerateFallbackSpeedProfile_choice FLAGS reference_line_info
             polynomial closed_form Hpoly Hclosed) in Hrun.
  injection Hrun as <-. reflexivity.
Qed.

(** ** The task loop: fail fast *)

Lemma last_nonempty_default {A : Type} (a : A) (l : list A) (b d d' : A) :
  last (b :: a :: l) d = last (a :: l) d'.
Proof.
  revert a. induction l as [|c l IH]; intro a; [reflexivity|].
  change (last (b :: a :: c :: l) d) with (last (a :: c :: l) d).
  change (last (a :: c :: l) d') with (last (c :: l) d').
  rewrite <- (IH c). reflexivity.
Qed.

Section TaskLoopOrder.

Variable FLAGS : Flags.
Variable World : Type.
Variable NowInSeconds : World -> Q * World.



End TaskLoopOrder.


(** ** [PlanOnReferenceLine] after the task loop *)

Lemma static_obstacle_loop_keeps (obstacles : list PathObstacle) :
  forall r,
    speed_data (static_obstacle_loop obstacles r) = speed_data r /\
    path_data (static_obstacle_loop obstacles r) = path_data r /\
    trajectory (static_obstacle_loop obstacles r) = trajectory r /\
    IsDrivable (static_obstacle_loop obstacles r) = IsDrivable r.
Proof.
  induction obstacles as [|o obstacles IH]; intro r;
    cbn [static_obstacle_loop]; [repeat split|].
  destruct (IsVirtual o); [apply IH|].
  destruct (IsStatic o); cbn [negb]; [|apply IH].
  destruct (has_stop o); [|apply IH].
  destruct (IH (AddCost r kRefrenceLineStaticObsCost)) as [H1 [H2 [H3 H4]]].
  repeat split; assumption.
Qed.

Lemma GenerateFallbackPathProfile_below (r : ReferenceLineInfo) :
  AdcSlBoundary_end_s r < 150 ->
  exists p rest, GenerateFallbackPathProfile r = Some (p :: rest).
Proof.
  intro H. unfold GenerateFallbackPathProfile.
  destruct (range_lt_terminates (AdcSlBoundary_end_s r) 150 1) as [ss Hss];
    [reflexivity|].
  rewrite Hss. cbn [obind].
  destruct (range_lt_nonempty _ _ _ _ Hss H) as [ss' ->].
  cbn [map]. eauto.
Qed.

Section AfterTasks.

Variable FLAGS : Flags.
Variable World : Type.
Variable NowInSeconds : World -> Q * World.
Variable tasks_ : list (Task World).
Variable IsStartFrom : ReferenceLineInfo -> ReferenceLineInfo -> bool.
Variable Latest : option Frame.
Variable CombinePathAndSpeedProfile :
  Q -> Q -> ReferenceLineInfo -> option DiscretizedTrajectory.
Variable ValidTrajectory : DiscretizedTrajectory -> bool.

(** The steps of the last part of [PlanOnReferenceLine], one by one. *)
Lemma PlanOnReferenceLine_finish_steps (p : TrajectoryPoint) (ret : Status)
    (r r' : ReferenceLineInfo) (status : Status) :
  PlanOnReferenceLine_finish FLAGS CombinePathAndSpeedProfile ValidTrajectory
    p ret r = Some (status, r') ->
  exists r1 r2,
    (if Empty (path_data r)
     then exists pts, GenerateFallbackPathProfile r = Some pts /\
                      r1 = AddCost (SetDiscretizedPath r pts)
                                   kPathOptimizationFallbackClost
     else r1 = r) /\
    (if negb (ok ret) || Empty (speed_data r)
     then exists sd, GenerateFallbackSpeedProfile FLAGS r1 = Some sd /\
                     r2 = AddCost (set_speed_vector r1 sd)
                                  kSpeedOptimizationFallbackClost
     else r2 = r1) /\
    match CombinePathAndSpeedProfile (tp_relative_time p)
            (pp_s (tp_path_point p)) r2 with
    | None => status = mkStatus PLANNING_ERROR aggregate_error /\ r' = r2
    | Some tr =>
        if FLAGS_enable_trajectory_check FLAGS && negb (ValidTrajectory tr)
        then status = mkStatus PLANNING_ERROR validate_error /\
             r' = static_obstacle_loop (path_obstacles r2) r2
        else status = Status_OK /\
             r' = SetDrivable
                    (SetTrajectory
                       (static_obstacle_loop (path_obstacles r2) r2) tr)
                    true
    end.
Proof.
  unfold PlanOnReferenceLine_finish. intro H.
  apply obind_Some in H. destruct H as [r1 [E1 H]].
  apply obind_Some in H. destruct H as [r2 [E2 H]].
  exists r1, r2.
  assert (H1 : if Empty (path_data r)
               then exists pts, GenerateFallbackPathProfile r = Some pts /\
                                r1 = AddCost (SetDiscretizedPath r pts)
                                             kPathOptimizationFallbackClost
               else r1 = r).
  { destruct (Empty (path_data r)).
    - apply obind_Some in E1. destruct E1 as [pts [Hp E1]].
      injection E1 as <-. eauto.
    - injection E1 as <-. reflexivity. }
  assert (Hs1 : speed_data r1 = speed_data r).
  { destruct (Empty (path_data r)); [|congruence].
    destruct H1 as [pts [_ ->]]. reflexivity. }
  rewrite Hs1 in E2.
  split; [exact H1|]. split.
  - destruct (negb (ok ret) || Empty (speed_data r)).
    + apply obind_Some in E2. destruct E2 as [sd [Hsd E2]].
      injection E2 as <-. eauto.
    + injection E2 as <-. reflexivity.
  - destruct (CombinePathAndSpeedProfile _ _ r2) as [tr|].
    + destruct (FLAGS_enable_trajectory_check FLAGS
                && negb (ValidTrajectory tr));
        injection H as <- <-; split; reflexivity.
    + injection H as <- <-. split; reflexivity.
Qed.


(** X13.  The candidate leaves [PlanOnReferenceLine] with a speed profile
    that is not empty, whatever the tasks did.  Its path is not empty
    either when the tasks left a path or the vehicle is below arc-length
    150; with no path from the tasks and the vehicle at 150 or beyond, the
    path stays empty. *)
Theorem PlanOnReferenceLine_finish_fills (p : TrajectoryPoint) (ret : Status)
    (r r' : ReferenceLineInfo) (status : Status) :
  PlanOnReferenceLine_finish FLAGS CombinePathAndSpeedProfile ValidTrajectory
    p ret r = Some (status, r') ->
  speed_data r' <> [] /\
  (path_data r <> [] \/ AdcSlBoundary_end_s r < 150 -> path_data r' <> []) /\
  (path_data r = [] -> 150 <= AdcSlBoundary_end_s r -> path_data r' = []).
Proof.
  intro H. apply PlanOnReferenceLine_finish_steps in H.
  destruct H as [r1 [r2 [H1 [H2 H3]]]].
  assert (K1 : speed_data r1 = speed_data r /\
               (path_data r <> [] \/ AdcSlBoundary_end_s r < 150 ->
                path_data r1 <> []) /\
               (path_data r = [] -> 150 <= AdcSlBoundary_end_s r ->
                path_data r1 = [])).
  { destruct (path_data r) as [|pt pts0] eqn:Ep; cbn [Empty] in H1.
    - destruct H1 as [pts [Hp ->]]. cbn [speed_data path_data AddCost
                                          SetDiscretizedPath].
      split; [reflexivity|]. split.
      + intros [Hne|Hlt]; [congruence|].
        destruct (GenerateFallbackPathProfile_below r Hlt) as [q [rest Hq]].
        congruence.
      + intros _ Hge.
        rewrite (GenerateFallbackPathProfile_beyond r Hge) in Hp. congruence.
    - subst r1. rewrite Ep. split; [reflexivity|].
      split; [intros _; discriminate|discriminate]. }
  destruct K1 as [Ks1 [Kp1 Kq1]].
  assert (K2 : speed_data r2 <> [] /\ path_data r2 = path_data r1).
  { destruct (ok ret); cbn [negb orb] in H2.
    - destruct (speed_data r) as [|sp sps] eqn:Es; cbn [Empty] in H2.
      + destruct H2 as [sd [Hsd ->]].
        destruct (GenerateFallbackSpeedProfile_first_sample FLAGS r1)
          as [first [rest [Hf _]]].
        cbn [speed_data path_data AddCost set_speed_vector].
        split; [congruence|reflexivity].
      + subst r2. rewrite Ks1. split; [discriminate|reflexivity].
    - destruct H2 as [sd [Hsd ->]].
      destruct (GenerateFallbackSpeedProfile_first_sample FLAGS r1)
        as [first [rest [Hf _]]].
      cbn [speed_data path_data AddCost set_speed_vector].
      split; [congruence|reflexivity]. }
  destruct K2 as [Ks2 Kp2].
  assert (K3 : speed_data r' = speed_data r2 /\ path_data r' = path_data r2).
  { destruct (static_obstacle_loop_keeps (path_obstacles r2) r2)
      as [Hs [Hp _]].
    destruct (CombinePathAndSpeedProfile _ _ r2) as [tr|].
    - destruct (FLAGS_enable_trajectory_check FLAGS
                && negb (ValidTrajectory tr));
        destruct H3 as [_ ->]; split; assumption.
    - destruct H3 as [_ ->]. split; reflexivity. }
  destruct K3 as [Ks3 Kp3].
  rewrite Ks3, Kp3, Kp2. repeat split; assumption.
Qed.

End AfterTasks.

Section CandidateResult.

Variable FLAGS : Flags.
Variable World : Type.
Variable NowInSeconds : World -> Q * World.
Variable tasks_ : list (Task World).
Variable IsStartFrom : ReferenceLineInfo -> ReferenceLineInfo -> bool.
Variable Latest : option Frame.
Variable CombinePathAndSpeedProfile :
  Q -> Q -> ReferenceLineInfo -> option DiscretizedTrajectory.
Variable ValidTrajectory : DiscretizedTrajectory -> bool.

(** When it returns. *)
Lemma PlanOnReferenceLine_ok_when_it_returns
    (p : TrajectoryPoint) (r r' : ReferenceLineInfo) (w w' : World)
    (status : Status) :
  (forall t s c, CombinePathAndSpeedProfile t s c <> None) ->
  (FLAGS_enable_trajectory_check FLAGS = false \/
   forall tr, ValidTrajectory tr = true) ->
  PlanOnReferenceLine FLAGS World NowInSeconds tasks_ IsStartFrom Latest
    CombinePathAndSpeedProfile ValidTrajectory p r w = Some (status, r', w') ->
  status = Status_OK /\ IsDrivable r' = true.
Proof.
  intros Hcombine Hcheck H. unfold PlanOnReferenceLine in H.
  apply obind_Some in H. destruct H as [seeded [_ H]].
  destruct (run_tasks FLAGS World NowInSeconds tasks_ Status_OK seeded w)
    as [[ret r1] w1].
  apply obind_Some in H. destruct H as [[st r2] [Hfin H]].
  injection H as -> -> ->.
  apply PlanOnReferenceLine_finish_steps in Hfin.
  destruct Hfin as [q1 [q2 [_ [_ H3]]]].
  destruct (CombinePathAndSpeedProfile _ _ q2) as [tr|] eqn:E;
    [|exfalso; exact (Hcombine _ _ _ E)].
  assert (Hpass : FLAGS_enable_trajectory_check FLAGS
                  && negb (ValidTrajectory tr) = false).
  { destruct Hcheck as [->|Hv]; [reflexivity|].
    rewrite Hv. apply andb_false_r. }
  rewrite Hpass in H3. destruct H3 as [-> ->]. split; reflexivity.
Qed.

(** X14.  A failing task does not fail the candidate.  With a positive
    sampling interval of the hot start, when the assembly of the
    trajectory always succeeds and the trajectory check is disabled or
    always passes, [PlanOnReferenceLine] returns, its status is
    [Status::OK()] and the candidate is marked drivable, whatever the
    tasks return. *)
Theorem PlanOnReferenceLine_ok_whatever_the_tasks
    (p : TrajectoryPoint) (r : ReferenceLineInfo) (w : World) :
  0 < FLAGS_trajectory_time_min_interval FLAGS ->
  (forall t s c, CombinePathAndSpeedProfile t s c <> None) ->
  (FLAGS_enable_trajectory_check FLAGS = false \/
   forall tr, ValidTrajectory tr = true) ->
  exists r' w',
    PlanOnReferenceLine FLAGS World NowInSeconds tasks_ IsStartFrom Latest
      CombinePathAndSpeedProfile ValidTrajectory p r w
    = Some (Status_OK, r', w') /\
    IsDrivable r' = true.
Proof.
  intros Hpos Hcombine Hcheck.
  destruct (PlanOnReferenceLine_total FLAGS World NowInSeconds tasks_
              IsStartFrom Latest CombinePathAndSpeedProfile ValidTrajectory
              Hpos p r w) as [[[status r'] w'] H].
  destruct (PlanOnReferenceLine_ok_when_it_returns p r r' w w' status
              Hcombine Hcheck H) as [-> Hd].
  exists r', w'. split; [exact H|exact Hd].
Qed.

(** X15.  What the last part of [PlanOnReferenceLine] charges.  The
    priority cost is untouched and the cost is never lowered.  The cost
    grows by 20000 when the path was empty, by 20000 when the task loop
    failed or the speed profile was empty, and by 1000 for each obstacle
    that is not virtual, is static and has a stop decision; but the
    obstacles are not charged when the assembly of the trajectory fails. *)
Theorem PlanOnReferenceLine_finish_charges (p : TrajectoryPoint) (ret : Status)
    (r r' : ReferenceLineInfo) (status : Status) :
  PlanOnReferenceLine_finish FLAGS CombinePathAndSpeedProfile ValidTrajectory
    p ret r = Some (status, r') ->
  PriorityCost r' = PriorityCost r /\
  Cost r <= Cost r' /\
  Cost r' ==
  Cost r
  + (if Empty (path_data r) then kPathOptimizationFallbackClost else 0)
  + (if negb (ok ret) || Empty (speed_data r)
     then kSpeedOptimizationFallbackClost else 0)
  + (if String.eqb (error_message status) aggregate_error then 0
     else inject_Z (Z.of_nat (List.length
                                (filter blocking (path_obstacles r))))
          * kRefrenceLineStaticObsCost).
Proof.
  intro H. apply PlanOnReferenceLine_finish_steps in H.
  destruct H as [r1 [r2 [H1 [H2 H3]]]].
  set (c1 := if Empty (path_data r)
             then kPathOptimizationFallbackClost else 0).
  set (c2 := if negb (ok ret) || Empty (speed_data r)
             then kSpeedOptimizationFallbackClost else 0).
  set (n := inject_Z (Z.of_nat (List.length
                                  (filter blocking (path_obstacles r))))).
  assert (Hc1 : 0 <= c1).
  { unfold c1. destruct (Empty (path_data r)); discriminate. }
  assert (Hc2 : 0 <= c2).
  { unfold c2. destruct (negb (ok ret) || Empty (speed_data r));
      discriminate. }
  assert (Hn : 0 <= n).
  { unfold n. change 0 with (inject_Z 0). rewrite <- Zle_Qle. lia. }
  assert (K1 : Cost r1 == Cost r + c1 /\ PriorityCost r1 = PriorityCost r /\
               path_obstacles r1 = path_obstacles r).
  { unfold c1. destruct (Empty (path_data r)).
    - destruct H1 as [pts [_ ->]]. repeat split; apply Qeq_refl.
    - subst r1. repeat split. lra. }
  destruct K1 as [Kc1 [Kp1 Ko1]].
  assert (K2 : Cost r2 == Cost r1 + c2 /\ PriorityCost r2 = PriorityCost r1 /\
               path_obstacles r2 = path_obstacles r1).
  { unfold c2. destruct (negb (ok ret) || Empty (speed_data r)).
    - destruct H2 as [sd [_ ->]]. repeat split; apply Qeq_refl.
    - subst r2. repeat split. lra. }
  destruct K2 as [Kc2 [Kp2 Ko2]].
  rewrite Ko2, Ko1 in H3.
  destruct (static_obstacle_loop_cost (path_obstacles r) r2) as [Kc3 Kp3].
  fold n in Kc3.
  unfold kRefrenceLineStaticObsCost in *.
  destruct (CombinePathAndSpeedProfile _ _ r2) as [tr|].
  - destruct (FLAGS_enable_trajectory_check FLAGS
              && negb (ValidTrajectory tr));
      destruct H3 as [-> ->];
      cbn [error_message Status_OK String.eqb aggregate_error validate_error
           Ascii.eqb Bool.eqb PriorityCost Cost SetDrivable SetTrajectory];
      (split; [congruence|]); split; rewrite ?Kc3, Kc2, Kc1; nra.
  - destruct H3 as [-> ->].
    cbn [error_message]. rewrite String.eqb_refl.
    split; [congruence|]. split; rewrite Kc2, Kc1; lra.
Qed.

End CandidateResult.

(** ** What [Plan] leaves in the frame *)

Section PlanOutcome.

Variable FLAGS : Flags.
Variable World : Type.
Variable NowInSeconds : World -> Q * World.
Variable tasks_ : list (Task World).
Variable IsStartFrom : ReferenceLineInfo -> ReferenceLineInfo -> bool.
Variable Latest : option Frame.
Variable CombinePathAndSpeedProfile :
  Q -> Q -> ReferenceLineInfo -> option DiscretizedTrajectory.
Variable ValidTrajectory : DiscretizedTrajectory -> bool.

(** Each result of [PlanEach] comes from the call on the candidate at the
    same position. *)
Lemma PlanEach_nth (p : TrajectoryPoint) (index : nat)
    (infos : list ReferenceLineInfo) (w w' : World)
    (results : list (Status * ReferenceLineInfo)) :
  PlanEach FLAGS World NowInSeconds tasks_ IsStartFrom Latest
    CombinePathAndSpeedProfile ValidTrajectory p index infos w results w' ->
  forall n res, nth_error results n = Some res ->
  exists info w1 w2,
    nth_error infos n = Some info /\
    PlanOnReferenceLine FLAGS World NowInSeconds tasks_ IsStartFrom Latest
      CombinePathAndSpeedProfile ValidTrajectory p
      (with_priority FLAGS (index + n) info) w1
    = Some (fst res, snd res, w2).
Proof.
  intro H. induction H as [|index info rest w status info' w1 results w2
                            Hone _ IH]; intros n res Hn.
  - destruct n; discriminate.
  - destruct n as [|n]; cbn [nth_error] in Hn.
    + injection Hn as <-. rewrite Nat.add_0_r. cbn [fst snd nth_error]. eauto.
    + destruct (IH n res Hn) as [info0 [w3 [w4 [Hi Hp]]]].
      rewrite Nat.add_succ_comm in Hp. cbn [nth_error]. eauto.
Qed.

Lemma PlanOnReferenceLine_ok_drivable (p : TrajectoryPoint)
    (r r' : ReferenceLineInfo) (w w' : World) :
  PlanOnReferenceLine FLAGS World NowInSeconds tasks_ IsStartFrom Latest
    CombinePathAndSpeedProfile ValidTrajectory p r w
  = Some (Status_OK, r', w') ->
  IsDrivable r' = true.
Proof.
  unfold PlanOnReferenceLine. intro H.
  apply obind_Some in H. destruct H as [seeded [_ H]].
  destruct (run_tasks FLAGS World NowInSeconds tasks_ Status_OK seeded w)
    as [[ret r1] w1].
  apply obind_Some in H. destruct H as [[st r2] [Hfin H]].
  injection H as -> -> ->.
  apply PlanOnReferenceLine_finish_steps in Hfin.
  destruct Hfin as [q1 [q2 [_ [_ H3]]]].
  destruct (CombinePathAndSpeedProfile _ _ q2) as [tr|].
  - destruct (FLAGS_enable_trajectory_check FLAGS
              && negb (ValidTrajectory tr));
      destruct H3 as [Hst ->]; [discriminate|reflexivity].
  - destruct H3 as [Hst _]. discriminate.
Qed.

Lemma run_tasks_priority (tasks : list (Task World)) :
  (forall task w r, In task tasks ->
     PriorityCost (snd (fst (Execute World task w r))) = PriorityCost r) ->
  forall ret0 r w,
    PriorityCost (snd (fst (run_tasks FLAGS World NowInSeconds tasks ret0 r w)))
    = PriorityCost r.
Proof.
  induction tasks as [|task rest IH]; intros Hkeep ret0 r w;
    cbn [run_tasks]; [reflexivity|].
  destruct (NowInSeconds w) as [start_timestamp w1].
  pose proof (Hkeep task w1 r (or_introl eq_refl)) as Hk.
  destruct (Execute World task w1 r) as [[ret r1] w2]. cbn [fst snd] in Hk.
  destruct (ok ret); cbn [negb]; [|exact Hk].
  destruct (NowInSeconds w2) as [end_timestamp w3].
  rewrite IH; [|intros t w0 r0 Hin; apply Hkeep; right; exact Hin].
  rewrite <- Hk. unfold RecordDebugInfo.
  destruct (FLAGS_enable_record_debug FLAGS); reflexivity.
Qed.

Lemma PlanOnReferenceLine_priority (p : TrajectoryPoint)
    (r r' : ReferenceLineInfo) (w w' : World) (status : Status) :
  (forall task w r, In task tasks_ ->
     PriorityCost (snd (fst (Execute World task w r))) = PriorityCost r) ->
  PlanOnReferenceLine FLAGS World NowInSeconds tasks_ IsStartFrom Latest
    CombinePathAndSpeedProfile ValidTrajectory p r w
  = Some (status, r', w') ->
  PriorityCost r' = PriorityCost r.
Proof.
  intros Hkeep H. unfold PlanOnReferenceLine in H.
  apply obind_Some in H. destruct H as [seeded [Hseed H]].
  destruct (PlanOnReferenceLine_seed_cost _ _ _ _ _ _ Hseed) as [_ Hsp].
  pose proof (run_tasks_priority tasks_ Hkeep Status_OK seeded w) as Hrun.
  destruct (run_tasks FLAGS World NowInSeconds tasks_ Status_OK seeded w)
    as [[ret r1] w1].
  cbn [fst snd] in Hrun.
  apply obind_Some in H. destruct H as [[st r2] [Hfin H]].
  injection H as -> -> ->.
  apply PlanOnReferenceLine_finish_steps in Hfin.
  destruct Hfin as [q1 [q2 [H1 [H2 H3]]]].
  assert (K1 : PriorityCost q1 = PriorityCost r1).
  { destruct (Empty (path_data r1)); [|congruence].
    destruct H1 as [pts [_ ->]]. reflexivity. }
  assert (K2 : PriorityCost q2 = PriorityCost q1).
  { destruct (negb (ok ret) || Empty (speed_data r1)); [|congruence].
    destruct H2 as [sd [_ ->]]. reflexivity. }
  destruct (static_obstacle_loop_cost (path_obstacles q2) q2) as [_ K3].
  assert (K4 : PriorityCost r' = PriorityCost q2).
  { destruct (CombinePathAndSpeedProfile _ _ q2) as [tr|].
    - destruct (FLAGS_enable_trajectory_check FLAGS
                && negb (ValidTrajectory tr));
        destruct H3 as [_ ->]; exact K3.
    - destruct H3 as [_ ->]. reflexivity. }
  congruence.
Qed.

(** X16.  A frame without candidates fails: [Plan] returns the planning
    error "Failed to plan on any reference line." and leaves the frame and
    the world as they are. *)
Theorem Plan_without_candidates (p : TrajectoryPoint) (frame : Frame)
    (w : World) :
  reference_line_info frame = [] ->
  Plan FLAGS World NowInSeconds tasks_ IsStartFrom Latest
    CombinePathAndSpeedProfile ValidTrajectory p frame w
  = Some (mkStatus PLANNING_ERROR plan_error, frame, w).
Proof.
  destruct frame as [start infos drive]. cbn [reference_line_info].
  intros ->. reflexivity.
Qed.

(** X17.  When [Plan] returns [Status::OK()], the frame holds a candidate
    that is drivable. *)
Theorem Plan_ok_leaves_drivable (p : TrajectoryPoint) (frame frame' : Frame)
    (w w' : World) :
  Plan FLAGS World NowInSeconds tasks_ IsStartFrom Latest
    CombinePathAndSpeedProfile ValidTrajectory p frame w
  = Some (Status_OK, frame', w') ->
  Exists (fun r => IsDrivable r = true) (reference_line_info frame').
Proof.
  unfold Plan. intro H.
  apply obind_Some in H. destruct H as [[[infos' c] w1] [Hloop H]].
  cbv beta iota in H.
  destruct (Plan_loop_sound _ _ _ _ _ _ _ _ _ _ _ _ _ _ _ _ Hloop)
    as [results [-> [-> Heach]]].
  cbn [Nat.add] in H.
  destruct (0 <? List.length (filter _ results))%nat eqn:Hpos;
    [|discriminate].
  injection H as <- <-. cbn [reference_line_info].
  apply some_line_succeeded in Hpos.
  apply Exists_exists in Hpos. destruct Hpos as [res [Hin Hok]].
  apply In_nth_error in Hin. destruct Hin as [n Hn].
  destruct (PlanEach_nth _ _ _ _ _ _ Heach n res Hn)
    as [info [w2 [w3 [_ Hcall]]]].
  rewrite Hok in Hcall. apply PlanOnReferenceLine_ok_drivable in Hcall.
  apply Exists_exists. exists (snd res). split; [|exact Hcall].
  apply in_map. eapply nth_error_In. exact Hn.
Qed.

(** X18.  When no task writes the priority cost, [Plan] leaves the first
    candidate of the frame with priority cost 0 and every other candidate
    with the configured cost of a non-priority reference line. *)
Theorem Plan_priority_costs (p : TrajectoryPoint) (frame frame' : Frame)
    (w w' : World) (status : Status) :
  (forall task w r, In task tasks_ ->
     PriorityCost (snd (fst (Execute World task w r))) = PriorityCost r) ->
  Plan FLAGS World NowInSeconds tasks_ IsStartFrom Latest
    CombinePathAndSpeedProfile ValidTrajectory p frame w
  = Some (status, frame', w') ->
  forall n r',
    nth_error (reference_line_info frame') n = Some r' ->
    PriorityCost r' = match n with
                      | O => 0
                      | S _ => FLAGS_cost_non_priority_reference_line FLAGS
                      end.
Proof.
  intros Hkeep H n r' Hn. unfold Plan in H.
  apply obind_Some in H. destruct H as [[[infos' c] w1] [Hloop H]].
  cbv beta iota in H.
  destruct (Plan_loop_sound _ _ _ _ _ _ _ _ _ _ _ _ _ _ _ _ Hloop)
    as [results [-> [-> Heach]]].
  assert (Hf : reference_line_info frame' = map snd results).
  { destruct (0 <? _)%nat; injection H as _ <- _; reflexivity. }
  rewrite Hf in Hn. rewrite nth_error_map in Hn.
  destruct (nth_error results n) as [res|] eqn:Hres; [|discriminate].
  injection Hn as <-.
  destruct (PlanEach_nth _ _ _ _ _ _ Heach n res Hres)
    as [info [w2 [w3 [_ Hcall]]]].
  rewrite (PlanOnReferenceLine_priority _ _ _ _ _ _ Hkeep Hcall).
  cbn [Nat.add]. unfold with_priority. destruct n; reflexivity.
Qed.

End PlanOutcome.

(** ** Runs of the properties above *)


(** A run of X13 on the same candidate. *)
Lemma PlanOnReferenceLine_finish_fills_witness :
  exists r', finish_decided = Some (Status_OK, r') /\
             speed_data r' <> [] /\ path_data r' <> [].
Proof.
  eexists. split; [vm_compute; reflexivity|].
  destruct (PlanOnReferenceLine_finish_fills usual_flags combine_ok
              valid_always (vehicle_at 0 0 5 0) Status_OK decided_candidate
              _ Status_OK eq_refl) as [Hs [Hp _]].
  split; [exact Hs|]. apply Hp. left. discriminate.
Defined.

(** A run of X14: the only task fails, the candidate is planned. *)
Lemma PlanOnReferenceLine_ok_whatever_the_tasks_witness :
  exists r' w', plan_first_with blocked_task = Some (Status_OK, r', w') /\
                IsDrivable r' = true.
Proof.
  apply (PlanOnReferenceLine_ok_whatever_the_tasks usual_flags Q tick
           [blocked_task] always_continues None combine_ok valid_always
           (vehicle_at (1483 # 10) (- (2 # 10)) 0 0)
           (with_priority usual_flags 0 offset_candidate) 0).
  - reflexivity.
  - discriminate.
  - right. reflexivity.
Defined.

(** A run of X15 on the decided candidate: nothing is charged. *)
Lemma PlanOnReferenceLine_finish_charges_witness :
  exists r', finish_decided = Some (Status_OK, r') /\
             PriorityCost r' = 0 /\ Cost r' == 0.
Proof.
  eexists. split; [vm_compute; reflexivity|].
  destruct (PlanOnReferenceLine_finish_charges usual_flags combine_ok
              valid_always (vehicle_at 0 0 5 0) Status_OK decided_candidate
              _ Status_OK eq_refl) as [Hp [_ Hc]].
  split; [exact Hp|]. rewrite Hc. reflexivity.
Defined.

(** A run of X16. *)
Lemma Plan_without_candidates_witness :
  Plan usual_flags Q tick [deciding_task] always_continues None
    combine_ok valid_always (vehicle_at 0 0 5 0) no_candidates 0
  = Some (mkStatus PLANNING_ERROR plan_error, no_candidates, 0).
Proof.
  apply (Plan_without_candidates usual_flags Q tick [deciding_task]
           always_continues None combine_ok valid_always).
  reflexivity.
Defined.

(** A run of X17: one of three candidates is assembled. *)
Lemma Plan_ok_leaves_drivable_witness :
  exists frame' w',
    plan_three = Some (Status_OK, frame', w') /\
    Exists (fun r => IsDrivable r = true) (reference_line_info frame').
Proof.
  do 2 eexists. split; [vm_compute; reflexivity|].
  eapply (Plan_ok_leaves_drivable usual_flags Q tick [deciding_task]
            always_continues None combine_first_only valid_always
            (vehicle_at 0 0 5 0) three_candidates _ 0).
  vm_compute. reflexivity.
Defined.

(** A run of X18: the second candidate of the three. *)
Lemma Plan_priority_costs_witness :
  exists status frame' w' r',
    plan_three = Some (status, frame', w') /\
    nth_error (reference_line_info frame') 1 = Some r' /\
    PriorityCost r' = 1000.
Proof.
  assert (Hkeep : forall (task : Task Q) (w : Q) (r : ReferenceLineInfo),
             In task [deciding_task] ->
             PriorityCost (snd (fst (Execute Q task w r))) = PriorityCost r).
  { intros task w r [<-|[]]. reflexivity. }
  assert (Hrun : exists status frame' w' r',
             plan_three = Some (status, frame', w') /\
             nth_error (reference_line_info frame') 1 = Some r').
  { do 4 eexists. split; vm_compute; reflexivity. }
  destruct Hrun as [status [frame' [w' [r' [Hplan Hn]]]]].
  exists status, frame', w', r'. split; [exact Hplan|].
  split; [exact Hn|].
  unfold plan_three in Hplan.
  change 1000 with (FLAGS_cost_non_priority_reference_line usual_flags).
  exact (Plan_priority_costs usual_flags Q tick [deciding_task]
           always_continues None combine_first_only valid_always
           (vehicle_at 0 0 5 0) three_candidates frame' 0 w' status
           Hkeep Hplan 1%nat r' Hn).
Defined.

(** ** [Init]: the tasks of the configuration *)

Section InitProperties.

Variable World : Type.
Variable TaskType : Type.
Variable PlanningConfig : Type.
Variable navi_planner_config_task : PlanningConfig -> list TaskType.
Variable CreateObject : TaskType -> option (TaskObject World PlanningConfig).

Lemma Init_create_some (types : list TaskType) :
  forall tasks0 tasks',
    Init_create World TaskType PlanningConfig CreateObject types tasks0
    = Some tasks' ->
    exists created,
      tasks' = tasks0 ++ created /\
      Forall2 (fun task object => CreateObject task = Some object)
              types created.
Proof.
  induction types as [|task rest IH]; intros tasks0 tasks';
    cbn [Init_create].
  - intros [= <-]. exists []. rewrite app_nil_r. split; constructor.
  - destruct (CreateObject task) as [object|] eqn:E; [|discriminate].
    intro H. apply IH in H. destruct H as [created [-> Hall]].
    exists (object :: created). rewrite <- app_assoc. split; [reflexivity|].
    constructor; assumption.
Qed.

Lemma Init_create_none (types : list TaskType) :
  forall tasks0,
    Init_create World TaskType PlanningConfig CreateObject types tasks0 = None
    <-> Exists (fun task => CreateObject task = None) types.
Proof.
  induction types as [|task rest IH]; intro tasks0; cbn [Init_create].
  - split; [discriminate|]. intro H. inversion H.
  - destruct (CreateObject task) as [object|] eqn:E.
    + rewrite IH. split; [intro H; right; exact H|].
      intro H. inversion H as [? ? Hh|? ? Ht]; subst; [congruence|exact Ht].
    + split; [intros _; left; exact E|reflexivity].
Qed.

Lemma Init_tasks_status (config : PlanningConfig)
    (tasks : list (TaskObject World PlanningConfig)) :
  forall w,
    let status := fst (Init_tasks World PlanningConfig config tasks w) in
    (status = Status_OK \/
     exists task,
       In task tasks /\
       status = mkStatus PLANNING_ERROR
                  (init_error (Name World
                                 (object_task World PlanningConfig task)))) /\
    ((forall task w0, In task tasks ->
        fst (object_Init World PlanningConfig task config w0) = true) ->
     status = Status_OK).
Proof.
  induction tasks as [|task rest IH]; intro w; cbv zeta; cbn [Init_tasks].
  - split; [left; reflexivity|reflexivity].
  - pose proof (fun H : forall t w0, In t (task :: rest) ->
                  fst (object_Init World PlanningConfig t config w0) = true
                => H task w (or_introl eq_refl)) as Hhead.
    destruct (object_Init World PlanningConfig task config w)
      as [initialized w1].
    cbn [fst] in Hhead.
    destruct initialized; cbn [negb].
    + destruct (IH w1) as [Hor Hall]. split.
      * destruct Hor as [Hok|[t [Hin Ht]]]; [left; exact Hok|].
        right. exists t. split; [right; exact Hin|exact Ht].
      * intro H. apply Hall. intros t w0 Hin. apply H. right. exact Hin.
    + split.
      * right. exists task. split; [left; reflexivity|reflexivity].
      * intro H. specialize (Hhead H). discriminate.
Qed.

(** X19.  [Init] uses a null task exactly when the configuration names a
    type for which the factory creates nothing.  Otherwise it returns, and
    [tasks_] then holds the tasks it held before followed by one created
    task per entry of the configuration, in the order of the
    configuration. *)
Theorem Init_creates_configured_tasks (config : PlanningConfig)
    (tasks0 : list (TaskObject World PlanningConfig)) (w : World) :
  (Init World TaskType PlanningConfig navi_planner_config_task CreateObject
     config tasks0 w = None
   <-> Exists (fun task => CreateObject task = None)
              (navi_planner_config_task config)) /\
  (forall status tasks' w',
     Init World TaskType PlanningConfig navi_planner_config_task CreateObject
       config tasks0 w = Some (status, tasks', w') ->
     exists created,
       tasks' = tasks0 ++ created /\
       Forall2 (fun task object => CreateObject task = Some object)
               (navi_planner_config_task config) created).
Proof.
  unfold Init. split.
  - rewrite <- (Init_create_none _ tasks0).
    destruct (Init_create _ _ _ _ _ tasks0) as [tasks'|]; cbn [obind].
    + destruct (Init_tasks _ _ config tasks' w). split; discriminate.
    + split; reflexivity.
  - intros status tasks' w' H.
    apply obind_Some in H. destruct H as [created_all [Hc H]].
    destruct (Init_tasks _ _ config created_all w) as [st w1].
    injection H as _ <- _. exact (Init_create_some _ _ _ Hc).
Qed.

(** X20.  When [Init] returns, its status is [Status::OK()] or the
    planning error "Init task[NAME] failed." for the name of one of the
    tasks of [tasks_]; and it is [Status::OK()] when the [Init] of every
    task of [tasks_] returns true. *)
Theorem Init_status (config : PlanningConfig)
    (tasks0 tasks' : list (TaskObject World PlanningConfig)) (w w' : World)
    (status : Status) :
  Init World TaskType PlanningConfig navi_planner_config_task CreateObject
    config tasks0 w = Some (status, tasks', w') ->
  (status = Status_OK \/
   exists task,
     In task tasks' /\
     status = mkStatus PLANNING_ERROR
                (init_error (Name World
                               (object_task World PlanningConfig task)))) /\
  ((forall task w0, In task tasks' ->
      fst (object_Init World PlanningConfig task config w0) = true) ->
   status = Status_OK).
Proof.
  unfold Init. intro H.
  apply obind_Some in H. destruct H as [created_all [_ H]].
  pose proof (Init_tasks_status config created_all w) as Hs. cbv zeta in Hs.
  destruct (Init_tasks _ _ config created_all w) as [st w1].
  injection H as <- <- _. exact Hs.
Qed.

End InitProperties.

(** ** [RecordObstacleDebugInfo]: the debug entries of the obstacles *)

Section ObstacleDebugProperties.

Variable SLBoundary : Type.
Variable ObjectDecisionType : Type.

Lemma skipn_nth_error {A : Type} (l : list A) :
  forall i a, nth_error l i = Some a -> skipn i l = a :: skipn (S i) l.
Proof.
  induction l as [|b l IH]; intros i a H; destruct i; try discriminate.
  - injection H as ->. reflexivity.
  - cbn [nth_error] in H. cbn [skipn]. rewrite (IH i a H). reflexivity.
Qed.

(** With enough decisions, the tags are paired with the decisions at the
    same indices. *)
Lemma add_decision_tags_paired (tags : list string) :
  forall i (decisions : list ObjectDecisionType) acc,
    (List.length tags + i <= List.length decisions)%nat ->
    add_decision_tags ObjectDecisionType tags i decisions acc
    = Some (acc ++ combine tags (skipn i decisions)).
Proof.
  induction tags as [|tag rest IH]; intros i decisions acc Hlen;
    cbn [add_decision_tags].
  - cbn [combine]. rewrite app_nil_r. reflexivity.
  - cbn [List.length] in Hlen.
    destruct (nth_error decisions i) as [d|] eqn:E.
    + rewrite IH by lia. rewrite (skipn_nth_error _ _ _ E).
      cbn [combine]. rewrite <- app_assoc. reflexivity.
    + apply nth_error_None in E. lia.
Qed.

(** With too few decisions, the loop reads beyond their end. *)
Lemma add_decision_tags_beyond (tags : list string) :
  forall i (decisions : list ObjectDecisionType) acc,
    (i <= List.length decisions < List.length tags + i)%nat ->
    add_decision_tags ObjectDecisionType tags i decisions acc = None.
Proof.
  induction tags as [|tag rest IH]; intros i decisions acc Hlen;
    cbn [add_decision_tags]; cbn [List.length] in Hlen; [lia|].
  destruct (nth_error decisions i) as [d|] eqn:E; [|reflexivity].
  apply IH. assert (i < List.length decisions)%nat; [|lia].
  apply nth_error_Some. congruence.
Qed.

(** X21.  With debug recording enabled and, for every obstacle, at least
    as many decisions as decider tags, the function adds one entry per
    obstacle at the end of the debug data, in the order of the obstacles:
    the id and the boundary of the obstacle, and its tags paired in order
    with its decisions (decisions beyond the tags are left out). *)
Theorem RecordObstacleDebugInfo_entries (FLAGS : Flags)
    (path_obstacles : list (ObstacleRecord SLBoundary ObjectDecisionType))
    (obstacle : list (ObstacleDebug SLBoundary ObjectDecisionType)) :
  FLAGS_enable_record_debug FLAGS = true ->
  Forall (fun o =>
            (List.length (decider_tags SLBoundary ObjectDecisionType o)
             <= List.length (decisions SLBoundary ObjectDecisionType o))%nat)
         path_obstacles ->
  RecordObstacleDebugInfo SLBoundary ObjectDecisionType FLAGS path_obstacles
                          obstacle
  = Some (obstacle ++
          map (fun o =>
                 mkObstacleDebug SLBoundary ObjectDecisionType
                   (Id SLBoundary ObjectDecisionType o)
                   (PerceptionSLBoundary SLBoundary ObjectDecisionType o)
                   (combine (decider_tags SLBoundary ObjectDecisionType o)
                            (decisions SLBoundary ObjectDecisionType o)))
              path_obstacles).
Proof.
  intros Hflag Hall. unfold RecordObstacleDebugInfo. rewrite Hflag.
  cbn [negb]. revert obstacle.
  induction Hall as [|o rest Ho _ IH]; intro obstacle;
    cbn [RecordObstacleDebugInfo_loop map].
  - rewrite app_nil_r. reflexivity.
  - rewrite add_decision_tags_paired by lia. cbn [obind app skipn].
    rewrite IH, <- app_assoc. reflexivity.
Qed.

(** X22.  With debug recording enabled, an obstacle with fewer decisions
    than decider tags makes the function read the decisions beyond their
    end; with debug recording disabled the debug data are left as they
    are, whatever the obstacles. *)
Theorem RecordObstacleDebugInfo_bounds (FLAGS : Flags)
    (path_obstacles : list (ObstacleRecord SLBoundary ObjectDecisionType))
    (obstacle : list (ObstacleDebug SLBoundary ObjectDecisionType)) :
  (FLAGS_enable_record_debug FLAGS = true ->
   Exists (fun o =>
             (List.length (decisions SLBoundary ObjectDecisionType o)
              < List.length (decider_tags SLBoundary ObjectDecisionType o))%nat)
          path_obstacles ->
   RecordObstacleDebugInfo SLBoundary ObjectDecisionType FLAGS path_obstacles
                           obstacle = None) /\
  (FLAGS_enable_record_debug FLAGS = false ->
   RecordObstacleDebugInfo SLBoundary ObjectDecisionType FLAGS path_obstacles
                           obstacle = Some obstacle).
Proof.
  unfold RecordObstacleDebugInfo. split; intro Hflag; rewrite Hflag;
    cbn [negb]; [|reflexivity].
  intro Hex. revert obstacle.
  induction Hex as [o rest Ho|o rest _ IH]; intro obstacle;
    cbn [RecordObstacleDebugInfo_loop].
  - rewrite add_decision_tags_beyond by lia. reflexivity.
  - destruct (add_decision_tags _ _ 0 _ []) as [tags|]; cbn [obind];
      [apply IH|reflexivity].
Qed.

End ObstacleDebugProperties.

Lemma Init_status_witness :
  let status := mkStatus PLANNING_ERROR "Init task[failing] failed." in
  Init Q nat (list nat) (fun config => config) two_task_factory
       [0%nat; 1%nat] [] 0
  = Some (status, two_tasks_created, 0) /\
  (status = Status_OK \/
   exists task,
     In task two_tasks_created /\
     status = mkStatus PLANNING_ERROR
                (init_error (Name Q (object_task Q (list nat) task)))) /\
  ((forall task w0, In task two_tasks_created ->
      fst (object_Init Q (list nat) task [0%nat; 1%nat] w0) = true) ->
   status = Status_OK).
Proof.
  cbv zeta.
  assert (H : Init Q nat (list nat) (fun config => config) two_task_factory
                   [0%nat; 1%nat] [] 0
              = Some (mkStatus PLANNING_ERROR "Init task[failing] failed.",
                      two_tasks_created, 0)).
  { vm_compute. reflexivity. }
  split; [exact H|].
  exact (Init_status Q nat (list nat) (fun config => config) two_task_factory
                     [0%nat; 1%nat] [] two_tasks_created 0 0 _ H).
Defined.

Lemma RecordObstacleDebugInfo_entries_witness :
  RecordObstacleDebugInfo Q nat usual_flags recorded_obstacles []
  = Some ([] ++
          map (fun o =>
                 mkObstacleDebug Q nat (Id Q nat o)
                   (PerceptionSLBoundary Q nat o)
                   (combine (decider_tags Q nat o) (decisions Q nat o)))
              recorded_obstacles).
Proof.
  apply (RecordObstacleDebugInfo_entries Q nat usual_flags recorded_obstacles
                                         []).
  - reflexivity.
  - repeat first [apply Forall_cons | apply Forall_nil]; cbn; lia.
Defined.

(** ** The fallback path, whatever the candidate *)

(** X23.  The fallback path generator always returns, and every point of
    its path is at the position of the vehicle, at height 0, with the
    heading and the curvature of the reference point at the arc-length of
    the vehicle and a zero second derivative of the curvature: the points
    differ in their arc-length only. *)
Theorem GenerateFallbackPathProfile_points (r : ReferenceLineInfo) :
  let adc := tp_path_point (AdcPlanningPoint r) in
  let adc_ref := GetReferencePoint (reference_line r) (AdcSlBoundary_end_s r) in
  exists pts,
    GenerateFallbackPathProfile r = Some pts /\
    Forall (fun p => pp_x p == pp_x adc /\ pp_y p == pp_y adc /\
                     pp_z p = 0 /\
                     pp_theta p = rp_heading adc_ref /\
                     pp_kappa p = rp_kappa adc_ref /\
                     pp_dkappa p = rp_dkappa adc_ref /\
                     pp_ddkappa p = 0) pts.
Proof.
  cbv zeta. unfold GenerateFallbackPathProfile.
  destruct (range_lt_terminates (AdcSlBoundary_end_s r) 150 1) as [ss Hss];
    [reflexivity|].
  rewrite Hss. cbn [obind]. eexists. split; [reflexivity|].
  rewrite Forall_map. apply Forall_forall. intros s _.
  cbn [set_s MakePathPoint pp_x pp_y pp_z pp_theta pp_kappa pp_dkappa
       pp_ddkappa].
  repeat split; lra.
Qed.

(** ** The validity check of a curve *)

(** Among the candidate durations, the end of the curve is itself a time
    of the check for 2.5 s only. *)
Lemma sample_times_end :
  Forall (fun t =>
            In t (sample_times (round_to_double (1 # 10))
                               (round_to_double (2 # 10)) t)
            <-> t = 5 # 2)
         candidate_durations.
Proof.
  assert (Hin : In (5 # 2) (sample_times (round_to_double (1 # 10))
                                         (round_to_double (2 # 10)) (5 # 2))).
  { apply (nth_error_In _ 12). vm_compute. reflexivity. }
  assert (Hout : forallb
                   (fun t =>
                      Qeq_bool t (5 # 2)
                      || forallb (fun time => negb (Qeq_bool time t))
                           (sample_times (round_to_double (1 # 10))
                                         (round_to_double (2 # 10)) t))
                   candidate_durations = true)
    by (vm_compute; reflexivity).
  rewrite forallb_forall in Hout. apply Forall_forall. intros t Ht.
  split; [|intros ->; exact Hin].
  intro H. specialize (Hout t Ht). apply orb_true_iff in Hout.
  destruct Hout as [Heq|Hall].
  - unfold candidate_durations in Ht. cbn [In] in Ht.
    destruct Ht as [<-|[<-|[<-|[<-|[<-|[]]]]]];
      first [reflexivity | discriminate Heq].
  - rewrite forallb_forall in Hall. specialize (Hall t H).
    apply negb_true_iff in Hall.
    assert (Ht' : Qeq_bool t t = true) by (apply Qeq_bool_iff; reflexivity).
    congruence.
Qed.

(** X24.  On a curve of one of the candidate durations 2.0, 2.5, ...,
    4.0, [IsValidProfile] returns, and it accepts the curve exactly when
    the velocity is not below -0.001 and the acceleration not below -5 at
    each time of its counter.  These times are the instants 0.1 + 0.2 k
    up to a rounding error of at most 1e-12, all those before the end of
    the curve; the end itself is looked at on a curve of 2.5 s only: on a
    curve of 3.5 s the counter, a double, has passed 3.5 when it should
    reach it. *)
Theorem IsValidProfile_checked_times (curve : QuinticPolynomialCurve1d) :
  In (ParamLength curve) candidate_durations ->
  let times := sample_times (round_to_double (1 # 10))
                            (round_to_double (2 # 10)) (ParamLength curve) in
  (exists valid, IsValidProfile curve = Some valid) /\
  (IsValidProfile curve = Some true <->
   Forall (fun time => - (1 # 1000) <= Evaluate curve 1 time /\
                       -5 <= Evaluate curve 2 time) times) /\
  steps_up_to (1 # 10) (2 # 10) (ParamLength curve) times /\
  (In (ParamLength curve) times <-> ParamLength curve = 5 # 2).
Proof.
  intro Hin. cbv zeta.
  rewrite (IsValidProfile_valid_curve curve Hin).
  split; [eauto|]. split; [|split].
  - unfold valid_curve. rewrite Forall_forall. split.
    + intros [= Hall] time Htime.
      rewrite forallb_forall in Hall. specialize (Hall time Htime).
      apply andb_true_iff in Hall. destruct Hall as [Hv Ha].
      split; apply Qle_bool_iff; assumption.
    + intro Hall. f_equal. apply forallb_forall. intros time Htime.
      destruct (Hall time Htime) as [Hv Ha].
      apply andb_true_iff. split; apply Qle_bool_iff; assumption.
  - pose proof sample_times_steps as Hs. rewrite Forall_forall in Hs.
    exact (proj1 (Hs _ Hin)).
  - pose proof sample_times_end as He. rewrite Forall_forall in He.
    exact (He _ Hin).
Qed.

(** A run of X24 on the curve that stops a vehicle at 10 m/s in 3.5 s and
    20 m. *)
Lemma IsValidProfile_checked_times_witness :
  let curve := stop_curve 10 0 (7 # 2) 20 in
  let times := sample_times (round_to_double (1 # 10))
                            (round_to_double (2 # 10)) (ParamLength curve) in
  In (ParamLength curve) candidate_durations /\
  (exists valid, IsValidProfile curve = Some valid) /\
  (IsValidProfile curve = Some true <->
   Forall (fun time => - (1 # 1000) <= Evaluate curve 1 time /\
                       -5 <= Evaluate curve 2 time) times) /\
  steps_up_to (1 # 10) (2 # 10) (ParamLength curve) times /\
  (In (ParamLength curve) times <-> ParamLength curve = 5 # 2).
Proof.
  cbv zeta.
  assert (Hin : In (ParamLength (stop_curve 10 0 (7 # 2) 20))
                   candidate_durations).
  { right. right. right. left. reflexivity. }
  split; [exact Hin|].
  exact (IsValidProfile_checked_times (stop_curve 10 0 (7 # 2) 20) Hin).
Defined.

(** ** The tasks and the debug entries on concrete inputs *)

Lemma Init_creates_configured_tasks_witness :
  Init Q nat (list nat) (fun config => config) two_task_factory
       [0%nat; 5%nat] [] 0 = None /\
  exists created,
    two_tasks_created = [] ++ created /\
    Forall2 (fun task object => two_task_factory task = Some object)
            [0%nat; 1%nat] created.
Proof.
  split.
  - apply (proj1 (Init_creates_configured_tasks Q nat (list nat)
                    (fun config => config) two_task_factory
                    [0%nat; 5%nat] [] 0)).
    apply Exists_cons_tl. apply Exists_cons_hd. reflexivity.
  - apply (proj2 (Init_creates_configured_tasks Q nat (list nat)
                    (fun config => config) two_task_factory
                    [0%nat; 1%nat] [] 0)
                 (mkStatus PLANNING_ERROR "Init task[failing] failed.")
                 two_tasks_created 0).
    vm_compute. reflexivity.
Defined.

Lemma RecordObstacleDebugInfo_bounds_witness :
  RecordObstacleDebugInfo Q nat usual_flags
    (recorded_obstacles ++ short_decisions) [] = None.
Proof.
  apply (proj1 (RecordObstacleDebugInfo_bounds Q nat usual_flags
                  (recorded_obstacles ++ short_decisions) [])).
  - reflexivity.
  - apply Exists_app. right. apply Exists_cons_hd. cbn. lia.
Defined.
